(** * ReportsDAY backend: the report orchestration core

    A shallow embedding of the KPI aggregator and historical analyser
    (API-55PBX/service.js), the scheduler (CORE/scheduler.js), the
    notification dispatcher (API-WHATSAPP/service.js), the day cache
    (DB-Reports/service.js) and the connections of the panel
    (CORE/websocket.js), with the properties the specification states
    about them and further properties read off the code.

    Conventions of the embedding.
    - A JavaScript value coming from JSON is a [jsval]; its numbers are the
      integers (call counts, seconds), far below 2^53, on which sums and
      products are exact.  [NaN] is kept, since [parseInt] produces it and
      it propagates through sums and means.  Divisions are treated in
      [JS.round_div] and under "Double arithmetic" below.
    - Strings are sequences of ASCII characters.
    - An exception is a value [Throw msg] of type [result], and
      [try]/[catch] is the combinator [JS.try_catch]; that a function never
      lets an exception out is then a theorem about it.
    - An instant is a number of milliseconds on the local wall clock, every
      day being 24 hours long; an ISO timestamp string is represented by
      the instant it denotes.
    - Clock readings, the outcome of each HTTP request and the contents of
      the data directory are inputs of the functions that consult them.
      Pauses between requests and log lines on the console do not appear. *)

From Stdlib Require Import ZArith QArith Qround Bool Ascii Lia DecimalString Sorted.
From stdpp Require Import gmap strings list.

Local Open Scope Z_scope.
#[local] Set Warnings "-register-all".

(** ** JavaScript values and the primitives the services use *)
Module JS.

(** A computation that may throw. *)
Inductive result (A : Type) : Type :=
| Ok (a : A)
| Throw (message : string).
Arguments Ok {A} a.
Arguments Throw {A} message.

#[global] Instance result_ret : MRet result := fun A a => Ok a.

#[global] Instance result_bind : MBind result := fun A B k r =>
  match r with
  | Ok a => k a
  | Throw m => Throw m
  end.

(** [try { body } catch (error) { handler(error.message) }]. *)
Definition try_catch {A} (body : result A) (handler : string -> result A) : result A :=
  match body with
  | Ok a => Ok a
  | Throw message => handler message
  end.

(** The result of numeric operations: an integer or NaN. *)
Inductive jsnum : Type :=
| NaN
| Num (z : Z).

Inductive jsval : Type :=
| JUndefined
| JNull
| JBool (b : bool)
| JNum (n : Z)
| JStr (s : string)
| JArr (items : list jsval)
| JObj (fields : list (string * jsval)).

(** [!!v] in JavaScript. *)
Definition truthy (v : jsval) : bool :=
  match v with
  | JUndefined | JNull => false
  | JBool b => b
  | JNum n => negb (n =? 0)
  | JStr s => negb (String.eqb s "")
  | JArr _ | JObj _ => true
  end.

(** [a || b]. *)
Definition or_else (a b : jsval) : jsval := if truthy a then a else b.

Fixpoint assoc (k : string) (fields : list (string * jsval)) : jsval :=
  match fields with
  | [] => JUndefined
  | (k', v) :: rest => if String.eqb k k' then v else assoc k rest
  end.

(** [v.k] for the property names the services read; none of them is
    inherited from a prototype, so a primitive or an array answers
    [undefined], and [null]/[undefined] raise a TypeError. *)
Definition prop (k : string) (v : jsval) : result jsval :=
  match v with
  | JUndefined | JNull => Throw ("TypeError: Cannot read properties (reading '" +:+ k +:+ "')")
  | JObj fields => Ok (assoc k fields)
  | _ => Ok JUndefined
  end.

(** *** Strings *)

Definition upper_ascii (c : ascii) : ascii :=
  let n := nat_of_ascii c in
  if ((97 <=? n)%nat && (n <=? 122)%nat)%bool then ascii_of_nat (n - 32) else c.

Fixpoint toUpperCase (s : string) : string :=
  match s with
  | EmptyString => EmptyString
  | String c rest => String (upper_ascii c) (toUpperCase rest)
  end.

(** [hay.includes(needle)]. *)
Fixpoint includes (hay needle : string) : bool :=
  String.prefix needle hay ||
  match hay with
  | EmptyString => false
  | String _ rest => includes rest needle
  end.

(** [s.split(sep)] for a one-character separator. *)
Fixpoint split_on (sep : ascii) (s : string) : list string :=
  match s with
  | EmptyString => [EmptyString]
  | String c rest =>
      if Ascii.eqb c sep then EmptyString :: split_on sep rest
      else match split_on sep rest with
           | [] => [String c EmptyString]
           | p :: ps => String c p :: ps
           end
  end.

Fixpoint repeat_char (c : ascii) (n : nat) : string :=
  match n with
  | O => EmptyString
  | S n' => String c (repeat_char c n')
  end.

(** [s.padStart(width, c)] for a one-character filler. *)
Definition padStart (width : nat) (c : ascii) (s : string) : string :=
  repeat_char c (width - String.length s) +:+ s.

(** *** Numbers *)

Definition string_of_Z (z : Z) : string := NilZero.string_of_int (Z.to_int z).

Definition string_of_num (x : jsnum) : string :=
  match x with
  | NaN => "NaN"
  | Num z => string_of_Z z
  end.

Definition num_add (a b : jsnum) : jsnum :=
  match a, b with
  | Num x, Num y => Num (x + y)
  | _, _ => NaN
  end.

Definition num_mul (a b : jsnum) : jsnum :=
  match a, b with
  | Num x, Num y => Num (x * y)
  | _, _ => NaN
  end.

(** [Math.round(a / b)] for integers with [b <> 0]: the nearest integer,
    a half rounding up.  For the integers handled here the one rounding of
    the quotient to a double leaves it on the same side of every
    half-integer (an exact half is a double itself), so the exact formula is
    what the code computes. *)
Definition round_div (a b : Z) : Z := (2 * a + b) / (2 * b).

(** [Math.round(total / n)] where [total] may be NaN; every call site
    guarantees [n <> 0]. *)
Definition math_round_div (total : jsnum) (n : Z) : jsnum :=
  match total with
  | NaN => NaN
  | Num t => Num (round_div t n)
  end.

(** *** Double arithmetic

    Where a quotient is multiplied on before it is rounded, the two
    roundings to double precision show (201 / 200 * 100 is
    100.49999999999999, not 100.5), so they are modelled: a double is the
    rational it denotes, and each operation rounds the exact result to the
    nearest number with a 53-bit significand, ties to even.  Overflow and
    subnormals are out of reach of the quantities handled here. *)

(** The integer nearest to [a / b] for [b > 0], ties to even. *)
Definition round_half_even (a b : Z) : Z :=
  let q := a / b in
  match 2 * (a mod b) ?= b with
  | Lt => q
  | Gt => q + 1
  | Eq => if Z.even q then q else q + 1
  end.

(** The double nearest to the positive rational [n / d]. *)
Definition nearest_double_pos (n d : Z) : Q :=
  let e0 := Z.log2 n - Z.log2 d in
  (* the exponent e with 2^e <= n/d < 2^(e+1) is e0 or e0 - 1 *)
  let below := if 0 <=? e0 then n <? 2 ^ e0 * d else n * 2 ^ (- e0) <? d in
  let e := if below then e0 - 1 else e0 in
  let k := 52 - e in
  (* the significand: n/d * 2^k, rounded *)
  let m := if 0 <=? k then round_half_even (n * 2 ^ k) d
           else round_half_even n (d * 2 ^ (- k)) in
  if 0 <=? k then Qmake m (Z.to_pos (2 ^ k)) else inject_Z (m * 2 ^ (- k)).

(** Rounding a rational to the nearest double. *)
Definition to_double (q : Q) : Q :=
  match Qnum q with
  | 0 => 0%Q
  | Zpos n => nearest_double_pos (Zpos n) (Zpos (Qden q))
  | Zneg n => Qopp (nearest_double_pos (Zpos n) (Zpos (Qden q)))
  end.

(** [a / b] on two integers, [b <> 0]. *)
Definition double_div (a b : Z) : Q :=
  to_double (Qmake (a * Z.sgn b) (Z.to_pos (Z.abs b))).

(** [x * y]. *)
Definition double_mul (x y : Q) : Q := to_double (Qmult x y).

(** [Math.round(x)]: the nearest integer, a half rounding up. *)
Definition Math_round (x : Q) : Z := Qfloor (Qplus x (Qmake 1 2)).

Definition is_space (c : ascii) : bool :=
  let n := nat_of_ascii c in
  ((9 <=? n)%nat && (n <=? 13)%nat)%bool || (n =? 32)%nat.

Fixpoint skip_spaces (s : string) : string :=
  match s with
  | String c rest => if is_space c then skip_spaces rest else s
  | EmptyString => s
  end.

(** The value of a character as a digit in the given radix. *)
Definition digit_value (radix : Z) (c : ascii) : option Z :=
  let n := Z.of_nat (nat_of_ascii c) in
  let d := if (48 <=? n) && (n <=? 57) then n - 48
           else if (97 <=? n) && (n <=? 122) then n - 87
           else if (65 <=? n) && (n <=? 90) then n - 55
           else 99 in
  if d <? radix then Some d else None.

(** Reads the longest prefix of digits, accumulating left to right. *)
Fixpoint read_digits (radix : Z) (acc : option Z) (s : string) : option Z :=
  match s with
  | EmptyString => acc
  | String c rest =>
      match digit_value radix c with
      | Some d => read_digits radix (Some (match acc with Some a => a * radix + d | None => d end)) rest
      | None => acc
      end
  end.

(** [parseInt(s)] on a string: leading white space, an optional sign, an
    optional [0x] prefix, then the longest run of digits; NaN when there is
    no digit. *)
Definition parseInt_string (s : string) : jsnum :=
  let s1 := skip_spaces s in
  let '(sign, s2) :=
    match s1 with
    | String "-" rest => (-1, rest)
    | String "+" rest => (1, rest)
    | _ => (1, s1)
    end in
  let '(radix, s3) :=
    match s2 with
    | String "0" (String "x" rest) | String "0" (String "X" rest) => (16, rest)
    | _ => (10, s2)
    end in
  match read_digits radix None s3 with
  | Some n => Num (sign * n)
  | None => NaN
  end.

(** [String(v)]. *)
Fixpoint toString (v : jsval) : string :=
  match v with
  | JUndefined => "undefined"
  | JNull => "null"
  | JBool true => "true"
  | JBool false => "false"
  | JNum n => string_of_Z n
  | JStr s => s
  | JArr items =>
      String.concat ","
        (List.map (fun x => match x with
                            | JUndefined | JNull => EmptyString
                            | _ => toString x
                            end) items)
  | JObj _ => "[object Object]"
  end.

(** [parseInt(v)]: the argument is first converted to a string. *)
Definition parseInt (v : jsval) : jsnum := parseInt_string (toString v).

(** [Number(s)] for the pieces of a time of day: the empty string is 0 and
    a run of decimal digits is its value.  The other spellings [Number]
    accepts (white space, signs, exponents, hexadecimal) do not occur in
    "HH:MM" and read as NaN here. *)
Definition all_digits (s : string) : bool :=
  forallb (fun c => match digit_value 10 c with Some _ => true | None => false end)
          (String.list_ascii_of_string s).

Definition Number_of_string (s : string) : jsnum :=
  if String.eqb s "" then Num 0
  else if all_digits s then
    match read_digits 10 None s with Some n => Num n | None => NaN end
  else NaN.

End JS.

(** ** API-55PBX/service.js: KPI aggregator and historical analyser *)
Module Api55.
Import JS.

(** config.js: the service is configured when both the URL and the token
    are non-empty. *)
Record config : Type := { apiUrl : string; token : string }.

Definition isConfigured (c : config) : bool :=
  negb (String.eqb (apiUrl c) "") && negb (String.eqb (token c) "").

(** What [api.get] meets: no response at all (network error, timeout), or a
    response with a status and a body.  With [validateStatus: status < 500]
    the promise is rejected for a status of 500 or more and resolved
    otherwise. *)
Inductive http_outcome : Type :=
| NoResponse (message : string)
| Response (status : Z) (data : jsval).

(** [fetchTodayCalls]: [None] is its [null].  The only way out by an
    exception is its own [catch] clause, which prints
    [JSON.stringify(error.response.data).substring(0, 200)]. *)
Definition fetchTodayCalls (cfg : config) (reply : http_outcome) : result (option jsval) :=
  if negb (isConfigured cfg) then Ok None
  else match reply with
       | NoResponse _ => Ok None
       | Response status data =>
           if 500 <=? status then
             match data with
             | JUndefined => Throw "TypeError: Cannot read properties of undefined (reading 'substring')"
             | _ => Ok None
             end
           else if 400 <=? status then Ok None
           else if negb (truthy data) then Ok None
           else Ok (Some data)
       end.

Inductive category : Type := Answered | Abandoned | RetainedURA | Other.

(** [s.toUpperCase()] on the value of [a || b || '']. *)
Definition upper (v : jsval) : result string :=
  match v with
  | JStr s => Ok (toUpperCase s)
  | _ => Throw "TypeError: toUpperCase is not a function"
  end.

(** [answered === true || answered === 1 || answered === '1']. *)
Definition answered_flag (v : jsval) : bool :=
  match v with
  | JBool true => true
  | JNum 1 => true
  | JStr "1" => true
  | _ => false
  end.

Definition classifyCallStatus (callData : jsval) : result category :=
  cs ← prop "call_status" callData;
  st ← prop "status" callData;
  status ← upper (or_else (or_else cs st) (JStr ""));
  cq ← prop "call_queue" callData;
  q ← prop "queue" callData;
  let queue := or_else (or_else cq q) (JStr "") in
  a1 ← prop "answered" callData;
  a2 ← prop "atendida" callData;
  let answered := or_else a1 a2 in
  if answered_flag answered then Ok Answered
  else if includes status "ANSWERED" || includes status "ATENDIDA" then Ok Answered
  else if includes status "ABANDONED" || includes status "ABANDONADA"
          || includes status "NO ANSWER" then Ok Abandoned
  else if includes status "URA" || includes status "IVR" || negb (truthy queue)
       then Ok RetainedURA
  else Ok Other.

Record peak : Type := { hour : string; count : Z }.

(** The KPI snapshot.  [error] is present only in the snapshot built by the
    [catch] clause, the two extras only in the one read from an aggregate. *)
Record kpis : Type := {
  totalCalls : jsnum;
  answered : jsnum;
  abandoned : jsnum;
  retainedURA : jsnum;
  other : jsnum;
  peakHour : option peak;
  avgWaitTime : jsnum;
  lastUpdate : Z;
  error : option string;
  slaAttendance : option jsval;
  timeMediumDuration : option jsval
}.

Definition zeroKPIs (now : Z) (err : option string) : kpis :=
  {| totalCalls := Num 0; answered := Num 0; abandoned := Num 0;
     retainedURA := Num 0; other := Num 0; peakHour := None;
     avgWaitTime := Num 0; lastUpdate := now; error := err;
     slaAttendance := None; timeMediumDuration := None |}.

(** The running totals of the [forEach] over a list of calls; [hourCounts]
    keeps its keys in insertion order, as the object does. *)
Record tally : Type := {
  t_answered : Z;
  t_abandoned : Z;
  t_retainedURA : Z;
  t_other : Z;
  t_totalWaitTime : jsnum;
  t_hourCounts : list (string * Z)
}.

Definition tally0 : tally :=
  {| t_answered := 0; t_abandoned := 0; t_retainedURA := 0; t_other := 0;
     t_totalWaitTime := Num 0; t_hourCounts := [] |}.

Definition count_category (c : category) (t : tally) : tally :=
  match c with
  | Answered => {| t_answered := t_answered t + 1; t_abandoned := t_abandoned t;
                   t_retainedURA := t_retainedURA t; t_other := t_other t;
                   t_totalWaitTime := t_totalWaitTime t; t_hourCounts := t_hourCounts t |}
  | Abandoned => {| t_answered := t_answered t; t_abandoned := t_abandoned t + 1;
                    t_retainedURA := t_retainedURA t; t_other := t_other t;
                    t_totalWaitTime := t_totalWaitTime t; t_hourCounts := t_hourCounts t |}
  | RetainedURA => {| t_answered := t_answered t; t_abandoned := t_abandoned t;
                      t_retainedURA := t_retainedURA t + 1; t_other := t_other t;
                      t_totalWaitTime := t_totalWaitTime t; t_hourCounts := t_hourCounts t |}
  | Other => {| t_answered := t_answered t; t_abandoned := t_abandoned t;
                t_retainedURA := t_retainedURA t; t_other := t_other t + 1;
                t_totalWaitTime := t_totalWaitTime t; t_hourCounts := t_hourCounts t |}
  end.

(** [hourCounts[hour] = (hourCounts[hour] || 0) + 1]. *)
Fixpoint bump (h : string) (counts : list (string * Z)) : list (string * Z) :=
  match counts with
  | [] => [(h, 1)]
  | (k, n) :: rest => if String.eqb k h then (k, n + 1) :: rest else (k, n) :: bump h rest
  end.

(** The scan for the peak hour: a later hour replaces the current one only
    with a strictly larger count. *)
Definition peak_step (best : option string * Z) (entry : string * Z) : option string * Z :=
  if snd best <? snd entry then (Some (fst entry), snd entry) else best.

Definition find_peak (counts : list (string * Z)) : option string * Z :=
  fold_left peak_step counts (None, 0).

(** [forEach] with a callback that may throw. *)
Fixpoint forEachM {A S} (f : S -> A -> result S) (s : S) (l : list A) : result S :=
  match l with
  | [] => Ok s
  | x :: rest => s' ← f s x; forEachM f s' rest
  end.

Section Aggregator.

(** [new Date(v).getHours()] in the time zone of the process; NaN for an
    invalid date. *)
Variable getHours : jsval -> jsnum.

Definition hourLabel (v : jsval) : string :=
  padStart 2 "0" (string_of_num (getHours v)) +:+ ":00".

(** The body of the callback given to [calls.forEach]. *)
Definition tally_call (t : tally) (call : jsval) : result tally :=
  classification ← classifyCallStatus call;
  let t1 := count_category classification t in
  w1 ← prop "call_time_waiting" call;
  w2 ← prop "wait_time" call;
  w3 ← prop "tempo_espera" call;
  let waitTime := parseInt (or_else (or_else (or_else w1 w2) w3) (JNum 0)) in
  let hours :=
    (* inside its own try/catch: a failure leaves the counts alone *)
    match (d1 ← prop "call_date" call; d2 ← prop "date" call; d3 ← prop "data" call;
           Ok (bump (hourLabel (or_else (or_else d1 d2) d3)) (t_hourCounts t1))) with
    | Ok hc => hc
    | Throw _ => t_hourCounts t1
    end in
  Ok {| t_answered := t_answered t1; t_abandoned := t_abandoned t1;
        t_retainedURA := t_retainedURA t1; t_other := t_other t1;
        t_totalWaitTime := num_add (t_totalWaitTime t1) waitTime;
        t_hourCounts := hours |}.

(** The branch for a list of individual call records. *)
Definition kpis_of_calls (now : Z) (calls : list jsval) : result kpis :=
  t ← forEachM tally_call tally0 calls;
  let '(peakHour, peakCount) := find_peak (t_hourCounts t) in
  let n := Z.of_nat (length calls) in
  let avgWaitTime := if 0 <? n then math_round_div (t_totalWaitTime t) n else Num 0 in
  Ok {| totalCalls := Num n;
        answered := Num (t_answered t);
        abandoned := Num (t_abandoned t);
        retainedURA := Num (t_retainedURA t);
        other := Num (t_other t);
        peakHour := match peakHour with
                    | Some h => if String.eqb h "" then None
                                else Some {| hour := h; count := peakCount |}
                    | None => None
                    end;
        avgWaitTime := avgWaitTime;
        lastUpdate := now;
        error := None; slaAttendance := None; timeMediumDuration := None |}.

(** "HH:MM:SS" to seconds; 0 unless there are exactly three parts. *)
Definition parse_wait (v : jsval) : result jsnum :=
  match v with
  | JStr s =>
      match split_on ":" s with
      | [h; m; sec] =>
          Ok (num_add (num_add (num_mul (parseInt_string h) (Num 3600))
                               (num_mul (parseInt_string m) (Num 60)))
                      (parseInt_string sec))
      | _ => Ok (Num 0)
      end
  | _ => Throw "TypeError: waitTimeStr.split is not a function"
  end.

(** The branch for a single aggregate object (report_01). *)
Definition kpis_of_aggregate (now : Z) (data : jsval) : result kpis :=
  a ← prop "totalCallAttendedReceptive" data;
  b ← prop "totalCallAbandonedQueue" data;
  c ← prop "totalCallAbandonedURA" data;
  let atendidas := parseInt (or_else a (JNum 0)) in
  let abandonadas := parseInt (or_else b (JNum 0)) in
  let retidasURA := parseInt (or_else c (JNum 0)) in
  w ← prop "timeMediumWaitingAttendance" data;
  avgWaitTime ← parse_wait (or_else w (JStr "00:00:00"));
  sla ← prop "sla_attendance" data;
  dur ← prop "timeMediumDurationCall" data;
  Ok {| totalCalls := num_add (num_add atendidas abandonadas) retidasURA;
        answered := atendidas;
        abandoned := abandonadas;
        retainedURA := retidasURA;
        other := Num 0;
        peakHour := None;
        avgWaitTime := avgWaitTime;
        lastUpdate := now;
        error := None;
        slaAttendance := Some (or_else sla (JStr "0%"));
        timeMediumDuration := Some (or_else dur (JStr "00:00:00")) |}.

(** The [try] block of [calculateDayKPIs]. *)
Definition calculateDayKPIs_try (now : Z) (cfg : config) (reply : http_outcome) : result kpis :=
  data ← fetchTodayCalls cfg reply;
  match data with
  | None => Ok (zeroKPIs now None)
  | Some (JArr []) => Ok (zeroKPIs now None)
  | Some (JArr calls) => kpis_of_calls now calls
  | Some d => kpis_of_aggregate now d
  end.

(** [calculateDayKPIs]: the [catch] clause turns any exception into the
    all-zero snapshot carrying the message. *)
Definition calculateDayKPIs (now : Z) (cfg : config) (reply : http_outcome) : result kpis :=
  try_catch (calculateDayKPIs_try now cfg reply)
            (fun message => Ok (zeroKPIs now (Some message))).

End Aggregator.

(** One entry of the history: a prior day and its counters.  The formatted
    date is represented by the instant it was formatted from. *)
Record day_record : Type := {
  date : Z;
  atendidas : jsnum;
  abandonadas : jsnum;
  retidasURA : jsnum;
  total : jsnum
}.

(** The [try] block of [fetchDayData], after the request was answered with a
    status below 500. *)
Definition day_of_data (d : Z) (data : jsval) : result (option day_record) :=
  if negb (truthy data) then Ok None
  else
    a ← prop "totalCallAttendedReceptive" data;
    b ← prop "totalCallAbandonedQueue" data;
    c ← prop "totalCallAbandonedURA" data;
    let pa := parseInt (or_else a (JNum 0)) in
    let pb := parseInt (or_else b (JNum 0)) in
    let pc := parseInt (or_else c (JNum 0)) in
    Ok (Some {| date := d; atendidas := pa; abandonadas := pb; retidasURA := pc;
                total := num_add (num_add pa pb) pc |}).

(** [fetchDayData]: [None] is its [null]; every exception ends in the
    [catch] clause, which returns [null]. *)
Definition fetchDayData (cfg : config) (d : Z) (reply : http_outcome) : option day_record :=
  if negb (isConfigured cfg) then None
  else match reply with
       | NoResponse _ => None
       | Response status data =>
           if 500 <=? status then None
           else match day_of_data d data with
                | Ok r => r
                | Throw _ => None
                end
       end.

Record means : Type := {
  m_atendidas : jsnum;
  m_abandonadas : jsnum;
  m_retidasURA : jsnum;
  m_total : jsnum
}.

Record history : Type := {
  dias : Z;
  historico : list day_record;
  medias : means;
  h_lastUpdate : Z
}.

(** [historico.reduce((sum, d) => sum + d.field, 0)]. *)
Definition sum_of (field : day_record -> jsnum) (l : list day_record) : jsnum :=
  fold_left (fun sum d => num_add sum (field d)) l (Num 0).

Definition ms_per_day : Z := 86400000.

(** The loop of [fetchHistoricalData]: for [i] from 1 to [days], the day
    [i] days before [hoje], kept when its fetch returned a record.
    [replies i] is what the request for that day meets. *)
Definition collect_days (cfg : config) (hoje : Z) (replies : Z -> http_outcome) (days : Z)
  : list day_record :=
  omap (fun i => fetchDayData cfg (hoje - i * ms_per_day) (replies i))
       (List.map Z.of_nat (seq 1 (Z.to_nat days))).

Definition fetchHistoricalData (cfg : config) (hoje : Z) (replies : Z -> http_outcome)
    (days : Z) : option history :=
  let historico := collect_days cfg hoje replies days in
  let n := Z.of_nat (length historico) in
  if n =? 0 then None
  else
    Some {| dias := n;
            historico := historico;
            medias := {| m_atendidas := math_round_div (sum_of atendidas historico) n;
                         m_abandonadas := math_round_div (sum_of abandonadas historico) n;
                         m_retidasURA := math_round_div (sum_of retidasURA historico) n;
                         m_total := math_round_div (sum_of total historico) n |};
            h_lastUpdate := hoje |}.

(** The result of [classificarNivel]; [descricao] is absent from the
    undefined level. *)
Record level : Type := {
  nivel : string;
  emoji : string;
  percentual : jsnum;
  descricao : option string
}.

(** [Math.round((valorAtual / media) * 100)], for [media] other than 0,
    in double arithmetic. *)
Definition percent_of (valorAtual media : jsnum) : jsnum :=
  match valorAtual, media with
  | Num v, Num m => Num (Math_round (double_mul (double_div v m) (inject_Z 100)))
  | _, _ => NaN
  end.

(** [x < bound] on numbers: false when [x] is NaN. *)
Definition num_ltb (x : jsnum) (bound : Z) : bool :=
  match x with
  | Num z => z <? bound
  | NaN => false
  end.

Definition describe (percentual media : jsnum) : string :=
  string_of_num percentual +:+ "% da média (esperado: " +:+ string_of_num media +:+ ")".

Definition classificarNivel (valorAtual media : jsnum) : level :=
  match media with
  | Num 0 => {| nivel := "indefinido"; emoji := "⚪"; percentual := Num 0; descricao := None |}
  | _ =>
      let percentual := percent_of valorAtual media in
      if num_ltb percentual 70 then
        {| nivel := "Abaixo do comum"; emoji := "🔴"; percentual := percentual;
           descricao := Some (describe percentual media) |}
      else if num_ltb percentual 100 then
        {| nivel := "Médio"; emoji := "🟡"; percentual := percentual;
           descricao := Some (describe percentual media) |}
      else if num_ltb percentual 130 then
        {| nivel := "Alto"; emoji := "🟢"; percentual := percentual;
           descricao := Some (describe percentual media) |}
      else
        {| nivel := "Altíssimo"; emoji := "🔥"; percentual := percentual;
           descricao := Some (describe percentual media) |}
  end.

Record levels : Type := {
  l_atendidas : level;
  l_abandonadas : level;
  l_retidasURA : level;
  l_total : level
}.

(** The result of [analisarDiaAtual]: with a history, the four levels and
    the one-line summary; without, the error marker. *)
Record analysis : Type := {
  hoje : kpis;
  a_historico : option history;
  analise : option levels;
  resumo : option string;
  erro : option string
}.

Section Analyser.

Variable getHours : jsval -> jsnum.

(** [today] is what the request for today meets, [replies] what the
    requests for the prior days meet. *)
Definition analisarDiaAtual (now : Z) (cfg : config) (today : http_outcome)
    (replies : Z -> http_outcome) : result analysis :=
  kpisHoje ← calculateDayKPIs getHours now cfg today;
  match fetchHistoricalData cfg now replies 15 with
  | None =>
      Ok {| hoje := kpisHoje; a_historico := None; analise := None; resumo := None;
            erro := Some "Sem dados históricos para comparação" |}
  | Some h =>
      let an :=
        {| l_atendidas := classificarNivel (answered kpisHoje) (m_atendidas (medias h));
           l_abandonadas := classificarNivel (abandoned kpisHoje) (m_abandonadas (medias h));
           l_retidasURA := classificarNivel (retainedURA kpisHoje) (m_retidasURA (medias h));
           l_total := classificarNivel (totalCalls kpisHoje) (m_total (medias h)) |} in
      Ok {| hoje := kpisHoje; a_historico := Some h; analise := Some an;
            resumo := Some ("Dia " +:+ emoji (l_total an) +:+ " " +:+ nivel (l_total an)
                            +:+ " - " +:+ string_of_num (percentual (l_total an))
                            +:+ "% do esperado");
            erro := None |}
  end.

End Analyser.

(** *** Vocabulary of the properties *)

(** The upstream gave no data: no response, an error status, a null (falsy)
    body, or an empty list. *)
Definition no_data (reply : http_outcome) : bool :=
  match reply with
  | NoResponse _ => true
  | Response status data =>
      (400 <=? status) || negb (truthy data)
      || match data with JArr [] => true | _ => false end
  end.

Definition throws {A} (r : result A) : bool :=
  match r with
  | Ok _ => false
  | Throw _ => true
  end.

Definition all_zero (k : kpis) : Prop :=
  totalCalls k = Num 0 /\ answered k = Num 0 /\ abandoned k = Num 0 /\
  retainedURA k = Num 0 /\ other k = Num 0 /\ avgWaitTime k = Num 0 /\
  peakHour k = None.

(** A call record: an object whose status, when it has one, is text. *)
Definition call_record (c : jsval) : bool :=
  match c with
  | JObj fields =>
      match or_else (or_else (assoc "call_status" fields) (assoc "status" fields)) (JStr "") with
      | JStr _ => true
      | _ => false
      end
  | _ => false
  end.

(** The features of a call record the classification looks at. *)
Definition status_text (fields : list (string * jsval)) : string :=
  match or_else (or_else (assoc "call_status" fields) (assoc "status" fields)) (JStr "") with
  | JStr s => toUpperCase s
  | _ => EmptyString
  end.

Definition explicit_flag (fields : list (string * jsval)) : bool :=
  answered_flag (or_else (assoc "answered" fields) (assoc "atendida" fields)).

Definition answered_marker (fields : list (string * jsval)) : bool :=
  includes (status_text fields) "ANSWERED" || includes (status_text fields) "ATENDIDA".

Definition abandoned_marker (fields : list (string * jsval)) : bool :=
  includes (status_text fields) "ABANDONED" || includes (status_text fields) "ABANDONADA"
  || includes (status_text fields) "NO ANSWER".

Definition ivr_marker (fields : list (string * jsval)) : bool :=
  includes (status_text fields) "URA" || includes (status_text fields) "IVR".

Definition empty_queue (fields : list (string * jsval)) : bool :=
  negb (truthy (or_else (or_else (assoc "call_queue" fields) (assoc "queue" fields)) (JStr ""))).

(** First match wins. *)
Fixpoint first_match (rules : list (bool * category)) (dflt : category) : category :=
  match rules with
  | [] => dflt
  | (true, c) :: _ => c
  | (false, _) :: rest => first_match rest dflt
  end.

(** The category of a call record, following the words of the
    specification. *)
Definition category_of (c : jsval) : category :=
  match c with
  | JObj fields =>
      first_match [(explicit_flag fields, Answered);
                   (answered_marker fields, Answered);
                   (abandoned_marker fields, Abandoned);
                   (ivr_marker fields || empty_queue fields, RetainedURA)] Other
  | _ => Other
  end.

Definition category_eqb (a b : category) : bool :=
  match a, b with
  | Answered, Answered | Abandoned, Abandoned
  | RetainedURA, RetainedURA | Other, Other => true
  | _, _ => false
  end.

(** How many records of the list fall into the category. *)
Definition count_in (cat : category) (calls : list jsval) : Z :=
  Z.of_nat (length (List.filter (fun c => category_eqb (category_of c) cat) calls)).

(** [m] is the integer nearest to [s / n], a half rounding up. *)
Definition nearest (s n m : Z) : Prop :=
  2 * n * m <= 2 * s + n < 2 * n * (m + 1).

(** [mean] is the rounded mean of a field over the days kept: NaN when the
    sum is, else the integer nearest to the sum over the number of days. *)
Definition mean_over (field : day_record -> jsnum) (kept : list day_record)
    (mean : jsnum) : Prop :=
  match sum_of field kept with
  | NaN => mean = NaN
  | Num s => exists m, mean = Num m /\ nearest s (Z.of_nat (length kept)) m
  end.

(** The days for which [fetchDayData] returned a record, among the [days]
    requested. *)
Definition day_succeeds (cfg : config) (hoje : Z) (replies : Z -> http_outcome) (i : Z) : bool :=
  match fetchDayData cfg (hoje - i * ms_per_day) (replies i) with
  | Some _ => true
  | None => false
  end.

Definition indicator (b : bool) : Z := if b then 1 else 0.

(** The integer a number stands for (0 for NaN). *)
Definition num_value (x : jsnum) : Z :=
  match x with
  | Num z => z
  | NaN => 0
  end.

(** *** Further vocabulary *)

(** [c.k] read from a value that is neither [null] nor [undefined]. *)
Definition get (k : string) (c : jsval) : jsval :=
  match c with
  | JObj fields => assoc k fields
  | _ => JUndefined
  end.

Definition nullish (c : jsval) : bool :=
  match c with
  | JNull | JUndefined => true
  | _ => false
  end.

Definition is_text (v : jsval) : bool :=
  match v with
  | JStr _ => true
  | _ => false
  end.

(** [call.call_status || call.status || '']. *)
Definition status_value (c : jsval) : jsval :=
  or_else (or_else (get "call_status" c) (get "status" c)) (JStr "").

(** [call.call_queue || call.queue || '']. *)
Definition queue_value (c : jsval) : jsval :=
  or_else (or_else (get "call_queue" c) (get "queue" c)) (JStr "").

(** [parseInt(call.call_time_waiting || call.wait_time || call.tempo_espera || 0)]. *)
Definition wait_of (c : jsval) : jsnum :=
  parseInt (or_else (or_else (or_else (get "call_time_waiting" c) (get "wait_time" c))
                             (get "tempo_espera" c)) (JNum 0)).

(** The sum of the waits of a list of calls, from left to right. *)
Definition sum_waits (calls : list jsval) : jsnum :=
  fold_left (fun s c => num_add s (wait_of c)) calls (Num 0).

(** The hour label of [call.call_date || call.date || call.data]. *)
Definition label_of (getHours : jsval -> jsnum) (c : jsval) : string :=
  hourLabel getHours (or_else (or_else (get "call_date" c) (get "date" c)) (get "data" c)).

(** How many calls of the list carry the hour label [h]. *)
Definition calls_at (getHours : jsval -> jsnum) (h : string) (calls : list jsval) : Z :=
  Z.of_nat (length (List.filter (fun c => String.eqb (label_of getHours c) h) calls)).

(** The position of the first call carrying the hour label [h]. *)
Fixpoint first_seen (getHours : jsval -> jsnum) (h : string) (calls : list jsval) : option nat :=
  match calls with
  | [] => None
  | c :: rest =>
      if String.eqb (label_of getHours c) h then Some O
      else option_map S (first_seen getHours h rest)
  end.

(** [hourCounts[h] || 0]. *)
Definition count_for (h : string) (counts : list (string * Z)) : Z :=
  match find (fun p => String.eqb (fst p) h) counts with
  | Some p => snd p
  | None => 0
  end.

(** The sum of the four counters of a snapshot. *)
Definition counters_sum (k : kpis) : jsnum :=
  num_add (num_add (num_add (answered k) (abandoned k)) (retainedURA k)) (other k).

(** A call the classification accepts: not [null] or [undefined], with a
    status that is text when it is set. *)
Definition classifiable (c : jsval) : bool :=
  negb (nullish c) && is_text (status_value c).

(** What one successful round of the [forEach] does to the running totals. *)
Definition tally_step (getHours : jsval -> jsnum) (cat : category) (c : jsval) (t : tally)
  : tally :=
  let t1 := count_category cat t in
  {| t_answered := t_answered t1; t_abandoned := t_abandoned t1;
     t_retainedURA := t_retainedURA t1; t_other := t_other t1;
     t_totalWaitTime := num_add (t_totalWaitTime t1) (wait_of c);
     t_hourCounts := bump (label_of getHours c) (t_hourCounts t1) |}.

Definition is_array (v : jsval) : bool :=
  match v with
  | JArr _ => true
  | _ => false
  end.

(** How many calls the running totals have counted. *)
Definition counted (t : tally) : Z :=
  t_answered t + t_abandoned t + t_retainedURA t + t_other t.

(** The table of hour counts after the calls [cs], built from empty. *)
Definition hour_table (getHours : jsval -> jsnum) (cs : list jsval) : list (string * Z) :=
  fold_left (fun hc c => bump (label_of getHours c) hc) cs [].

(** The hour [a] was first seen before the hour [b] among the calls. *)
Definition seen_before (getHours : jsval -> jsnum) (cs : list jsval) (a b : string) : Prop :=
  exists x y, first_seen getHours a cs = Some x /\ first_seen getHours b cs = Some y /\
              (x < y)%nat.

(** [parseInt(data.k || 0)]. *)
Definition counter_of (k : string) (data : jsval) : jsnum :=
  parseInt (or_else (get k data) (JNum 0)).

(** The history entry read from the body [data] for the day [d]. *)
Definition day_record_of (d : Z) (data : jsval) : day_record :=
  let a := counter_of "totalCallAttendedReceptive" data in
  let b := counter_of "totalCallAbandonedQueue" data in
  let c := counter_of "totalCallAbandonedURA" data in
  {| date := d; atendidas := a; abandonadas := b; retidasURA := c;
     total := num_add (num_add a b) c |}.

(** Most recent day first. *)
Definition later_than (a b : day_record) : Prop := date b < date a.

End Api55.

(** ** API-WHATSAPP/service.js: the notification dispatcher *)
Module WhatsApp.
Import JS.

Record config : Type := { apiUrl : string; destination : string }.

Definition isConfigured (c : config) : bool :=
  negb (String.eqb (apiUrl c) "") && negb (String.eqb (destination c) "").

Definition endpoint_enviar : string := "/enviar".
Definition endpoint_enviarRelatorio : string := "/enviar-relatorio".

Record fila : Type := { momento : string; quantidadePessoas : Z }.

Record dadosRelatorio : Type := {
  ligacoesRecebidas : Z;
  ligacoesAtendidas : Z;
  ligacoesAbandonadas : Z;
  periodo : string;
  data : string;
  filas : list fila
}.

(** The body of a request to the messaging API. *)
Inductive body : Type :=
| RelatorioBody (jid numero : string) (dados : dadosRelatorio)
| MensagemBody (numero mensagem : string).

(** What the dispatcher does to the outside world, in order. *)
Inductive effect : Type :=
| Post (endpoint : string) (b : body)
| Sleep (ms : Z).

(** What [api.post] meets: a 2xx response with its body, or a rejection. *)
Inductive post_outcome : Type :=
| Accepted (response : jsval)
| Rejected (message : string).

Record send_result : Type := {
  success : bool;
  r_data : option jsval;
  r_error : option string
}.

Definition sent (d : jsval) : send_result :=
  {| success := true; r_data := Some d; r_error := None |}.

Definition failed (message : string) : send_result :=
  {| success := false; r_data := None; r_error := Some message |}.

(** [x || 0] on a number. *)
Definition or_zero (x : jsnum) : Z :=
  match x with
  | Num z => z
  | NaN => 0
  end.

(** [s || dflt] on a string. *)
Definition or_text (s dflt : string) : string :=
  if String.eqb s "" then dflt else s.

Definition sendMessage (cfg : config) (mensagem : string) (numero : option string)
    (reply : post_outcome) : send_result * list effect :=
  let targetNumber :=
    match numero with
    | Some n => or_text n (destination cfg)
    | None => destination cfg
    end in
  if negb (isConfigured cfg) then (failed "API não configurada", [])
  else
    let request := Post endpoint_enviar (MensagemBody targetNumber mensagem) in
    match reply with
    | Accepted d => (sent d, [request])
    | Rejected message => (failed message, [request])
    end.

(** The text of the comparison message. *)
Definition analise_text (hoje : Api55.kpis) (historico : Api55.history)
    (niveis : Api55.levels) : string :=
  let totalAnalise := Api55.l_total niveis in
  let emoji := or_text (Api55.emoji totalAnalise) "📊" in
  let nivel := or_text (Api55.nivel totalAnalise) "Indefinido" in
  let percentual := or_zero (Api55.percentual totalAnalise) in
  let line (label : string) (value media : jsnum) (l : Api55.level) : string :=
    label +:+ string_of_num value +:+ " (média: " +:+ string_of_num media +:+ ")
   " +:+ Api55.emoji l +:+ " " +:+ string_of_num (Api55.percentual l) +:+ "% do esperado

" in
  emoji +:+ " *Média da operação: " +:+ nivel +:+ "*
comparado com os últimos 15 dias

📊 *Análise Detalhada:*
━━━━━━━━━━━━━━━━━━━━━━━━

" +:+ line "✅ Atendidas: " (Api55.answered hoje)
          (Api55.m_atendidas (Api55.medias historico)) (Api55.l_atendidas niveis)
  +:+ line "📵 Abandonadas: " (Api55.abandoned hoje)
          (Api55.m_abandonadas (Api55.medias historico)) (Api55.l_abandonadas niveis)
  +:+ line "🔄 Retidas URA: " (Api55.retainedURA hoje)
          (Api55.m_retidasURA (Api55.medias historico)) (Api55.l_retidasURA niveis)
  +:+ "━━━━━━━━━━━━━━━━━━━━━━━━
📈 *Volume total: " +:+ string_of_Z percentual +:+ "% da média*
_Baseado nos últimos " +:+ string_of_Z (Api55.dias historico) +:+ " dias úteis_".

Definition analise_delay : Z := 2000.

(** [sendAnaliseHistorica].  The text is built before the [try] block, so
    a comparison without its history raises there; the pause and the send
    are inside it. *)
Definition sendAnaliseHistorica (cfg : config) (analise : option Api55.analysis)
    (reply : post_outcome) : result (send_result * list effect) :=
  match analise with
  | None => Ok (failed "Sem dados de análise", [])
  | Some a =>
      match Api55.analise a with
      | None => Ok (failed "Sem dados de análise", [])
      | Some niveis =>
          match Api55.a_historico a with
          | None => Throw "TypeError: Cannot read properties of null (reading 'medias')"
          | Some historico =>
              let mensagem := analise_text (Api55.hoje a) historico niveis in
              let '(r, effects) := sendMessage cfg mensagem None reply in
              Ok (r, Sleep analise_delay :: effects)
          end
      end
  end.

Definition relatorio_body (cfg : config) (hora : Z) (today : string) (kpis : Api55.kpis) : body :=
  let numero := destination cfg in
  RelatorioBody (numero +:+ "@s.whatsapp.net") numero
    {| ligacoesRecebidas := or_zero (Api55.totalCalls kpis);
       ligacoesAtendidas := or_zero (Api55.answered kpis);
       ligacoesAbandonadas := or_zero (Api55.abandoned kpis);
       periodo := if hora <? 12 then "Manhã" else "Tarde";
       data := today;
       filas := match Api55.peakHour kpis with
                | Some p => [{| momento := or_text (Api55.hour p) "00:00";
                                quantidadePessoas := Api55.count p |}]
                | None => []
                end |}.

(** [sendRelatorio].  [hora] and [today] are the hour and the formatted
    date read from the clock; [report] is what the post of the report meets
    and [followup] what the post of the comparison message meets, if it is
    made. *)
Definition sendRelatorio (cfg : config) (hora : Z) (today : string)
    (kpis : Api55.kpis) (analise : option Api55.analysis)
    (report followup : post_outcome) : send_result * list effect :=
  if negb (isConfigured cfg) then (failed "API não configurada", [])
  else
    let request := Post endpoint_enviarRelatorio (relatorio_body cfg hora today kpis) in
    match report with
    | Rejected message => (failed message, [request])
    | Accepted d =>
        match analise with
        | Some a =>
            match Api55.analise a with
            | Some _ =>
                match sendAnaliseHistorica cfg analise followup with
                | Ok (_, effects) => (sent d, request :: effects)
                | Throw message => (failed message, [request])
                end
            | None => (sent d, [request])
            end
        | None => (sent d, [request])
        end
    end.

(** The destination a request is addressed to; a pause has none. *)
Definition target (e : effect) : option string :=
  match e with
  | Post _ (RelatorioBody _ numero _) => Some numero
  | Post _ (MensagemBody numero _) => Some numero
  | Sleep _ => None
  end.

(** *** Further vocabulary *)

Definition accepted (reply : post_outcome) : bool :=
  match reply with
  | Accepted _ => true
  | Rejected _ => false
  end.

Definition is_post (e : effect) : bool :=
  match e with
  | Post _ _ => true
  | Sleep _ => false
  end.

(** A comparison that carries its classification set but not its
    history. *)
Definition lacks_history (analise : option Api55.analysis) : bool :=
  match analise with
  | Some a =>
      match Api55.analise a, Api55.a_historico a with
      | Some _, None => true
      | _, _ => false
      end
  | None => false
  end.

End WhatsApp.

(** ** CORE/scheduler.js: executions, their history and the next run *)
Module Scheduler.
Import JS.

(** An Execution Record.  [e_kpis], [messageId] and [e_error] are the
    fields that may be absent. *)
Record execution : Type := {
  timestamp : Z;
  e_success : bool;
  e_kpis : option Api55.kpis;
  duration : Z;
  messageId : option jsval;
  e_error : option string
}.

(** What the scheduler hands to the broadcaster. *)
Inductive ws_event : Type :=
| LogLine (message level : string)
| ExecutionComplete (payload : execution)
| ExecutionError (payload : execution).

(** The module state: the history array, the configured times, and the
    events handed to the broadcaster so far (oldest first). *)
Record state : Type := {
  executionHistory : list execution;
  scheduledTimes : list string;
  broadcasts : list ws_event
}.

Definition history_limit : nat := 50.

(** [unshift], then one [pop] when the length exceeds the limit. *)
Definition addToHistory (e : execution) (h : list execution) : list execution :=
  let h' := e :: h in
  if (history_limit <? length h')%nat then removelast h' else h'.

Definition getHistory (st : state) : list execution := executionHistory st.

Definition record_execution (e : execution) (st : state) : state :=
  {| executionHistory := addToHistory e (executionHistory st);
     scheduledTimes := scheduledTimes st;
     broadcasts := broadcasts st |}.

Definition broadcast (ev : ws_event) (st : state) : state :=
  {| executionHistory := executionHistory st;
     scheduledTimes := scheduledTimes st;
     broadcasts := broadcasts st ++ [ev] |}.

Definition broadcastLog (message level : string) (st : state) : state :=
  broadcast (LogLine message level) st.

(** The services the scheduler imports.  Each call is awaited inside the
    [try] block of [executeReport], and may end in an exception. *)
Class Services : Type := {
  svc_calculateDayKPIs : result Api55.kpis;
  svc_analisarDiaAtual : result Api55.analysis;
  svc_sendRelatorio : Api55.kpis -> Api55.analysis -> result WhatsApp.send_result
}.

Section Execution.

Context `{Services}.

(** The [try] block of [executeReport]: the state reached and either the
    execution returned or the exception raised.  [finish] is the clock
    reading taken once the send has returned. *)
Definition executeReport_try (startTime finish : Z) (st : state) : result execution * state :=
  let st := broadcastLog "Iniciando geração do relatório..." "info" st in
  match svc_calculateDayKPIs with
  | Throw m => (Throw m, st)
  | Ok kpis =>
      let st := broadcastLog ("KPIs calculados: " +:+ string_of_num (Api55.totalCalls kpis)
                              +:+ " chamadas") "info" st in
      let st := broadcastLog "Buscando análise histórica (15 dias)..." "info" st in
      match svc_analisarDiaAtual with
      | Throw m => (Throw m, st)
      | Ok analise =>
          match svc_sendRelatorio kpis analise with
          | Throw m => (Throw m, st)
          | Ok r =>
              let elapsed := finish - startTime in
              let execution :=
                {| timestamp := finish;
                   e_success := WhatsApp.success r;
                   e_kpis := Some kpis;
                   duration := elapsed;
                   messageId := None;
                   e_error := WhatsApp.r_error r |} in
              let st := record_execution execution st in
              let st :=
                if WhatsApp.success r then
                  broadcast (ExecutionComplete execution)
                    (broadcastLog ("Relatório enviado com sucesso! (" +:+ string_of_Z elapsed
                                   +:+ "ms)") "success" st)
                else
                  broadcast (ExecutionError execution)
                    (broadcastLog ("Erro ao enviar: "
                                   +:+ default "undefined" (WhatsApp.r_error r)) "error" st) in
              (Ok execution, st)
          end
      end
  end.

(** [executeReport]: the [catch] clause records a failed execution built
    from the exception alone, and returns it. *)
Definition executeReport (startTime finish : Z) (st : state) : result execution * state :=
  match executeReport_try startTime finish st with
  | (Ok execution, st') => (Ok execution, st')
  | (Throw message, st') =>
      let execution :=
        {| timestamp := finish;
           e_success := false;
           e_kpis := None;
           duration := finish - startTime;
           messageId := None;
           e_error := Some message |} in
      let st' := record_execution execution st' in
      let st' := broadcastLog ("Erro na execução: " +:+ message) "error" st' in
      let st' := broadcast (ExecutionError execution) st' in
      (Ok execution, st')
  end.

End Execution.

(** The services as the modules of this repository provide them;
    [sendRelatorio] catches whatever is raised below it.  [today1] is what
    the request made by the first step meets, [today2] and [replies] what
    the requests made by the second step meet, [report] and [followup] what
    the posts of the third step meet; [hora] and [date] are read from the
    clock by the third step. *)
Definition production_services (getHours : jsval -> jsnum) (now : Z)
    (cfg55 : Api55.config) (today1 today2 : Api55.http_outcome)
    (replies : Z -> Api55.http_outcome)
    (cfg : WhatsApp.config) (hora : Z) (date : string)
    (report followup : WhatsApp.post_outcome) : Services :=
  {| svc_calculateDayKPIs := Api55.calculateDayKPIs getHours now cfg55 today1;
     svc_analisarDiaAtual := Api55.analisarDiaAtual getHours now cfg55 today2 replies;
     svc_sendRelatorio := fun kpis analise =>
       Ok (fst (WhatsApp.sendRelatorio cfg hora date kpis (Some analise) report followup)) |}.

(** *** The next run *)

(** [Array.prototype.sort()] on strings: ascending by code units.  Equal
    strings are indistinguishable, so any stable sort gives this list. *)
Fixpoint insert_sorted (s : string) (l : list string) : list string :=
  match l with
  | [] => [s]
  | x :: rest => if String.leb s x then s :: l else x :: insert_sorted s rest
  end.

Fixpoint sort (l : list string) : list string :=
  match l with
  | [] => []
  | x :: rest => insert_sorted x (sort rest)
  end.

(** A [Date]: an instant on the local time line, or Invalid Date. *)
Definition jsdate : Type := option Z.

Definition ms_per_day : Z := 86400000.
Definition ms_per_hour : Z := 3600000.
Definition ms_per_minute : Z := 60000.

(** [new Date(y, m, d)] of the current local date: midnight today. *)
Definition start_of_day (now : Z) : Z := now - now mod ms_per_day.

(** [time.split(':').map(Number)], read as [[hour, minute]]; [None] is
    [undefined]. *)
Definition hour_minute (time : string) : jsnum * option jsnum :=
  match List.map Number_of_string (split_on ":" time) with
  | [] => (NaN, None)
  | [h] => (h, None)
  | h :: m :: _ => (h, Some m)
  end.

(** [d.setHours(hour, minute || 0, 0, 0)] on a date at midnight. *)
Definition setHours (midnight : Z) (hour : jsnum) (minute : option jsnum) : jsdate :=
  let minute := match minute with Some (Num m) => m | _ => 0 end in
  match hour with
  | Num h => Some (midnight + h * ms_per_hour + minute * ms_per_minute)
  | NaN => None
  end.

(** [scheduled > now]: false for Invalid Date. *)
Definition after (d : jsdate) (now : Z) : bool :=
  match d with
  | Some t => now <? t
  | None => false
  end.

(** The [for] loop over the sorted times. *)
Fixpoint first_after (today now : Z) (times : list string) : option jsdate :=
  match times with
  | [] => None
  | time :: rest =>
      let '(hour, minute) := hour_minute time in
      let scheduled := setHours today hour minute in
      if after scheduled now then Some scheduled else first_after today now rest
  end.

(** [getNextRun]: the date returned and the state left behind ([sort]
    works in place).  With no time configured, [scheduledTimes[0]] is
    [undefined] and [split] raises. *)
Definition getNextRun (now : Z) (st : state) : result jsdate * state :=
  let today := start_of_day now in
  let sorted := sort (scheduledTimes st) in
  let st' := {| executionHistory := executionHistory st;
                scheduledTimes := sorted;
                broadcasts := broadcasts st |} in
  match first_after today now sorted with
  | Some scheduled => (Ok scheduled, st')
  | None =>
      match sorted with
      | [] => (Throw "TypeError: Cannot read properties of undefined (reading 'split')", st')
      | first :: _ =>
          let '(hour, minute) := hour_minute first in
          (Ok (setHours (today + ms_per_day) hour minute), st')
      end
  end.

(** *** Vocabulary of the properties *)

(** The history after the executions [es] were recorded, in that order. *)
Definition record_all (es : list execution) (h : list execution) : list execution :=
  fold_left (fun h e => addToHistory e h) es h.

(** The three awaited steps of a run, in order: what they produce, or the
    first exception. *)
Definition run_steps `{Services} : result (Api55.kpis * WhatsApp.send_result) :=
  kpis ← svc_calculateDayKPIs;
  analise ← svc_analisarDiaAtual;
  r ← svc_sendRelatorio kpis analise;
  Ok (kpis, r).

Definition failed_execution (startTime finish : Z) (message : string) : execution :=
  {| timestamp := finish; e_success := false; e_kpis := None;
     duration := finish - startTime; messageId := None; e_error := Some message |}.

(** The zero-padded times of day "HH:MM", each with its offset from
    midnight in milliseconds. *)
Definition pad2 (n : Z) : string := padStart 2 "0" (string_of_Z n).

Definition upto (n : nat) : list Z := List.map Z.of_nat (seq 0 n).

Definition day_times : list (string * Z) :=
  flat_map (fun h => List.map (fun m => (pad2 h +:+ ":" +:+ pad2 m,
                                         h * ms_per_hour + m * ms_per_minute))
                              (upto 60))
           (upto 24).

Definition lookup_time (s : string) : option (string * Z) :=
  find (fun p => String.eqb s (fst p)) day_times.

Definition valid_time (s : string) : bool :=
  match lookup_time s with
  | Some _ => true
  | None => false
  end.

Definition time_of_day (s : string) : Z :=
  match lookup_time s with
  | Some p => snd p
  | None => 0
  end.

(** [r] is the next run for the schedule at the instant [now]: the
    earliest configured time of day still ahead today, or else the earliest
    configured time of day, tomorrow. *)
Definition next_run_of (schedule : list string) (now r : Z) : Prop :=
  let today := start_of_day now in
  (exists s, In s schedule /\ r = today + time_of_day s /\ now < r /\
     forall s', In s' schedule -> now < today + time_of_day s' -> r <= today + time_of_day s')
  \/
  ((forall s, In s schedule -> today + time_of_day s <= now) /\
   exists s, In s schedule /\ r = today + ms_per_day + time_of_day s /\
     forall s', In s' schedule -> time_of_day s <= time_of_day s').

(** Ascending by time of day. *)
Fixpoint ascending (l : list string) : Prop :=
  match l with
  | [] => True
  | x :: rest => (forall y, In y rest -> time_of_day x <= time_of_day y) /\ ascending rest
  end.

(** The loop's reading of an entry of [day_times] gives its offset. *)
Definition parses_to_offset (p : string * Z) : bool :=
  match hour_minute (fst p) with
  | (Num h, Some (Num m)) => h * ms_per_hour + m * ms_per_minute =? snd p
  | _ => false
  end.

Definition cmp_eqb (a b : comparison) : bool :=
  match a, b with
  | Eq, Eq | Lt, Lt | Gt, Gt => true
  | _, _ => false
  end.

(** A state holding a schedule and nothing else. *)
Definition scheduled (times : list string) : state :=
  {| executionHistory := []; scheduledTimes := times; broadcasts := [] |}.

(** *** Further vocabulary *)

Definition is_log (ev : ws_event) : bool :=
  match ev with
  | LogLine _ _ => true
  | _ => false
  end.

(** The event that closes a run: completion for a success, error
    otherwise, carrying the record. *)
Definition terminal_event (e : execution) : ws_event :=
  if e_success e then ExecutionComplete e else ExecutionError e.

End Scheduler.

(** ** DB-Reports/service.js: the day cache, kept in files *)
Module DbReports.
Import JS.

(** TTL: 25 hours, in seconds. *)
Definition DEFAULT_TTL : Z := 90000.

Record metadata : Type := {
  createdAt : Z;
  expiresAt : Z;
  ttl : Z
}.

(** What a file holds, as [readFile] followed by [JSON.parse] sees it: a
    JSON array, an object whose [expiresAt] is a timestamp, some other JSON
    value, or text that is not JSON. *)
Inductive file : Type :=
| CallsFile (calls : list jsval)
| MetadataFile (m : metadata)
| OtherJson
| NotJson.

(** The data directory: a finite map from paths to file contents.  Reading
    fails on a path that is not bound; writing and unlinking do not fail. *)
Abbreviation directory := (gmap string file).

Definition DB_PATH : string := "DB.Reports/".

Section Cache.

(** [format(date, 'yyyy-MM-dd')] and [date.toISOString()]. *)
Variable format_day : Z -> string.
Variable toISOString : Z -> string.

Definition getCallsFilePath (date : Z) : string :=
  DB_PATH +:+ "calls-" +:+ format_day date +:+ ".json".

Definition getMetadataFilePath (date : Z) : string :=
  DB_PATH +:+ "metadata-" +:+ format_day date +:+ ".json".

(** [updateMetadata(date)] at the instant [now]. *)
Definition updateMetadata (date now : Z) (dir : directory) : directory :=
  <[getMetadataFilePath date :=
      MetadataFile {| createdAt := now;
                      expiresAt := now + DEFAULT_TTL * 1000;
                      ttl := DEFAULT_TTL |}]> dir.

(** The own enumerable properties copied by [{...v}]. *)
Definition indexed (items : list jsval) : list (string * jsval) :=
  imap (fun i x => (string_of_Z (Z.of_nat i), x)) items.

Definition spread (v : jsval) : list (string * jsval) :=
  match v with
  | JObj fields => fields
  | JArr items => indexed items
  | JStr s => indexed (List.map (fun c => JStr (String c EmptyString))
                               (String.list_ascii_of_string s))
  | _ => []
  end.

(** Assigning a property: in place when the key is there, else at the end. *)
Fixpoint set_field (k : string) (v : jsval) (fields : list (string * jsval))
  : list (string * jsval) :=
  match fields with
  | [] => [(k, v)]
  | (k', v') :: rest =>
      if String.eqb k k' then (k, v) :: rest else (k', v') :: set_field k v rest
  end.

(** The first half of [addCall]: the list the new call is pushed onto.  A
    missing or unparsable file gives the empty list; a file holding JSON
    that is not an array makes [push] raise. *)
Definition read_calls (f : option file) : result (list jsval) :=
  match f with
  | Some (CallsFile calls) => Ok calls
  | Some NotJson | None => Ok []
  | Some (MetadataFile _) | Some OtherJson => Throw "TypeError: calls.push is not a function"
  end.

(** [addCall(callData)] at the instant [now]: the answer and the directory
    left behind. *)
Definition addCall (now : Z) (callData : jsval) (dir : directory) : bool * directory :=
  let filePath := getCallsFilePath now in
  match read_calls (dir !! filePath) with
  | Ok calls =>
      let entry := JObj (set_field "timestamp" (JStr (toISOString now)) (spread callData)) in
      let dir := <[filePath := CallsFile (calls ++ [entry])]> dir in
      (true, updateMetadata now now dir)
  | Throw _ => (false, dir)
  end.

(** [getTodayCalls(date)]: the entries that are objects. *)
Definition getTodayCalls (date : Z) (dir : directory) : list jsval :=
  match dir !! getCallsFilePath date with
  | Some (CallsFile calls) =>
      List.filter (fun call => match call with JObj _ | JArr _ => true | _ => false end) calls
  | _ => []
  end.

Definition countTodayCalls (date : Z) (dir : directory) : Z :=
  Z.of_nat (length (getTodayCalls date dir)).

(** [hasCache(date)] at the instant [now]: the answer and the directory
    left behind. *)
Definition hasCache (date now : Z) (dir : directory) : bool * directory :=
  let filePath := getCallsFilePath date in
  match dir !! filePath with
  | None => (false, dir)
  | Some _ =>
      let metadataPath := getMetadataFilePath date in
      match dir !! metadataPath with
      | Some (MetadataFile m) =>
          if expiresAt m <? now
          then (false, delete metadataPath (delete filePath dir))
          else (true, dir)
      | _ => (true, dir)
      end
  end.

(** [getCacheTTL(date)] at the instant [now]: the seconds left, or -1. *)
Definition getCacheTTL (date now : Z) (dir : directory) : Z :=
  match dir !! getMetadataFilePath date with
  | Some (MetadataFile m) =>
      let diff := (expiresAt m - now) / 1000 in
      if 0 <? diff then diff else -1
  | _ => -1
  end.

Definition clearCache (date : Z) (dir : directory) : bool * directory :=
  (true, delete (getMetadataFilePath date) (delete (getCallsFilePath date) dir)).

End Cache.

(** *** Further vocabulary *)

(** The entry [addCall] stores for [callData] at the instant [now]. *)
Definition stored_entry (toISOString : Z -> string) (now : Z) (callData : jsval) : jsval :=
  JObj (set_field "timestamp" (JStr (toISOString now)) (spread callData)).

(** A value JSON can carry: written to a file and parsed again it is
    itself.  [undefined] is the one value of [jsval] that is not. *)
Fixpoint json_value (v : jsval) : bool :=
  match v with
  | JUndefined => false
  | JArr items => forallb json_value items
  | JObj fields => forallb (fun kv => json_value (snd kv)) fields
  | _ => true
  end.

(** The file holds JSON that is not a list. *)
Definition not_a_list (f : option file) : bool :=
  match f with
  | Some (MetadataFile _) | Some OtherJson => true
  | _ => false
  end.

End DbReports.

(** ** CORE/websocket.js: the connections of the panel *)
Module WebSocket.
Import JS.

Inductive ready_state : Type := CONNECTING | OPEN | CLOSING | CLOSED.

(** A connection as the server holds it: its [readyState], which the
    WebSocket library moves, and the frames sent on it so far, oldest
    first.  A frame is represented by the value that was serialised. *)
Record socket : Type := {
  readyState : ready_state;
  sent : list jsval
}.

(** The module state: the connection objects, by identity, and the set
    [clients] in insertion order. *)
Record server : Type := {
  sockets : nat -> socket;
  clients : list nat
}.

Definition is_open (s : socket) : bool :=
  match readyState s with
  | OPEN => true
  | _ => false
  end.

Definition member (ws : nat) (set : list nat) : bool := existsb (Nat.eqb ws) set.

(** [Set.prototype.add] and [Set.prototype.delete]. *)
Definition set_add (ws : nat) (set : list nat) : list nat :=
  if member ws set then set else set ++ [ws].

Definition set_delete (ws : nat) (set : list nat) : list nat :=
  List.filter (fun x => negb (Nat.eqb x ws)) set.

(** [ws.send(frame)]. *)
Definition send (ws : nat) (frame : jsval) (socks : nat -> socket) : nat -> socket :=
  fun i =>
    if Nat.eqb i ws
    then {| readyState := readyState (socks i); sent := sent (socks i) ++ [frame] |}
    else socks i.

Definition sendToClient (ws : nat) (data : jsval) (sv : server) : server :=
  if is_open (sockets sv ws)
  then {| sockets := send ws data (sockets sv); clients := clients sv |}
  else sv.

Definition broadcast (data : jsval) (sv : server) : server :=
  {| sockets := fold_left (fun socks client =>
                             if is_open (socks client) then send client data socks else socks)
                          (clients sv) (sockets sv);
     clients := clients sv |}.

Definition log_message (message level : string) : jsval :=
  JObj [("type", JStr "log");
        ("payload", JObj [("message", JStr message); ("level", JStr level)])].

Definition broadcastLog (message level : string) (sv : server) : server :=
  broadcast (log_message message level) sv.

Definition notifyNewCall (callData : jsval) (sv : server) : server :=
  broadcast (JObj [("type", JStr "new_call"); ("payload", callData)]) sv.

Definition sendD0Update (kpis : jsval) (sv : server) : server :=
  broadcast (JObj [("type", JStr "d0_update"); ("payload", kpis)]) sv.

Definition getClientCount (sv : server) : Z := Z.of_nat (length (clients sv)).

(** [handleMessage]: reading [type] off [null] raises. *)
Definition handleMessage (ws : nat) (message : jsval) (sv : server) : result server :=
  type ← prop "type" message;
  match type with
  | JStr t =>
      if String.eqb t "get_status" then Ok sv
      else if String.eqb t "reconnect_whatsapp"
           then Ok (broadcast (log_message "Reconexão WhatsApp solicitada..." "info") sv)
           else Ok sv
  | _ => Ok sv
  end.

(** The handlers installed by [initWebSocket]. *)
Definition welcome : jsval := log_message "Conectado ao servidor 55SYSTEM" "success".

Definition on_connection (ws : nat) (sv : server) : server :=
  sendToClient ws welcome {| sockets := sockets sv; clients := set_add ws (clients sv) |}.

(** [parsed] is the message as [JSON.parse] reads it, [None] when it
    raises; whatever is raised is caught and logged. *)
Definition on_message (ws : nat) (parsed : option jsval) (sv : server) : server :=
  match parsed with
  | None => sv
  | Some message =>
      match handleMessage ws message sv with
      | Ok sv' => sv'
      | Throw _ => sv
      end
  end.

Definition on_close (ws : nat) (sv : server) : server :=
  {| sockets := sockets sv; clients := set_delete ws (clients sv) |}.

Definition on_error (ws : nat) (sv : server) : server :=
  {| sockets := sockets sv; clients := set_delete ws (clients sv) |}.

(** *** Vocabulary of the properties *)

(** What happens to the module: the library reports a connection, a
    received message, a close or an error, or moves a connection to another
    state; another module asks for a broadcast. *)
Inductive event : Type :=
| Connection (ws : nat)
| Received (ws : nat) (parsed : option jsval)
| Closed (ws : nat)
| Failed (ws : nat)
| Moved (ws : nat) (s : ready_state)
| Broadcast (data : jsval).

Definition move (ws : nat) (s : ready_state) (sv : server) : server :=
  {| sockets := fun i => if Nat.eqb i ws
                         then {| readyState := s; sent := sent (sockets sv i) |}
                         else sockets sv i;
     clients := clients sv |}.

Definition step (sv : server) (ev : event) : server :=
  match ev with
  | Connection ws => on_connection ws sv
  | Received ws parsed => on_message ws parsed sv
  | Closed ws => on_close ws sv
  | Failed ws => on_error ws sv
  | Moved ws s => move ws s sv
  | Broadcast data => broadcast data sv
  end.

Definition run (evs : list event) (sv : server) : server := fold_left step evs sv.

(** The server before any connection. *)
Definition initial : server :=
  {| sockets := fun _ => {| readyState := CONNECTING; sent := [] |}; clients := [] |}.

Definition concerns (ws : nat) (ev : event) : bool :=
  match ev with
  | Connection ws' => Nat.eqb ws' ws
  | _ => false
  end.

End WebSocket.

(** ** CORE/scheduler.js: the cron jobs *)
Module SchedulerJobs.
Import JS Scheduler.

(** What a cron task does when it fires. *)
Inductive job_action : Type :=
| RunReport (time : string)
| UpdateD0.

(** A task made by [cron.schedule]: it is started when it is made and
    stays running until its [stop] is called. *)
Record task : Type := {
  expression : string;
  action : job_action;
  running : bool
}.

(** The tasks the cron library holds, in order of creation (a task is
    identified by its position), and the [jobs] object, from keys to tasks,
    with its keys in insertion order. *)
Record registry : Type := {
  tasks : list task;
  jobs : list (string * nat)
}.

(** [jobs[key] = id]. *)
Fixpoint set_job (key : string) (id : nat) (js : list (string * nat)) : list (string * nat) :=
  match js with
  | [] => [(key, id)]
  | (k, v) :: rest =>
      if String.eqb key k then (key, id) :: rest else (k, v) :: set_job key id rest
  end.

(** The expression built from [time.split(':')]: minute (or 0), hour, every
    day. *)
Definition cron_expression (time : string) : string :=
  match split_on ":" time with
  | hour :: rest =>
      let minute := match rest with
                    | m :: _ => if String.eqb m "" then "0" else m
                    | [] => "0"
                    end in
      minute +:+ " " +:+ hour +:+ " * * *"
  | [] => "0 undefined * * *"
  end.

Definition d0_expression : string := "0 * * * *".

Definition started (expr : string) (act : job_action) : task :=
  {| expression := expr; action := act; running := true |}.

Definition stopped (t : task) : task :=
  {| expression := expression t; action := action t; running := false |}.

(** [job.stop()]. *)
Definition stop (id : nat) (ts : list task) : list task := alter stopped id ts.

(** [Object.values(jobs).forEach(job => job.stop())]. *)
Definition stop_jobs (r : registry) : registry :=
  {| tasks := fold_left (fun ts kv => stop (snd kv) ts) (jobs r) (tasks r);
     jobs := jobs r |}.

Definition stopAll (r : registry) : registry := stop_jobs r.

Section Cron.

(** Whether the cron library accepts an expression; [cron.schedule] raises
    on one it rejects. *)
Variable valid_expression : string -> bool.

(** [cron.schedule(expr, ...)]: the new task and the tasks held. *)
Definition schedule (expr : string) (act : job_action) (r : registry)
  : result (nat * list task) :=
  if valid_expression expr
  then Ok (length (tasks r), tasks r ++ [started expr act])
  else Throw (expr +:+ " is a invalid expression").

(** The [forEach] of [initScheduler] over the configured times: the
    registry left behind, and the exception if one was raised. *)
Fixpoint schedule_reports (times : list string) (r : registry) : result unit * registry :=
  match times with
  | [] => (Ok tt, r)
  | time :: rest =>
      match schedule (cron_expression time) (RunReport time) r with
      | Ok (id, ts) =>
          schedule_reports rest
            {| tasks := ts; jobs := set_job ("report_" +:+ time) id (jobs r) |}
      | Throw m => (Throw m, r)
      end
  end.

Definition initScheduler (st : state) (r : registry) : result unit * registry :=
  match schedule_reports (scheduledTimes st) r with
  | (Ok _, r1) =>
      match schedule d0_expression UpdateD0 r1 with
      | Ok (id, ts) => (Ok tt, {| tasks := ts; jobs := set_job "d0_update" id (jobs r1) |})
      | Throw m => (Throw m, r1)
      end
  | (Throw m, r1) => (Throw m, r1)
  end.

Definition setScheduledTimes (times : list string) (st : state) (r : registry)
  : (result unit * registry) * state :=
  let st' := {| executionHistory := executionHistory st;
                scheduledTimes := times;
                broadcasts := broadcasts st |} in
  (initScheduler st' (stop_jobs r), st').

End Cron.

(** *** Vocabulary of the properties *)

(** What the running tasks do, in order of creation. *)
Definition running_actions (r : registry) : list job_action :=
  List.map action (List.filter running (tasks r)).

(** Every running task is held in [jobs], where [stopAll] reaches it. *)
Definition tracked (r : registry) : Prop :=
  forall id t, tasks r !! id = Some t -> running t = true ->
               exists key, In (key, id) (jobs r).

Definition report_task (time : string) : task :=
  started (cron_expression time) (RunReport time).

End SchedulerJobs.

(** ** Properties of the KPI aggregator and the historical analyser *)
Module Api55Props.
Import JS Api55.

Lemma zeroKPIs_all_zero now err : all_zero (zeroKPIs now err).
Proof. repeat split. Qed.

(** Whatever the fetch meets, a missing configuration gives the all-zero
    snapshot. *)
Lemma calculateDayKPIs_unconfigured getHours now cfg reply :
  isConfigured cfg = false ->
  calculateDayKPIs getHours now cfg reply = Ok (zeroKPIs now None).
Proof.
  intros Hc. unfold calculateDayKPIs, calculateDayKPIs_try, fetchTodayCalls.
  now rewrite Hc.
Qed.

(** On a reply without data the fetch answers [null] or raises in its own
    [catch] clause; it never hands data on. *)
Lemma fetchTodayCalls_no_data cfg reply :
  no_data reply = true ->
  fetchTodayCalls cfg reply = Ok None \/
  (exists m, fetchTodayCalls cfg reply = Throw m) \/
  fetchTodayCalls cfg reply = Ok (Some (JArr [])).
Proof.
  unfold fetchTodayCalls, no_data. intros Hn.
  destruct (isConfigured cfg); simpl; [|now left].
  destruct reply as [msg|status data]; [now left|].
  destruct (500 <=? status) eqn:H5.
  { destruct data; eauto. }
  destruct (400 <=? status) eqn:H4; [now left|].
  destruct (truthy data) eqn:Ht; simpl in *; [|now left].
  destruct data as [| | | | |[|x items]|]; try discriminate. now right; right.
Qed.

(** No exception leaves [calculateDayKPIs]. *)
Lemma calculateDayKPIs_returns getHours now cfg reply :
  exists k, calculateDayKPIs getHours now cfg reply = Ok k.
Proof.
  unfold calculateDayKPIs, try_catch.
  destruct (calculateDayKPIs_try getHours now cfg reply); eauto.
Qed.

(** C1. [calculateDayKPIs] always returns a snapshot: no exception leaves
    it.  When the upstream response is null, an error or an empty list, and
    also when anything inside raises, the snapshot has totalCalls, answered,
    abandoned, retainedURA, other and the average wait equal to zero and no
    peak hour. *)
Theorem calculateDayKPIs_zero_snapshot getHours now cfg reply :
  exists k, calculateDayKPIs getHours now cfg reply = Ok k /\
    (no_data reply = true \/ throws (calculateDayKPIs_try getHours now cfg reply) = true ->
     all_zero k).
Proof.
  unfold calculateDayKPIs, try_catch.
  destruct (calculateDayKPIs_try getHours now cfg reply) as [k|m] eqn:E.
  - exists k. split; [reflexivity|]. intros [Hn|Ht]; [|discriminate].
    unfold calculateDayKPIs_try in E.
    destruct (fetchTodayCalls_no_data cfg reply Hn) as [H|[[m H]|H]];
      rewrite H in E; try discriminate;
      injection E as <-; apply zeroKPIs_all_zero.
  - eexists. split; [reflexivity|]. intros _. apply zeroKPIs_all_zero.
Qed.

Lemma calculateDayKPIs_zero_snapshot_witness :
  let cfg := {| apiUrl := "u"; token := "t" |} in
  (exists k, calculateDayKPIs (fun _ => NaN) 0 cfg (Response 200 (JArr [])) = Ok k /\
             all_zero k) /\
  (exists k, calculateDayKPIs (fun _ => NaN) 0 cfg (Response 200 (JArr [JNull])) = Ok k /\
             all_zero k).
Proof.
  intros cfg. split.
  - destruct (calculateDayKPIs_zero_snapshot (fun _ => NaN) 0 cfg (Response 200 (JArr [])))
      as (k & Hk & Hz).
    exists k. split; [exact Hk|]. apply Hz. left. reflexivity.
  - destruct (calculateDayKPIs_zero_snapshot (fun _ => NaN) 0 cfg
                (Response 200 (JArr [JNull]))) as (k & Hk & Hz).
    exists k. split; [exact Hk|]. apply Hz. right. reflexivity.
Defined.

(** The exception caught is reported in the snapshot. *)
Lemma calculateDayKPIs_reports_exception getHours now cfg reply m :
  calculateDayKPIs_try getHours now cfg reply = Throw m ->
  calculateDayKPIs getHours now cfg reply = Ok (zeroKPIs now (Some m)).
Proof. unfold calculateDayKPIs. now intros ->. Qed.

(** *** Classification of call records *)

Lemma classify_call_record c :
  call_record c = true -> classifyCallStatus c = Ok (category_of c).
Proof.
  destruct c as [| | | | | |fields]; try discriminate.
  unfold call_record, classifyCallStatus, category_of, explicit_flag,
    answered_marker, abandoned_marker, ivr_marker, empty_queue, status_text.
  cbn [prop mbind result_bind].
  destruct (or_else (or_else (assoc "call_status" fields) (assoc "status" fields)) (JStr ""));
    try discriminate.
  intros _. cbn [upper mbind result_bind first_match].
  destruct (answered_flag _); [reflexivity|].
  destruct (includes (toUpperCase s) "ANSWERED" || includes (toUpperCase s) "ATENDIDA");
    [reflexivity|].
  destruct (includes (toUpperCase s) "ABANDONED" || includes (toUpperCase s) "ABANDONADA"
            || includes (toUpperCase s) "NO ANSWER"); [reflexivity|].
  destruct (includes (toUpperCase s) "URA" || includes (toUpperCase s) "IVR" || _);
    reflexivity.
Qed.

Lemma count_in_cons cat c calls :
  count_in cat (c :: calls) =
  indicator (category_eqb (category_of c) cat) + count_in cat calls.
Proof.
  unfold count_in, indicator. simpl.
  destruct (category_eqb (category_of c) cat); simpl length; lia.
Qed.

(** Every record falls into exactly one category, so the four counts add
    up to the length of the list. *)
Lemma count_in_total calls :
  count_in Answered calls + count_in Abandoned calls
  + count_in RetainedURA calls + count_in Other calls = Z.of_nat (length calls).
Proof.
  induction calls as [|c calls IH]; [reflexivity|].
  rewrite !count_in_cons. simpl length.
  destruct (category_of c); unfold indicator; simpl; lia.
Qed.

Lemma tally_call_record getHours t c :
  call_record c = true ->
  exists t', tally_call getHours t c = Ok t' /\
    t_answered t' = t_answered t + indicator (category_eqb (category_of c) Answered) /\
    t_abandoned t' = t_abandoned t + indicator (category_eqb (category_of c) Abandoned) /\
    t_retainedURA t' = t_retainedURA t + indicator (category_eqb (category_of c) RetainedURA) /\
    t_other t' = t_other t + indicator (category_eqb (category_of c) Other).
Proof.
  intros Hc. unfold tally_call. rewrite (classify_call_record c Hc).
  destruct c as [| | | | | |fields]; try discriminate.
  cbn [prop mbind result_bind]. eexists. split; [reflexivity|].
  destruct (category_of (JObj fields)); simpl; repeat split; lia.
Qed.

Lemma forEachM_tally getHours calls :
  Forall (fun c => call_record c = true) calls ->
  forall t, exists t', forEachM (tally_call getHours) t calls = Ok t' /\
    t_answered t' = t_answered t + count_in Answered calls /\
    t_abandoned t' = t_abandoned t + count_in Abandoned calls /\
    t_retainedURA t' = t_retainedURA t + count_in RetainedURA calls /\
    t_other t' = t_other t + count_in Other calls.
Proof.
  induction 1 as [|c calls Hc _ IH]; intros t.
  - exists t. unfold count_in. simpl. repeat split; lia.
  - destruct (tally_call_record getHours t c Hc) as (t1 & E1 & A1 & B1 & C1 & D1).
    destruct (IH t1) as (t2 & E2 & A2 & B2 & C2 & D2).
    exists t2. simpl. rewrite E1. cbn [mbind result_bind]. split; [exact E2|].
    rewrite !count_in_cons. repeat split; lia.
Qed.

Lemma kpis_of_calls_records getHours now calls :
  Forall (fun c => call_record c = true) calls ->
  exists k, kpis_of_calls getHours now calls = Ok k /\
    answered k = Num (count_in Answered calls) /\
    abandoned k = Num (count_in Abandoned calls) /\
    retainedURA k = Num (count_in RetainedURA calls) /\
    other k = Num (count_in Other calls) /\
    totalCalls k = Num (Z.of_nat (length calls)).
Proof.
  intros Hc. destruct (forEachM_tally getHours calls Hc tally0) as (t & E & A & B & C & D).
  unfold kpis_of_calls. rewrite E. cbn [mbind result_bind].
  destruct (find_peak (t_hourCounts t)) as [ph pc].
  eexists. split; [reflexivity|]. simpl in *.
  rewrite A, B, C, D. repeat split.
Qed.



(** *** The historical baseline *)

Lemma round_div_nearest s n : 0 < n -> nearest s n (round_div s n).
Proof.
  intros Hn. unfold nearest, round_div.
  pose proof (Z.div_mod (2 * s + n) (2 * n) ltac:(lia)) as Hd.
  pose proof (Z.mod_pos_bound (2 * s + n) (2 * n) ltac:(lia)) as Hm.
  lia.
Qed.

Lemma math_round_div_mean field kept :
  kept <> [] ->
  mean_over field kept (math_round_div (sum_of field kept) (Z.of_nat (length kept))).
Proof.
  intros Hk. unfold mean_over, math_round_div.
  destruct (sum_of field kept) as [|s]; [reflexivity|].
  eexists. split; [reflexivity|]. apply round_div_nearest.
  destruct kept; [congruence|simpl length; lia].
Qed.

Lemma omap_nil_iff {A B} (f : A -> option B) (l : list A) :
  omap f l = [] <-> forall x, In x l -> f x = None.
Proof.
  induction l as [|a l IH]; simpl.
  - split; [intros _ x []|reflexivity].
  - destruct (f a) eqn:E.
    + split; [discriminate|]. intros Hall. specialize (Hall a (or_introl eq_refl)). congruence.
    + rewrite IH. split.
      * intros Hall x [<-|Hx]; auto.
      * intros Hall x Hx. apply Hall. now right.
Qed.

Lemma in_requested_days i days :
  In i (List.map Z.of_nat (seq 1 (Z.to_nat days))) <-> 1 <= i <= days.
Proof.
  rewrite in_map_iff. split.
  - intros (n & <- & Hn). apply in_seq in Hn. lia.
  - intros Hi. exists (Z.to_nat i). split; [lia|]. apply in_seq. lia.
Qed.

(** The history is [null] exactly when no requested day gave a record. *)
Lemma fetchHistoricalData_None_iff cfg hoje replies days :
  fetchHistoricalData cfg hoje replies days = None <->
  (forall i, 1 <= i <= days -> day_succeeds cfg hoje replies i = false).
Proof.
  unfold fetchHistoricalData.
  assert (Hnil : collect_days cfg hoje replies days = [] <->
                 forall i, 1 <= i <= days -> day_succeeds cfg hoje replies i = false).
  { unfold collect_days. rewrite omap_nil_iff. unfold day_succeeds. split.
    - intros Hall i Hi. rewrite (Hall i); [reflexivity|]. now apply in_requested_days.
    - intros Hall i Hi. apply in_requested_days in Hi. specialize (Hall i Hi).
      now destruct (fetchDayData _ _ _). }
  destruct (collect_days cfg hoje replies days) as [|d kept] eqn:E.
  - simpl. split; [intros _; now apply Hnil|reflexivity].
  - replace (Z.of_nat (length (d :: kept)) =? 0) with false
      by (symmetry; apply Z.eqb_neq; simpl length; lia).
    split; [discriminate|]. intros Hall. apply Hnil in Hall. discriminate.
Qed.

Lemma omap_length_filter {A B} (f : A -> option B) (l : list A) :
  length (omap f l) =
  length (List.filter (fun x => match f x with Some _ => true | None => false end) l).
Proof.
  induction l as [|a l IH]; [reflexivity|].
  cbn [omap list_omap List.filter]. destruct (f a); simpl length; now rewrite IH.
Qed.

(** The number of days kept is the number of successful fetches. *)
Lemma collect_days_length cfg hoje replies days :
  length (collect_days cfg hoje replies days) =
  length (List.filter (day_succeeds cfg hoje replies)
            (List.map Z.of_nat (seq 1 (Z.to_nat days)))).
Proof. unfold collect_days. apply omap_length_filter. Qed.


(** Two successful days out of fifteen requested, with totals 10 and 20:
    the mean is 15. *)
Example fetchHistoricalData_two_of_fifteen :
  let cfg := {| apiUrl := "u"; token := "t" |} in
  let replies i :=
    if i =? 3 then Response 200 (JObj [("totalCallAttendedReceptive", JNum 10)])
    else if i =? 7 then Response 200 (JObj [("totalCallAttendedReceptive", JStr "20")])
    else NoResponse "timeout" in
  (m_total ∘ medias) <$> fetchHistoricalData cfg 0 replies 15 = Some (Num 15) /\
  dias <$> fetchHistoricalData cfg 0 replies 15 = Some 2.
Proof. split; reflexivity. Qed.

(** When every counter of the days kept is a number, the sum is the plain
    sum of integers. *)
Lemma sum_of_numbers field kept :
  Forall (fun d => exists z, field d = Num z) kept ->
  sum_of field kept = Num (fold_right Z.add 0 (List.map (fun d => num_value (field d)) kept)).
Proof.
  unfold sum_of. intros Hall.
  assert (G : forall acc, fold_left (fun sum d => num_add sum (field d)) kept (Num acc)
                = Num (acc + fold_right Z.add 0 (List.map (fun d => num_value (field d)) kept))).
  { induction Hall as [|d kept [z Hz] _ IH]; intros acc; simpl.
    - f_equal. lia.
    - rewrite Hz. simpl. rewrite IH. f_equal. lia. }
  exact (G 0).
Qed.

(** *** Level classification *)


(** The two roundings of the double arithmetic: 201 / 200 * 100 rounds to
    100, one less than the exact ratio 100.5 would. *)
Example percent_of_double_rounding :
  percent_of (Num 201) (Num 200) = Num 100 /\
  percent_of (Num 139) (Num 200) = Num 70 /\
  percent_of (Num 65) (Num 100) = Num 65 /\
  percent_of (Num 1) (Num 3) = Num 33.
Proof. repeat split. Qed.

(** The ratios named in the specification. *)
Example classificarNivel_examples :
  nivel (classificarNivel (Num 65) (Num 100)) = "Abaixo do comum" /\
  nivel (classificarNivel (Num 99) (Num 100)) = "Médio" /\
  nivel (classificarNivel (Num 100) (Num 100)) = "Alto" /\
  nivel (classificarNivel (Num 130) (Num 100)) = "Altíssimo" /\
  nivel (classificarNivel (Num 7) (Num 0)) = "indefinido" /\
  nivel (classificarNivel NaN (Num 0)) = "indefinido".
Proof. repeat split. Qed.

(** [analisarDiaAtual] always returns a comparison, and the comparison
    has its classification set exactly when it has its history. *)
Lemma analisarDiaAtual_shape getHours now cfg today replies :
  exists a, analisarDiaAtual getHours now cfg today replies = Ok a /\
    ((analise a = None /\ a_historico a = None) \/
     (exists niveis h, analise a = Some niveis /\ a_historico a = Some h)).
Proof.
  unfold analisarDiaAtual.
  destruct (calculateDayKPIs_returns getHours now cfg today) as (k & ->).
  cbn [mbind result_bind].
  destruct (fetchHistoricalData cfg now replies 15); eexists; (split; [reflexivity|]);
    simpl; eauto.
Qed.

End Api55Props.

(** ** Properties of the scheduler *)
Module SchedulerProps.
Import JS Scheduler.

(** *** Recording executions *)

Lemma addToHistory_front e h : hd_error (addToHistory e h) = Some e.
Proof.
  unfold addToHistory, history_limit.
  destruct (50 <? length (e :: h))%nat eqn:E; [|reflexivity].
  destruct h as [|x h]; [discriminate|reflexivity].
Qed.

(** On a history within the limit: the new record in front, the oldest
    one dropped once the limit is passed. *)
Lemma addToHistory_take e h :
  (length h <= history_limit)%nat -> addToHistory e h = take history_limit (e :: h).
Proof.
  unfold addToHistory, history_limit. intros Hh.
  destruct (50 <? length (e :: h))%nat eqn:E.
  - apply Nat.ltb_lt in E. simpl length in E.
    rewrite removelast_firstn_len. simpl length.
    replace (Nat.pred (S (length h))) with 50%nat by lia. reflexivity.
  - apply Nat.ltb_ge in E. symmetry. apply take_ge. exact E.
Qed.

Lemma take_app_take {A} (n m : nat) (a b : list A) :
  (n <= m)%nat -> take n (a ++ take m b) = take n (a ++ b).
Proof.
  revert n. induction a as [|x a IH]; intros n Hn; simpl.
  - rewrite take_take. f_equal. lia.
  - destruct n as [|n]; [reflexivity|]. simpl. f_equal. apply IH. lia.
Qed.

Lemma record_all_take es : forall h,
  (length h <= history_limit)%nat ->
  record_all es h = take history_limit (rev es ++ h).
Proof.
  induction es as [|e es IH]; intros h Hh.
  - simpl. symmetry. now apply take_ge.
  - simpl. fold (record_all es (addToHistory e h)). rewrite IH.
    + rewrite (addToHistory_take e h Hh). cbn [rev]. rewrite <- app_assoc.
      now apply take_app_take.
    + rewrite (addToHistory_take e h Hh), length_take. lia.
Qed.

(** C6. Starting from the empty history, after any sequence of recorded
    executions the history is the 50 most recent ones, most recent first:
    each record goes in front and the last one is dropped when there would
    be more than 50.  So the history never holds more than 50 records, and
    after 60 recorded executions it holds exactly 50. *)
Theorem history_keeps_latest_50 (es : list execution) :
  let h := record_all es [] in
  h = take 50 (rev es) /\
  (length h <= 50)%nat /\
  length h = Nat.min 50 (length es) /\
  (length es = 60%nat -> length h = 50%nat) /\
  (forall e, record_all (es ++ [e]) [] = take 50 (e :: h)).
Proof.
  intros h.
  assert (Hh : h = take 50 (rev es)).
  { subst h. rewrite record_all_take by (simpl; lia). now rewrite app_nil_r. }
  assert (Hl : length h = Nat.min 50 (length es)).
  { rewrite Hh, length_take, length_rev. reflexivity. }
  repeat split; try assumption; try lia.
  intros e. subst h. unfold record_all. rewrite fold_left_app. simpl.
  apply addToHistory_take. fold (record_all es []) in *. unfold history_limit. lia.
Qed.

Lemma history_keeps_latest_50_witness :
  let e n := {| timestamp := n; e_success := true; e_kpis := None; duration := 0;
                messageId := None; e_error := None |} in
  let es := List.map (fun n => e (Z.of_nat n)) (seq 1 60) in
  length (record_all es []) = 50%nat /\
  hd_error (record_all es []) = Some (e 60).
Proof.
  intros e es.
  destruct (history_keeps_latest_50 es) as (Hh & _ & _ & H60 & _).
  split.
  - apply H60. reflexivity.
  - rewrite Hh. reflexivity.
Defined.

(** *** One run of the report *)

Section Run.

Context (svc : Services).

(** C5. Whatever the three awaited steps do, [executeReport] returns an
    execution record, never an exception, and has put that same record in
    front of the history.  When a step raises, the record has
    success = false, the message of the exception, the elapsed time and no
    KPIs; when all three return, it has the success flag and the error of
    the send, the elapsed time and the KPIs computed. *)
Theorem executeReport_always_records (startTime finish : Z) (st : state) :
  exists e,
    fst (executeReport startTime finish st) = Ok e /\
    let st' := snd (executeReport startTime finish st) in
    executionHistory st' = addToHistory e (executionHistory st) /\
    hd_error (getHistory st') = Some e /\
    duration e = finish - startTime /\
    match run_steps with
    | Throw message => e = failed_execution startTime finish message
    | Ok (kpis, r) =>
        e_success e = WhatsApp.success r /\ e_error e = WhatsApp.r_error r /\
        e_kpis e = Some kpis
    end.
Proof.
  assert (Hrec : exists e,
            fst (executeReport startTime finish st) = Ok e /\
            executionHistory (snd (executeReport startTime finish st))
              = addToHistory e (executionHistory st) /\
            duration e = finish - startTime /\
            match run_steps with
            | Throw message => e = failed_execution startTime finish message
            | Ok (kpis, r) =>
                e_success e = WhatsApp.success r /\ e_error e = WhatsApp.r_error r /\
                e_kpis e = Some kpis
            end).
  { unfold executeReport, executeReport_try, run_steps.
    destruct svc_calculateDayKPIs as [kpis|m]; cbn [mbind result_bind];
      [|eexists; repeat split].
    destruct svc_analisarDiaAtual as [analise|m]; cbn [mbind result_bind];
      [|eexists; repeat split].
    destruct (svc_sendRelatorio kpis analise) as [r|m]; cbn [mbind result_bind];
      [|eexists; repeat split].
    eexists. split; [reflexivity|].
    destruct (WhatsApp.success r) eqn:Hs; simpl; rewrite ?Hs; repeat split. }
  destruct Hrec as (e & He & Hh & Hd & Hm). exists e. split; [exact He|].
  cbv zeta. repeat split; try assumption.
  unfold getHistory. rewrite Hh. apply addToHistory_front.
Qed.

End Run.

(** With the services of this repository no step raises: the run always
    reaches the record built from the result of the send. *)
Lemma production_run_returns getHours now cfg55 today1 today2 replies cfg hora date
    report followup :
  let svc := production_services getHours now cfg55 today1 today2 replies cfg hora date
               report followup in
  exists kpis r, @run_steps svc = Ok (kpis, r).
Proof.
  intros svc. unfold run_steps, svc. simpl.
  destruct (Api55Props.calculateDayKPIs_returns getHours now cfg55 today1) as (k & ->).
  destruct (Api55Props.analisarDiaAtual_shape getHours now cfg55 today2 replies)
    as (a & -> & _).
  cbn [mbind result_bind]. eauto.
Qed.

(** A service that raises in the second step: the run is recorded as failed,
    with the message and without KPIs. *)
Example executeReport_step_raises :
  let svc := {| svc_calculateDayKPIs := Ok (Api55.zeroKPIs 0 None);
                svc_analisarDiaAtual := Throw "socket hang up";
                svc_sendRelatorio := fun _ _ => Ok (WhatsApp.sent JNull) |} in
  let st := scheduled ["18:00"] in
  fst (@executeReport svc 1000 4500 st) = Ok (failed_execution 1000 4500 "socket hang up") /\
  getHistory (snd (@executeReport svc 1000 4500 st))
    = [failed_execution 1000 4500 "socket hang up"].
Proof. repeat split. Qed.

(** *** The next run *)

Lemma in_upto x n : In x (upto n) <-> 0 <= x < Z.of_nat n.
Proof.
  unfold upto. rewrite in_map_iff. split.
  - intros (k & <- & Hk). apply in_seq in Hk. lia.
  - intros Hx. exists (Z.to_nat x). split; [lia|]. apply in_seq. lia.
Qed.

(** A valid time is "HH:MM" for an hour below 24 and a minute below 60, and
    its time of day is that hour and minute after midnight. *)
Lemma valid_time_shape s :
  valid_time s = true ->
  exists h m, 0 <= h < 24 /\ 0 <= m < 60 /\
    s = pad2 h +:+ ":" +:+ pad2 m /\
    time_of_day s = h * ms_per_hour + m * ms_per_minute /\
    In (s, time_of_day s) day_times.
Proof.
  unfold valid_time, time_of_day. destruct (lookup_time s) as [p|] eqn:E; [|discriminate].
  intros _. unfold lookup_time in E. apply find_some in E as [Hin Heq].
  apply String.eqb_eq in Heq. subst s. destruct p as [s t]. simpl.
  pose proof Hin as Hin'.
  unfold day_times in Hin. apply in_flat_map in Hin as (h & Hh & Hin).
  apply in_map_iff in Hin as (m & Hp & Hm). injection Hp as <- <-.
  apply in_upto in Hh. apply in_upto in Hm.
  exists h, m. repeat split; try lia. exact Hin'.
Qed.

Lemma day_times_parse : forallb parses_to_offset day_times = true.
Proof. vm_compute. reflexivity. Qed.

(** What the loop computes for a valid time: the date at that time of
    day. *)
Lemma setHours_valid midnight s :
  valid_time s = true ->
  (let '(hour, minute) := hour_minute s in setHours midnight hour minute)
  = Some (midnight + time_of_day s).
Proof.
  intros Hv. destruct (valid_time_shape s Hv) as (h & m & _ & _ & _ & _ & Hin).
  pose proof (proj1 (forallb_forall _ _) day_times_parse _ Hin) as Hp.
  unfold parses_to_offset in Hp. simpl fst in Hp. simpl snd in Hp.
  destruct (hour_minute s) as [[|hh] [[|mm]|]]; try discriminate.
  apply Z.eqb_eq in Hp. unfold setHours. f_equal. lia.
Qed.

Lemma pad2_table :
  forallb (fun a => (String.length (pad2 a) =? 2)%nat &&
             forallb (fun b => cmp_eqb (String.compare (pad2 a) (pad2 b)) (a ?= b))
                     (upto 60))
          (upto 60) = true.
Proof. vm_compute. reflexivity. Qed.

Lemma pad2_length a : 0 <= a < 60 -> String.length (pad2 a) = 2%nat.
Proof.
  intros Ha. pose proof (proj1 (forallb_forall _ _) pad2_table a) as H.
  rewrite in_upto in H. specialize (H ltac:(lia)).
  apply andb_prop in H as [H _]. now apply Nat.eqb_eq in H.
Qed.

Lemma pad2_compare a b :
  0 <= a < 60 -> 0 <= b < 60 -> String.compare (pad2 a) (pad2 b) = (a ?= b).
Proof.
  intros Ha Hb. pose proof (proj1 (forallb_forall _ _) pad2_table a) as H.
  rewrite in_upto in H. specialize (H ltac:(lia)).
  apply andb_prop in H as [_ H].
  pose proof (proj1 (forallb_forall _ _) H b) as H'.
  rewrite in_upto in H'. specialize (H' ltac:(lia)).
  destruct (String.compare (pad2 a) (pad2 b)), (a ?= b); (reflexivity || discriminate).
Qed.

(** Comparing two strings that start with prefixes of the same length
    compares the prefixes first. *)
Lemma compare_append a : forall b x y,
  String.length a = String.length b ->
  String.compare (a +:+ x) (b +:+ y) =
  match String.compare a b with
  | Eq => String.compare x y
  | c => c
  end.
Proof.
  induction a as [|c a IH]; intros [|d b] x y Hl; try discriminate.
  - reflexivity.
  - simpl. injection Hl as Hl. destruct (Ascii.compare c d); try reflexivity.
    now apply IH.
Qed.

(** For zero-padded times the order of the strings is the order of the
    times of day. *)
Lemma leb_valid_times a b :
  valid_time a = true -> valid_time b = true ->
  String.leb a b = (time_of_day a <=? time_of_day b).
Proof.
  intros Ha Hb.
  destruct (valid_time_shape a Ha) as (h1 & m1 & Hh1 & Hm1 & Ea & Ta & _).
  destruct (valid_time_shape b Hb) as (h2 & m2 & Hh2 & Hm2 & Eb & Tb & _).
  rewrite Ta, Tb. unfold String.leb. rewrite Ea, Eb.
  rewrite compare_append by (rewrite !pad2_length; lia || reflexivity).
  rewrite pad2_compare by lia.
  change (String.compare (":" +:+ pad2 m1) (":" +:+ pad2 m2))
    with (String.compare (pad2 m1) (pad2 m2)).
  rewrite pad2_compare by lia.
  unfold ms_per_hour, ms_per_minute.
  destruct (Z.compare_spec h1 h2) as [->|Hlt|Hgt].
  - destruct (Z.compare_spec m1 m2); symmetry; (apply Z.leb_le || apply Z.leb_gt); lia.
  - symmetry. apply Z.leb_le. lia.
  - symmetry. apply Z.leb_gt. lia.
Qed.

Lemma insert_sorted_In x s l : In x (insert_sorted s l) <-> x = s \/ In x l.
Proof.
  induction l as [|y l IH]; simpl.
  - intuition.
  - destruct (String.leb s y); simpl; [intuition|]. rewrite IH. intuition.
Qed.

Lemma sort_In x l : In x (sort l) <-> In x l.
Proof.
  induction l as [|y l IH]; simpl; [reflexivity|].
  rewrite insert_sorted_In, IH. intuition.
Qed.

Lemma insert_sorted_ascending s l :
  valid_time s = true ->
  (forall x, In x l -> valid_time x = true) ->
  ascending l -> ascending (insert_sorted s l).
Proof.
  intros Hs. induction l as [|y l IH]; intros Hv Hl; simpl.
  - split; [intros ? []|exact I].
  - destruct Hl as [Hy Hl].
    pose proof (leb_valid_times s y Hs (Hv y (or_introl eq_refl))) as Hle.
    destruct (String.leb s y); symmetry in Hle.
    + apply Z.leb_le in Hle. split; [|split; assumption].
      intros x [<-|Hx]; [exact Hle|]. specialize (Hy x Hx). lia.
    + apply Z.leb_gt in Hle. split.
      * intros x Hx. rewrite insert_sorted_In in Hx; destruct Hx as [->|Hx]; [lia|auto].
      * apply IH; [|exact Hl]. intros x Hx. apply Hv. now right.
Qed.

Lemma sort_ascending l :
  (forall x, In x l -> valid_time x = true) -> ascending (sort l).
Proof.
  induction l as [|y l IH]; intros Hv; simpl; [exact I|].
  apply insert_sorted_ascending.
  - apply Hv. now left.
  - intros x Hx. rewrite sort_In in Hx. apply Hv. now right.
  - apply IH. intros x Hx. apply Hv. now right.
Qed.

(** The loop over ascending valid times stops at the earliest one that is
    still ahead, and falls through when none is. *)
Lemma first_after_ascending today now l :
  (forall x, In x l -> valid_time x = true) ->
  ascending l ->
  match first_after today now l with
  | Some d =>
      exists s, In s l /\ d = Some (today + time_of_day s) /\
        now < today + time_of_day s /\
        forall s', In s' l -> now < today + time_of_day s' ->
                   time_of_day s <= time_of_day s'
  | None => forall s, In s l -> today + time_of_day s <= now
  end.
Proof.
  induction l as [|y l IH]; intros Hv Hl; simpl.
  - intros s [].
  - destruct Hl as [Hy Hl].
    pose proof (setHours_valid today y (Hv y (or_introl eq_refl))) as Hset.
    destruct (hour_minute y) as [hour minute]. rewrite Hset. simpl after.
    destruct (now <? today + time_of_day y) eqn:E.
    + apply Z.ltb_lt in E. exists y. repeat split; auto.
      intros s' [<-|Hs'] _; [lia|auto].
    + apply Z.ltb_ge in E.
      assert (Hv' : forall x, In x l -> valid_time x = true) by (intros; apply Hv; now right).
      specialize (IH Hv' Hl). destruct (first_after today now l) as [d|].
      * destruct IH as (s & Hs & Hd & Hnow & Hmin).
        exists s. repeat split; auto.
        intros s' [<-|Hs'] Hlt; [lia|auto].
      * intros s [<-|Hs]; auto.
Qed.

(** C7. For every schedule of zero-padded "HH:MM" times with at least one
    entry, and every instant, [getNextRun] returns a date: the earliest
    configured time of day strictly ahead today or, when every configured
    time of today has passed, the earliest configured time of day,
    tomorrow. *)
Theorem getNextRun_earliest (now : Z) (st : state) :
  scheduledTimes st <> [] ->
  Forall (fun s => valid_time s = true) (scheduledTimes st) ->
  exists r, fst (getNextRun now st) = Ok (Some r) /\
            next_run_of (scheduledTimes st) now r.
Proof.
  intros Hne Hall. rewrite List.Forall_forall in Hall.
  assert (Hvs : forall x, In x (sort (scheduledTimes st)) -> valid_time x = true).
  { intros x Hx. apply Hall. now rewrite sort_In in Hx. }
  pose proof (sort_ascending _ Hall) as Hasc.
  pose proof (first_after_ascending (start_of_day now) now _ Hvs Hasc) as Hfirst.
  unfold getNextRun, next_run_of.
  destruct (first_after (start_of_day now) now (sort (scheduledTimes st))) as [d|].
  - destruct Hfirst as (s & Hs & -> & Hnow & Hmin).
    exists (start_of_day now + time_of_day s). split; [reflexivity|]. left.
    exists s. rewrite sort_In in Hs. repeat split; auto.
    intros s' Hs' Hlt. rewrite <- sort_In in Hs'. specialize (Hmin s' Hs' Hlt). lia.
  - destruct (sort (scheduledTimes st)) as [|first rest] eqn:Es.
    + exfalso. destruct (scheduledTimes st) as [|x l]; [congruence|].
      assert (Hx : In x (sort (x :: l))) by (rewrite sort_In; now left).
      rewrite Es in Hx. destruct Hx.
    + pose proof (setHours_valid (start_of_day now + ms_per_day) first
                    (Hvs first (or_introl eq_refl))) as Hset.
      destruct (hour_minute first) as [hour minute]. simpl fst. rewrite Hset.
      eexists. split; [reflexivity|]. right. split.
      * intros s Hs. apply Hfirst. now rewrite <- (sort_In s (scheduledTimes st)), Es in Hs.
      * exists first. split; [rewrite <- sort_In, Es; now left|].
        split; [reflexivity|].
        intros s' Hs'. rewrite <- sort_In, Es in Hs'.
        destruct Hasc as [Hmin _]. destruct Hs' as [<-|Hs']; [lia|auto].
Qed.

Lemma getNextRun_earliest_witness :
  let day := 20000 * ms_per_day in
  fst (getNextRun (day + 10 * ms_per_hour) (scheduled ["09:00"; "18:00"]))
    = Ok (Some (day + 18 * ms_per_hour)) /\
  fst (getNextRun (day + 19 * ms_per_hour) (scheduled ["09:00"; "18:00"]))
    = Ok (Some (day + ms_per_day + 9 * ms_per_hour)) /\
  exists r, fst (getNextRun (day + 19 * ms_per_hour) (scheduled ["18:00"; "09:00"]))
            = Ok (Some r) /\
            next_run_of ["18:00"; "09:00"] (day + 19 * ms_per_hour) r.
Proof.
  intros day. split; [reflexivity|]. split; [reflexivity|].
  apply (getNextRun_earliest (day + 19 * ms_per_hour) (scheduled ["18:00"; "09:00"])).
  - discriminate.
  - repeat constructor.
Defined.

End SchedulerProps.

(** ** Properties of the notification dispatcher *)
Module WhatsAppProps.
Import JS WhatsApp.

(** When the post of the report is rejected nothing else is sent, and the
    result is the failure. *)
Lemma sendRelatorio_report_rejected cfg hora today kpis analise message followup :
  isConfigured cfg = true ->
  sendRelatorio cfg hora today kpis analise (Rejected message) followup =
  (failed message, [Post endpoint_enviarRelatorio (relatorio_body cfg hora today kpis)]).
Proof. unfold sendRelatorio. now intros ->. Qed.

(** Without configuration nothing is sent at all. *)
Lemma sendRelatorio_unconfigured cfg hora today kpis analise report followup :
  isConfigured cfg = false ->
  sendRelatorio cfg hora today kpis analise report followup =
  (failed "API não configurada", []).
Proof. unfold sendRelatorio. now intros ->. Qed.

(** C9. A report that is dispatched (the service is configured and the
    post of the report is accepted) with a historical comparison whose
    classification set is not null makes exactly two posts, both to the
    configured destination: the report, then, after a pause of 2000 ms, the
    comparison message.  The result is the success of the first post
    whatever the second one meets.  With a null or absent classification set
    only the report is posted. *)
Theorem sendRelatorio_two_messages cfg hora today kpis a niveis historico d followup :
  isConfigured cfg = true ->
  Api55.analise a = Some niveis ->
  Api55.a_historico a = Some historico ->
  let report := Post endpoint_enviarRelatorio (relatorio_body cfg hora today kpis) in
  let comparison :=
    Post endpoint_enviar
      (MensagemBody (destination cfg) (analise_text (Api55.hoje a) historico niveis)) in
  sendRelatorio cfg hora today kpis (Some a) (Accepted d) followup
    = (sent d, [report; Sleep 2000; comparison]) /\
  target report = Some (destination cfg) /\
  target comparison = Some (destination cfg) /\
  (forall a', Api55.analise a' = None ->
     sendRelatorio cfg hora today kpis (Some a') (Accepted d) followup = (sent d, [report])) /\
  sendRelatorio cfg hora today kpis None (Accepted d) followup = (sent d, [report]).
Proof.
  intros Hcfg Hn Hh report comparison. repeat split.
  - unfold sendRelatorio, sendAnaliseHistorica, sendMessage.
    rewrite Hcfg, Hn, Hh. simpl. destruct followup; reflexivity.
  - intros a' Hn'. unfold sendRelatorio. now rewrite Hcfg, Hn'.
  - unfold sendRelatorio. now rewrite Hcfg.
Qed.

Lemma sendRelatorio_two_messages_witness :
  let cfg := {| apiUrl := "https://api"; destination := "5511999990000" |} in
  let cfg55 := {| Api55.apiUrl := "https://pbx"; Api55.token := "k" |} in
  let day n := Api55.Response 200 (JObj [("totalCallAttendedReceptive", JNum n)]) in
  exists a mensagem report,
    Api55.analisarDiaAtual (fun _ => NaN) 0 cfg55 (day 12) (fun _ => day 10) = Ok a /\
    sendRelatorio cfg 18 "01/02/2025" (Api55.hoje a) (Some a)
      (Accepted JNull) (Rejected "timeout")
    = (sent JNull,
       [Post "/enviar-relatorio" report; Sleep 2000;
        Post "/enviar" (MensagemBody "5511999990000" mensagem)]).
Proof.
  intros cfg cfg55 day. eexists. eexists. eexists. split.
  - vm_compute. reflexivity.
  - eapply (fun a niveis h Hn Hh =>
              proj1 (sendRelatorio_two_messages cfg 18 "01/02/2025" (Api55.hoje a) a
                       niveis h JNull (Rejected "timeout") eq_refl Hn Hh));
      reflexivity.
Defined.

End WhatsAppProps.

(** ** Properties of the day cache *)
Module DbReportsProps.
Import JS DbReports.

Section CacheProps.

Variable format_day : Z -> string.
Variable toISOString : Z -> string.

Local Abbreviation callsPath := (getCallsFilePath format_day).
Local Abbreviation metadataPath := (getMetadataFilePath format_day).
Local Abbreviation addCall := (DbReports.addCall format_day toISOString).
Local Abbreviation hasCache := (DbReports.hasCache format_day).

(** The calls file and the metadata file of any two days are different
    files. *)
Lemma paths_differ d d' : callsPath d <> metadataPath d'.
Proof.
  unfold getCallsFilePath, getMetadataFilePath, DB_PATH. cbn. intros H. discriminate H.
Qed.

(** What a successful [addCall] leaves in the directory. *)
Lemma addCall_true now callData dir dir' :
  addCall now callData dir = (true, dir') ->
  is_Some (dir' !! callsPath now) /\
  dir' !! metadataPath now =
    Some (MetadataFile {| createdAt := now; expiresAt := now + DEFAULT_TTL * 1000;
                          ttl := DEFAULT_TTL |}).
Proof.
  unfold DbReports.addCall, updateMetadata.
  destruct (read_calls _) as [calls|m]; [|discriminate].
  intros [= <-]. split.
  - rewrite lookup_insert_ne by (apply not_eq_sym, paths_differ).
    rewrite lookup_insert_eq. eauto.
  - apply lookup_insert_eq.
Qed.

(** Once the files of a day are gone every query on that day answers
    false and changes nothing. *)
Lemma hasCache_absent date now dir :
  dir !! callsPath date = None -> hasCache date now dir = (false, dir).
Proof. unfold DbReports.hasCache. now intros ->. Qed.


(** C10. When the calls file of a day exists and its metadata file is
    missing or cannot be parsed, [hasCache] answers true at every instant
    and removes nothing. *)
Theorem hasCache_without_metadata date now dir :
  is_Some (dir !! callsPath date) ->
  dir !! metadataPath date = None \/ dir !! metadataPath date = Some NotJson ->
  hasCache date now dir = (true, dir).
Proof.
  intros [f Hf] Hm. unfold DbReports.hasCache. rewrite Hf.
  destruct Hm as [-> | ->]; reflexivity.
Qed.

(** The same holds for any metadata file without a usable expiry. *)
Lemma hasCache_no_expiry date now dir :
  is_Some (dir !! callsPath date) ->
  (forall m, dir !! metadataPath date <> Some (MetadataFile m)) ->
  hasCache date now dir = (true, dir).
Proof.
  intros [f Hf] Hm. unfold DbReports.hasCache. rewrite Hf.
  destruct (dir !! metadataPath date) as [[calls|m| |]|] eqn:E; try reflexivity.
  now destruct (Hm m).
Qed.

(** Two writes on the same day: the expiry follows the second one. *)
Lemma addCall_twice_extends t1 t2 c1 c2 dir dir1 dir2 m :
  addCall t1 c1 dir = (true, dir1) ->
  addCall t2 c2 dir1 = (true, dir2) ->
  format_day t1 = format_day t2 ->
  dir2 !! metadataPath t1 = Some (MetadataFile m) ->
  expiresAt m = t2 + 90000 * 1000.
Proof.
  intros _ H2 Hday Hm. apply addCall_true in H2 as [_ H2].
  unfold getMetadataFilePath in *. rewrite Hday, H2 in Hm. now injection Hm as <-.
Qed.

End CacheProps.


Lemma hasCache_without_metadata_witness :
  let fmt t := string_of_Z (t / 86400000) in
  let dir : directory := {[ getCallsFilePath fmt 1000 := CallsFile [] ]} in
  hasCache fmt 1000 (1000 + 400 * 86400000) dir = (true, dir).
Proof.
  intros fmt dir. apply hasCache_without_metadata.
  - exists (CallsFile []). reflexivity.
  - left. reflexivity.
Defined.

End DbReportsProps.

(** ** Further properties of the KPI aggregator and the historical analyser *)
Module Api55Extra.
Import JS Api55.

(** Reading a property of anything but [null] and [undefined] succeeds. *)
Lemma prop_get k c : nullish c = false -> prop k c = Ok (get k c).
Proof. destruct c; (discriminate || reflexivity). Qed.

Lemma prop_nullish k c : nullish c = true -> exists m, prop k c = Throw m.
Proof. destruct c; try discriminate; intros _; eexists; reflexivity. Qed.



(** The classification of a value that is not [null] or [undefined], in
    terms of the three things it reads. *)
Lemma classifyCallStatus_unfold c :
  nullish c = false ->
  classifyCallStatus c =
  (status ← upper (status_value c);
   if answered_flag (or_else (get "answered" c) (get "atendida" c)) then Ok Answered
   else if includes status "ANSWERED" || includes status "ATENDIDA" then Ok Answered
   else if includes status "ABANDONED" || includes status "ABANDONADA"
           || includes status "NO ANSWER" then Ok Abandoned
   else if includes status "URA" || includes status "IVR" || negb (truthy (queue_value c))
        then Ok RetainedURA
   else Ok Other).
Proof.
  intros Hn. unfold classifyCallStatus, status_value, queue_value.
  rewrite !(prop_get _ c Hn). cbn [mbind result_bind].
  destruct (upper _); reflexivity.
Qed.

(** X2. [classifyCallStatus] raises exactly on [null], on [undefined], and
    on a call whose status ([call_status], else [status]) is set to something
    that is not text; on every other value it returns a category. *)
Theorem classifyCallStatus_raises_iff c :
  throws (classifyCallStatus c) = true <->
  nullish c = true \/ is_text (status_value c) = false.
Proof.
  destruct (nullish c) eqn:Hn.
  - split; [auto|]. intros _.
    unfold classifyCallStatus. destruct (prop_nullish "call_status" c Hn) as [m ->].
    reflexivity.
  - rewrite (classifyCallStatus_unfold c Hn).
    destruct (status_value c) as [| | | |s| |] eqn:Hs; cbn [upper mbind result_bind is_text throws];
      try (split; [auto|reflexivity]).
    split; [|intros [H|H]; discriminate].
    destruct (answered_flag _); [discriminate|].
    destruct (_ || _); [discriminate|].
    destruct (_ || _ || _); [discriminate|].
    destruct (_ || _ || _); discriminate.
Qed.

(** X3. A call is never classified as "other" without a queue: the
    category other is returned only for a call whose queue ([call_queue],
    else [queue]) is set. *)
Theorem classifyCallStatus_other_has_queue c :
  classifyCallStatus c = Ok Other -> truthy (queue_value c) = true.
Proof.
  destruct (nullish c) eqn:Hn.
  - unfold classifyCallStatus. destruct (prop_nullish "call_status" c Hn) as [m ->].
    discriminate.
  - rewrite (classifyCallStatus_unfold c Hn).
    destruct (upper (status_value c)) as [status|m]; cbn [mbind result_bind]; [|discriminate].
    destruct (answered_flag _); [discriminate|].
    destruct (_ || _); [discriminate|].
    destruct (_ || _ || _); [discriminate|].
    destruct (truthy (queue_value c)); [reflexivity|].
    rewrite orb_true_r. discriminate.
Qed.

Lemma classifyCallStatus_other_has_queue_witness :
  truthy (queue_value (JObj [("status", JStr "busy"); ("queue", JStr "vendas")])) = true.
Proof. apply classifyCallStatus_other_has_queue. reflexivity. Defined.

(** *** The loop over the calls *)

Lemma classifiable_ok c :
  classifiable c = true -> exists cat, classifyCallStatus c = Ok cat.
Proof.
  unfold classifiable. intros H. apply andb_prop in H as [Hn Ht].
  apply negb_true_iff in Hn. rewrite (classifyCallStatus_unfold c Hn).
  destruct (status_value c); try discriminate. cbn [upper mbind result_bind].
  destruct (answered_flag _); [eauto|].
  destruct (_ || _); [eauto|].
  destruct (_ || _ || _); [eauto|].
  destruct (_ || _ || _); eauto.
Qed.

Lemma tally_call_inv getHours t c t' :
  tally_call getHours t c = Ok t' ->
  exists cat, classifyCallStatus c = Ok cat /\ t' = tally_step getHours cat c t.
Proof.
  unfold tally_call. destruct (nullish c) eqn:Hn.
  - unfold classifyCallStatus. destruct (prop_nullish "call_status" c Hn) as [m ->].
    discriminate.
  - destruct (classifyCallStatus c) as [cat|m]; cbn [mbind result_bind]; [|discriminate].
    rewrite !(prop_get _ c Hn). cbn [mbind result_bind].
    intros [= <-]. exists cat. split; reflexivity.
Qed.

Lemma tally_call_classified getHours t c cat :
  classifyCallStatus c = Ok cat ->
  tally_call getHours t c = Ok (tally_step getHours cat c t).
Proof.
  intros Hc. unfold tally_call. rewrite Hc. cbn [mbind result_bind].
  destruct (nullish c) eqn:Hn.
  - unfold classifyCallStatus in Hc.
    destruct (prop_nullish "call_status" c Hn) as [m Hm]. rewrite Hm in Hc. discriminate.
  - rewrite !(prop_get _ c Hn). reflexivity.
Qed.

Lemma tally_step_counted getHours cat c t :
  counted (tally_step getHours cat c t) = counted t + 1.
Proof. unfold counted. destruct cat; simpl; lia. Qed.

(** A loop that ends has counted every call once, added up the waits and
    bumped the hour of every call, in order. *)
Lemma forEachM_tally_inv getHours calls : forall t t',
  forEachM (tally_call getHours) t calls = Ok t' ->
  counted t' = counted t + Z.of_nat (length calls) /\
  t_totalWaitTime t' = fold_left (fun s c => num_add s (wait_of c)) calls (t_totalWaitTime t) /\
  t_hourCounts t' = fold_left (fun hc c => bump (label_of getHours c) hc) calls (t_hourCounts t).
Proof.
  induction calls as [|c calls IH]; intros t t' H.
  - injection H as <-. simpl. repeat split. lia.
  - cbn [forEachM] in H.
    destruct (tally_call getHours t c) as [t1|m] eqn:E1; cbn [mbind result_bind] in H;
      [|discriminate].
    apply tally_call_inv in E1 as (cat & _ & ->).
    destruct (IH _ _ H) as (Hc & Hw & Hh).
    rewrite Hc, Hw, Hh, tally_step_counted. simpl length.
    destruct cat; simpl; repeat split; lia.
Qed.

Lemma forEachM_classifiable getHours calls : forall t,
  Forall (fun c => classifiable c = true) calls ->
  exists t', forEachM (tally_call getHours) t calls = Ok t'.
Proof.
  induction calls as [|c calls IH]; intros t Hall.
  - eexists. reflexivity.
  - inversion Hall as [|? ? Hc Hrest]; subst.
    destruct (classifiable_ok c Hc) as [cat Hcat].
    cbn [forEachM]. rewrite (tally_call_classified getHours t c cat Hcat).
    cbn [mbind result_bind]. apply IH. exact Hrest.
Qed.

Lemma kpis_of_aggregate_inv now d k :
  kpis_of_aggregate now d = Ok k ->
  other k = Num 0 /\ peakHour k = None /\ error k = None /\
  totalCalls k = num_add (num_add (answered k) (abandoned k)) (retainedURA k).
Proof.
  unfold kpis_of_aggregate.
  destruct (prop "totalCallAttendedReceptive" d); cbn [mbind result_bind]; [|discriminate].
  destruct (prop "totalCallAbandonedQueue" d); cbn [mbind result_bind]; [|discriminate].
  destruct (prop "totalCallAbandonedURA" d); cbn [mbind result_bind]; [|discriminate].
  destruct (prop "timeMediumWaitingAttendance" d); cbn [mbind result_bind]; [|discriminate].
  destruct (parse_wait _); cbn [mbind result_bind]; [|discriminate].
  destruct (prop "sla_attendance" d); cbn [mbind result_bind]; [|discriminate].
  destruct (prop "timeMediumDurationCall" d); cbn [mbind result_bind]; [|discriminate].
  intros [= <-]. simpl. repeat split.
Qed.

Lemma num_add_zero x : num_add x (Num 0) = x.
Proof. destruct x; simpl; [reflexivity|]. f_equal. lia. Qed.

(** The snapshot of the branch for a list, when the loop ends. *)
Lemma kpis_of_calls_inv getHours now calls k :
  kpis_of_calls getHours now calls = Ok k ->
  exists t, forEachM (tally_call getHours) tally0 calls = Ok t /\
    totalCalls k = Num (Z.of_nat (length calls)) /\
    answered k = Num (t_answered t) /\ abandoned k = Num (t_abandoned t) /\
    retainedURA k = Num (t_retainedURA t) /\ other k = Num (t_other t) /\
    error k = None /\
    avgWaitTime k = (if 0 <? Z.of_nat (length calls)
                     then math_round_div (t_totalWaitTime t) (Z.of_nat (length calls))
                     else Num 0) /\
    peakHour k = match fst (find_peak (t_hourCounts t)) with
                 | Some h => if String.eqb h "" then None
                             else Some {| hour := h; count := snd (find_peak (t_hourCounts t)) |}
                 | None => None
                 end.
Proof.
  unfold kpis_of_calls.
  destruct (forEachM (tally_call getHours) tally0 calls) as [t|m]; cbn [mbind result_bind];
    [|discriminate].
  destruct (find_peak (t_hourCounts t)) as [ph pc] eqn:Ep. intros [= <-].
  exists t. simpl. rewrite Ep. repeat split.
Qed.

(** X4. In every snapshot [calculateDayKPIs] returns, whatever the
    upstream sent, the four counters add up to totalCalls (as numbers: a
    counter that is NaN makes both sides NaN). *)
Theorem calculateDayKPIs_counters_add_up getHours now cfg reply :
  exists k, calculateDayKPIs getHours now cfg reply = Ok k /\
            counters_sum k = totalCalls k.
Proof.
  unfold calculateDayKPIs, try_catch.
  destruct (calculateDayKPIs_try getHours now cfg reply) as [k|m] eqn:E;
    [|eexists; split; reflexivity].
  exists k. split; [reflexivity|].
  unfold calculateDayKPIs_try in E.
  destruct (fetchTodayCalls cfg reply) as [[d|]|m]; cbn [mbind result_bind] in E;
    [| injection E as <-; reflexivity | discriminate].
  assert (Hagg : kpis_of_aggregate now d = Ok k -> counters_sum k = totalCalls k).
  { intros H. apply kpis_of_aggregate_inv in H as (Ho & _ & _ & Ht).
    unfold counters_sum. rewrite Ho, Ht. apply num_add_zero. }
  destruct d as [| | | | |[|c calls]|]; try (apply Hagg; exact E).
  - injection E as <-. reflexivity.
  - apply kpis_of_calls_inv in E as (t & Ht & Htot & A & B & C & D & _).
    apply forEachM_tally_inv in Ht as (Hc & _ & _).
    unfold counters_sum. rewrite A, B, C, D, Htot. simpl num_add. f_equal.
    unfold counted in Hc. simpl in Hc. simpl length. lia.
Qed.



(** *** The average wait *)

Lemma calculateDayKPIs_on_calls getHours now cfg status calls :
  isConfigured cfg = true ->
  status < 400 ->
  calls <> [] ->
  calculateDayKPIs getHours now cfg (Response status (JArr calls))
  = try_catch (kpis_of_calls getHours now calls)
              (fun message => Ok (zeroKPIs now (Some message))).
Proof.
  intros Hcfg Hs Hne. unfold calculateDayKPIs, calculateDayKPIs_try, fetchTodayCalls.
  rewrite Hcfg. simpl negb. cbv iota.
  replace (500 <=? status) with false by (symmetry; apply Z.leb_gt; lia).
  replace (400 <=? status) with false by (symmetry; apply Z.leb_gt; lia).
  simpl. destruct calls; [congruence|reflexivity].
Qed.

Lemma kpis_of_calls_classifiable getHours now calls :
  Forall (fun c => classifiable c = true) calls ->
  exists k, kpis_of_calls getHours now calls = Ok k.
Proof.
  intros Hall. destruct (forEachM_classifiable getHours calls tally0 Hall) as [t Ht].
  unfold kpis_of_calls. rewrite Ht. cbn [mbind result_bind].
  destruct (find_peak (t_hourCounts t)). eauto.
Qed.

Lemma fold_waits_NaN calls :
  fold_left (fun s c => num_add s (wait_of c)) calls NaN = NaN.
Proof. induction calls as [|c calls IH]; [reflexivity|exact IH]. Qed.

Lemma sum_waits_NaN calls :
  Exists (fun c => wait_of c = NaN) calls -> sum_waits calls = NaN.
Proof.
  unfold sum_waits. generalize (Num 0).
  induction calls as [|c calls IH]; intros acc Hex.
  - inversion Hex.
  - simpl. inversion Hex as [? ? Hc|? ? Hrest]; subst.
    + rewrite Hc. destruct acc; apply fold_waits_NaN.
    + apply IH. exact Hrest.
Qed.



(** *** The peak hour *)

Lemma count_for_bump h l hc :
  count_for h (bump l hc) = count_for h hc + indicator (String.eqb l h).
Proof.
  unfold count_for. induction hc as [|[k n] hc IH]; cbn [bump find fst snd].
  - destruct (String.eqb l h); simpl; lia.
  - destruct (String.eqb k l) eqn:Ekl; cbn [find fst snd].
    + apply String.eqb_eq in Ekl. subst k.
      destruct (String.eqb l h); simpl; lia.
    + destruct (String.eqb k h) eqn:Ekh; [|exact IH].
      apply String.eqb_eq in Ekh. subst k. rewrite String.eqb_sym, Ekl. simpl. lia.
Qed.

Lemma keys_bump l hc :
  map fst (bump l hc) = if decide (l ∈ map fst hc) then map fst hc else map fst hc ++ [l].
Proof.
  induction hc as [|[k n] hc IH]; cbn [bump map fst].
  - destruct (decide (l ∈ [])) as [Hin|_]; [inversion Hin|reflexivity].
  - destruct (String.eqb k l) eqn:Ekl.
    + apply String.eqb_eq in Ekl. subst k. cbn [map fst].
      destruct (decide (l ∈ l :: map fst hc)) as [_|Hn]; [reflexivity|].
      destruct Hn. apply list_elem_of_here.
    + apply String.eqb_neq in Ekl. cbn [map fst]. rewrite IH.
      destruct (decide (l ∈ map fst hc)) as [Hin|Hn];
        destruct (decide (l ∈ k :: map fst hc)) as [Hin'|Hn']; try reflexivity.
      * destruct Hn'. now apply list_elem_of_further.
      * apply elem_of_cons in Hin' as [?|?]; [congruence|contradiction].
Qed.

Lemma bump_positive l hc :
  Forall (fun p => 1 <= snd p) hc -> Forall (fun p => 1 <= snd p) (bump l hc).
Proof.
  induction 1 as [|[k n] hc Hp Hall IH]; cbn [bump].
  - constructor; [simpl; lia|constructor].
  - simpl in Hp. destruct (String.eqb k l).
    + constructor; [simpl; lia|exact Hall].
    + constructor; [exact Hp|exact IH].
Qed.

Lemma hour_table_snoc getHours cs c :
  hour_table getHours (cs ++ [c]) = bump (label_of getHours c) (hour_table getHours cs).
Proof. unfold hour_table. now rewrite fold_left_app. Qed.

Lemma calls_at_snoc getHours h cs c :
  calls_at getHours h (cs ++ [c])
  = calls_at getHours h cs + indicator (String.eqb (label_of getHours c) h).
Proof.
  unfold calls_at. rewrite List.filter_app, length_app. simpl.
  destruct (String.eqb (label_of getHours c) h); simpl; lia.
Qed.

Lemma first_seen_snoc getHours h cs c :
  first_seen getHours h (cs ++ [c]) =
  match first_seen getHours h cs with
  | Some x => Some x
  | None => if String.eqb (label_of getHours c) h then Some (length cs) else None
  end.
Proof.
  induction cs as [|d cs IH]; simpl.
  - destruct (String.eqb (label_of getHours c) h); reflexivity.
  - destruct (String.eqb (label_of getHours d) h); [reflexivity|].
    rewrite IH. destruct (first_seen getHours h cs); simpl; [reflexivity|].
    destruct (String.eqb (label_of getHours c) h); reflexivity.
Qed.

Lemma first_seen_bound getHours h cs x :
  first_seen getHours h cs = Some x -> (x < length cs)%nat.
Proof.
  revert x. induction cs as [|d cs IH]; intros x; simpl; [discriminate|].
  destruct (String.eqb (label_of getHours d) h).
  - intros [= <-]. lia.
  - destruct (first_seen getHours h cs) as [y|]; simpl; [|discriminate].
    intros [= <-]. specialize (IH y eq_refl). lia.
Qed.

(** The table counts the calls of every hour, holds each hour once, and
    keeps the hours in the order in which they were first seen. *)
Lemma hour_table_inv getHours cs :
  (forall h, count_for h (hour_table getHours cs) = calls_at getHours h cs) /\
  Forall (fun p => 1 <= snd p) (hour_table getHours cs) /\
  NoDup (map fst (hour_table getHours cs)) /\
  (forall h, In h (map fst (hour_table getHours cs)) <-> first_seen getHours h cs <> None) /\
  (forall (i j : nat) a b, (i < j)%nat ->
     map fst (hour_table getHours cs) !! i = Some a ->
     map fst (hour_table getHours cs) !! j = Some b ->
     seen_before getHours cs a b).
Proof.
  induction cs as [|c cs IH] using rev_ind.
  - repeat split; try (intros; discriminate); try constructor; simpl; intuition.
  - destruct IH as (Hcount & Hpos & Hnd & Hkeys & Hord).
    rewrite hour_table_snoc. set (l := label_of getHours c) in *.
    set (hc := hour_table getHours cs) in *.
    assert (Hseen : forall h, first_seen getHours h (cs ++ [c]) =
                      match first_seen getHours h cs with
                      | Some x => Some x
                      | None => if String.eqb l h then Some (length cs) else None
                      end) by (intros; apply first_seen_snoc).
    repeat split.
    + intros h. rewrite count_for_bump, calls_at_snoc, Hcount. reflexivity.
    + now apply bump_positive.
    + rewrite keys_bump. destruct (decide (l ∈ map fst hc)) as [Hin|Hn]; [exact Hnd|].
      apply NoDup_app. repeat split; [exact Hnd| |apply NoDup_singleton].
      intros x Hx Hx'. apply list_elem_of_singleton in Hx'. subst x. contradiction.
    + rewrite keys_bump, Hseen. intros Hin.
      destruct (decide (l ∈ map fst hc)) as [Hl|Hn].
      * apply Hkeys in Hin. destruct (first_seen getHours h cs); congruence.
      * apply in_app_iff in Hin as [Hin|[<-|[]]].
        -- apply Hkeys in Hin. destruct (first_seen getHours h cs); congruence.
        -- destruct (first_seen getHours l cs); [discriminate|].
           rewrite String.eqb_refl. discriminate.
    + rewrite keys_bump, Hseen. intros Hs.
      destruct (first_seen getHours h cs) as [x|] eqn:Ex.
      * assert (Hin : In h (map fst hc)) by (apply Hkeys; congruence).
        destruct (decide (l ∈ map fst hc)); [exact Hin|]. apply in_app_iff. now left.
      * destruct (String.eqb l h) eqn:El; [|congruence].
        apply String.eqb_eq in El. subst h.
        destruct (decide (l ∈ map fst hc)) as [Hl|Hn]; [now apply list_elem_of_In|].
        apply in_app_iff. right. now left.
    + intros i j a b Hij Ha Hb. rewrite keys_bump in Ha, Hb. unfold seen_before.
      rewrite !Hseen.
      destruct (decide (l ∈ map fst hc)) as [Hl|Hn].
      * destruct (Hord i j a b Hij Ha Hb) as (x & y & -> & -> & Hxy). eauto.
      * apply lookup_app_Some in Hb as [Hb|[Hlen Hb]].
        -- rewrite lookup_app_l in Ha by (apply lookup_lt_Some in Hb; lia).
           destruct (Hord i j a b Hij Ha Hb) as (x & y & -> & -> & Hxy). eauto.
        -- destruct (j - length (map fst hc))%nat eqn:Ej; [|discriminate].
           injection Hb as <-.
           rewrite lookup_app_l in Ha by lia.
           assert (Hina : In a (map fst hc)).
           { apply list_elem_of_In. eapply list_elem_of_lookup_2. exact Ha. }
           apply Hkeys in Hina. destruct (first_seen getHours a cs) as [x|] eqn:Ea;
             [|congruence].
           assert (Hnl : first_seen getHours l cs = None).
           { destruct (first_seen getHours l cs) eqn:E; [|reflexivity].
             destruct Hn. apply list_elem_of_In, Hkeys. congruence. }
           rewrite Hnl, String.eqb_refl. exists x, (length cs). repeat split.
           eapply first_seen_bound. exact Ea.
Qed.

(** The scan keeps the first entry with the largest count. *)
Lemma find_peak_scan l : forall b c,
  (forall p, In p l -> snd p <= snd (fold_left peak_step l (b, c))) /\
  (fold_left peak_step l (b, c) = (b, c) \/
   exists l1 h l2,
     l = l1 ++ (h, snd (fold_left peak_step l (b, c))) :: l2 /\
     fst (fold_left peak_step l (b, c)) = Some h /\
     c < snd (fold_left peak_step l (b, c)) /\
     forall p, In p l1 -> snd p < snd (fold_left peak_step l (b, c))).
Proof.
  induction l as [|[k n] l IH]; intros b c.
  - simpl. split; [intros p []|now left].
  - cbn [fold_left].
    assert (Hstep : peak_step (b, c) (k, n) = if c <? n then (Some k, n) else (b, c))
      by reflexivity.
    rewrite Hstep. clear Hstep. destruct (c <? n) eqn:E.
    + apply Z.ltb_lt in E. destruct (IH (Some k) n) as [Hmax Hcase].
      set (r := fold_left peak_step l (Some k, n)) in *.
      assert (Hn : n <= snd r).
      { destruct Hcase as [Hr|(l1 & h & l2 & _ & _ & Hlt & _)]; [rewrite Hr; simpl|]; lia. }
      split.
      * intros p [<-|Hp]; [exact Hn|now apply Hmax].
      * right. destruct Hcase as [Hr|(l1 & h & l2 & Hl & Hf & Hlt & Hbefore)].
        -- exists [], k, l. rewrite Hr. simpl. repeat split; auto. intros p [].
        -- exists ((k, n) :: l1), h, l2. repeat split; auto; try lia.
           ++ simpl. now rewrite <- Hl.
           ++ intros p [<-|Hp]; [simpl; lia|auto].
    + apply Z.ltb_ge in E. destruct (IH b c) as [Hmax Hcase].
      set (r := fold_left peak_step l (b, c)) in *.
      assert (Hc : c <= snd r).
      { destruct Hcase as [Hr|(l1 & h & l2 & _ & _ & Hlt & _)]; [rewrite Hr; simpl|]; lia. }
      split.
      * intros p [<-|Hp]; [simpl; lia|now apply Hmax].
      * destruct Hcase as [Hr|(l1 & h & l2 & Hl & Hf & Hlt & Hbefore)]; [now left|].
        right. exists ((k, n) :: l1), h, l2. repeat split; auto.
        -- simpl. now rewrite <- Hl.
        -- intros p [<-|Hp]; [simpl; lia|auto].
Qed.

Lemma count_for_entry h n hc :
  NoDup (map fst hc) -> In (h, n) hc -> count_for h hc = n.
Proof.
  unfold count_for. induction hc as [|[k m] hc IH]; intros Hnd Hin; [destruct Hin|].
  simpl in *. apply NoDup_cons in Hnd as [Hk Hnd].
  destruct Hin as [[= -> ->]|Hin].
  - now rewrite String.eqb_refl.
  - destruct (String.eqb k h) eqn:E; [|now apply IH].
    apply String.eqb_eq in E. subst k. destruct Hk.
    apply list_elem_of_In. apply in_map_iff. exists (h, n). auto.
Qed.

Lemma count_for_bounded h hc c :
  0 <= c -> (forall p, In p hc -> snd p <= c) -> count_for h hc <= c.
Proof.
  intros Hc Hall. unfold count_for.
  destruct (find _ hc) as [p|] eqn:E; [|exact Hc].
  apply find_some in E as [Hin _]. now apply Hall.
Qed.

Lemma hourLabel_not_empty getHours v : hourLabel getHours v <> "".
Proof.
  unfold hourLabel. destruct (padStart 2 "0" (string_of_num (getHours v))); discriminate.
Qed.



(** *** The days of the history *)

Lemma truthy_not_nullish d : truthy d = true -> nullish d = false.
Proof. destruct d; (discriminate || reflexivity). Qed.

Lemma day_of_data_truthy d data :
  truthy data = true -> day_of_data d data = Ok (Some (day_record_of d data)).
Proof.
  intros Ht. unfold day_of_data. rewrite Ht. cbn [negb].
  rewrite !(prop_get _ data (truthy_not_nullish data Ht)). reflexivity.
Qed.

Lemma fetchDayData_truthy cfg d status data :
  isConfigured cfg = true -> status < 500 -> truthy data = true ->
  fetchDayData cfg d (Response status data) = Some (day_record_of d data).
Proof.
  intros Hcfg Hs Ht. unfold fetchDayData. rewrite Hcfg. simpl.
  replace (500 <=? status) with false by (symmetry; apply Z.leb_gt; lia).
  now rewrite (day_of_data_truthy d data Ht).
Qed.

Lemma fetchDayData_Some_inv cfg d reply r :
  fetchDayData cfg d reply = Some r ->
  isConfigured cfg = true /\
  exists status data, reply = Response status data /\ status < 500 /\
    truthy data = true /\ r = day_record_of d data.
Proof.
  unfold fetchDayData.
  destruct (isConfigured cfg); simpl; [|discriminate].
  destruct reply as [msg|status data]; [discriminate|].
  destruct (500 <=? status) eqn:H5; [discriminate|].
  destruct (truthy data) eqn:Ht.
  - rewrite (day_of_data_truthy d data Ht). intros [= <-].
    split; [reflexivity|]. exists status, data. apply Z.leb_gt in H5. auto.
  - unfold day_of_data. rewrite Ht. discriminate.
Qed.




Lemma collect_from cfg hoje replies r : forall n s,
  In r (omap (fun i => fetchDayData cfg (hoje - i * ms_per_day) (replies i))
             (List.map Z.of_nat (seq s n))) ->
  exists i, Z.of_nat s <= i < Z.of_nat (s + n) /\ date r = hoje - i * ms_per_day /\
            fetchDayData cfg (date r) (replies i) = Some r.
Proof.
  induction n as [|n IH]; intros s Hin; [destruct Hin|].
  cbn [seq List.map omap list_omap] in Hin.
  destruct (fetchDayData cfg (hoje - Z.of_nat s * ms_per_day) (replies (Z.of_nat s))) as [r0|] eqn:E.
  - destruct Hin as [<-|Hin].
    + exists (Z.of_nat s).
      destruct (fetchDayData_Some_inv _ _ _ _ E) as (_ & st & data & _ & _ & _ & Hr).
      assert (Hd : date r0 = hoje - Z.of_nat s * ms_per_day) by (rewrite Hr; reflexivity).
      rewrite Hd. repeat split; (lia || assumption).
    + destruct (IH (S s) Hin) as (i & Hi & Hd & Hf). exists i. repeat split; (lia || assumption).
  - destruct (IH (S s) Hin) as (i & Hi & Hd & Hf). exists i. repeat split; (lia || assumption).
Qed.

Lemma collect_sorted cfg hoje replies : forall n s,
  StronglySorted later_than
    (omap (fun i => fetchDayData cfg (hoje - i * ms_per_day) (replies i))
          (List.map Z.of_nat (seq s n))).
Proof.
  induction n as [|n IH]; intros s; [constructor|].
  cbn [seq List.map omap list_omap].
  destruct (fetchDayData cfg (hoje - Z.of_nat s * ms_per_day) (replies (Z.of_nat s))) as [r0|] eqn:E;
    [|apply IH].
  constructor; [apply IH|].
  apply List.Forall_forall. intros r Hin.
  destruct (collect_from cfg hoje replies r n (S s) Hin) as (i & Hi & Hd & _).
  destruct (fetchDayData_Some_inv _ _ _ _ E) as (_ & st & data & _ & _ & _ & Hr).
  unfold later_than. rewrite Hd, Hr. cbn [date day_record_of]. unfold ms_per_day. lia.
Qed.

(** X10. A history that is returned holds between 1 and [days] days.
    Each of them is the record fetched for one of the [days] days before
    today, never today itself, and they are listed most recent first. *)
Theorem fetchHistoricalData_recent_first cfg hoje replies days h :
  fetchHistoricalData cfg hoje replies days = Some h ->
  1 <= dias h <= days /\
  dias h = Z.of_nat (length (historico h)) /\
  (forall r, In r (historico h) ->
     exists i, 1 <= i <= days /\ date r = hoje - i * ms_per_day /\
               fetchDayData cfg (date r) (replies i) = Some r) /\
  (forall r, In r (historico h) -> date r < hoje) /\
  StronglySorted later_than (historico h).
Proof.
  unfold fetchHistoricalData.
  destruct (Z.of_nat (length (collect_days cfg hoje replies days)) =? 0) eqn:E; [discriminate|].
  intros [= <-]. cbn [dias historico]. apply Z.eqb_neq in E.
  assert (Hfrom : forall r, In r (collect_days cfg hoje replies days) ->
            exists i, 1 <= i <= days /\ date r = hoje - i * ms_per_day /\
                      fetchDayData cfg (date r) (replies i) = Some r).
  { intros r Hin. destruct (collect_from cfg hoje replies r _ _ Hin) as (i & Hi & Hd & Hf).
    exists i. repeat split; (lia || assumption). }
  assert (Hlen : (length (collect_days cfg hoje replies days) <= Z.to_nat days)%nat).
  { rewrite Api55Props.collect_days_length.
    etransitivity; [apply List.filter_length_le|]. now rewrite length_map, length_seq. }
  repeat split; try lia.
  - exact Hfrom.
  - intros r Hin. destruct (Hfrom r Hin) as (i & Hi & Hd & _). rewrite Hd.
    unfold ms_per_day. lia.
  - apply collect_sorted.
Qed.

Lemma fetchHistoricalData_recent_first_witness :
  let cfg := {| apiUrl := "u"; token := "t" |} in
  let replies i :=
    if i =? 3 then Response 200 (JObj [("totalCallAttendedReceptive", JNum 10)])
    else if i =? 7 then Response 200 (JObj [("totalCallAttendedReceptive", JStr "20")])
    else NoResponse "timeout" in
  exists h, fetchHistoricalData cfg 0 replies 15 = Some h /\ 1 <= dias h <= 15 /\
            StronglySorted later_than (historico h).
Proof.
  intros cfg replies.
  destruct (fetchHistoricalData cfg 0 replies 15) as [h|] eqn:E; [|vm_compute in E; discriminate E].
  exists h. split; [reflexivity|].
  destruct (fetchHistoricalData_recent_first cfg 0 replies 15 h E) as (Hd & _ & _ & _ & Hs).
  split; assumption.
Defined.

Lemma sum_of_NaN field l :
  Exists (fun d => field d = NaN) l -> sum_of field l = NaN.
Proof.
  unfold sum_of. generalize (Num 0).
  assert (Hnan : forall l', fold_left (fun sum d => num_add sum (field d)) l' NaN = NaN).
  { induction l' as [|d l' IH]; [reflexivity|exact IH]. }
  induction l as [|d l IH]; intros acc Hex; [inversion Hex|].
  simpl. inversion Hex as [? ? Hd|? ? Hrest]; subst.
  - rewrite Hd. destruct acc; apply Hnan.
  - apply IH. exact Hrest.
Qed.

(** X13. One day of the history whose answered counter does not read as
    a number makes the mean of the answered calls and the mean of the totals
    NaN, and against a NaN mean every current value is classified at the
    highest level, with NaN as its percentage. *)
Theorem history_NaN_counter_gives_highest_level cfg hoje replies days h r :
  fetchHistoricalData cfg hoje replies days = Some h ->
  In r (historico h) ->
  atendidas r = NaN ->
  m_atendidas (medias h) = NaN /\ m_total (medias h) = NaN /\
  forall v, nivel (classificarNivel v (m_atendidas (medias h))) = "Altíssimo" /\
            percentual (classificarNivel v (m_atendidas (medias h))) = NaN.
Proof.
  unfold fetchHistoricalData.
  destruct (Z.of_nat (length (collect_days cfg hoje replies days)) =? 0) eqn:E; [discriminate|].
  intros [= <-]. cbn [historico medias m_atendidas m_total]. intros Hin Ha.
  assert (Ht : total r = NaN).
  { destruct (collect_from cfg hoje replies r _ _ Hin) as (i & _ & _ & Hf).
    destruct (fetchDayData_Some_inv _ _ _ _ Hf) as (_ & st & data & _ & _ & _ & Hr).
    rewrite Hr in Ha |- *. cbn [atendidas total day_record_of] in *. now rewrite Ha. }
  rewrite (sum_of_NaN atendidas) by (apply List.Exists_exists; eauto).
  rewrite (sum_of_NaN total) by (apply List.Exists_exists; eauto).
  repeat split; destruct v; reflexivity.
Qed.

Lemma history_NaN_counter_gives_highest_level_witness :
  let cfg := {| apiUrl := "u"; token := "t" |} in
  let replies i :=
    if i =? 2 then Response 200 (JObj [("totalCallAttendedReceptive", JStr "n/a")])
    else Response 200 (JObj [("totalCallAttendedReceptive", JNum 40)]) in
  exists h, fetchHistoricalData cfg 0 replies 15 = Some h /\
            nivel (classificarNivel (Num 3) (m_atendidas (medias h))) = "Altíssimo".
Proof.
  intros cfg replies.
  destruct (fetchHistoricalData cfg 0 replies 15) as [h|] eqn:E; [|vm_compute in E; discriminate E].
  exists h. split; [reflexivity|].
  apply (history_NaN_counter_gives_highest_level cfg 0 replies 15 h
           (day_record_of (0 - 2 * ms_per_day)
              (JObj [("totalCallAttendedReceptive", JStr "n/a")])) E).
  - vm_compute in E. injection E as <-. right. left. reflexivity.
  - reflexivity.
Defined.

(** *** Levels *)

Lemma nearest_double_pos_same p :
  nearest_double_pos (Zpos p) (Zpos p) = Qmake (2 ^ 52) (Z.to_pos (2 ^ 52)).
Proof.
  unfold nearest_double_pos. rewrite Z.sub_diag. cbv zeta.
  change (0 <=? 0) with true. cbv iota.
  change (2 ^ 0) with 1. rewrite Z.mul_1_l, Z.ltb_irrefl.
  change (0 <=? 52 - 0) with true. cbv iota.
  unfold round_half_even. change (52 - 0) with 52.
  rewrite (Z.mul_comm (Zpos p)), Z.div_mul, Z.mod_mul by discriminate.
  reflexivity.
Qed.

Lemma double_div_same m : m <> 0 -> double_div m m = Qmake (2 ^ 52) (Z.to_pos (2 ^ 52)).
Proof.
  intros Hm. unfold double_div.
  destruct m as [|p|p]; [congruence| |].
  - change (Z.pos p * Z.sgn (Z.pos p)) with (Z.pos (p * 1)).
    change (Z.to_pos (Z.abs (Z.pos p))) with p.
    rewrite Pos.mul_1_r. apply nearest_double_pos_same.
  - change (Z.neg p * Z.sgn (Z.neg p)) with (Z.pos (p * 1)).
    change (Z.to_pos (Z.abs (Z.neg p))) with p.
    rewrite Pos.mul_1_r. apply nearest_double_pos_same.
Qed.

Lemma double_div_zero m : double_div 0 m = 0%Q.
Proof. reflexivity. Qed.

(** X11. Against a mean other than 0, a current value equal to the mean
    is 100 percent and classified "Alto", not "Médio"; a current value of 0
    is 0 percent and "Abaixo do comum". *)
Theorem classificarNivel_at_mean m :
  m <> 0 ->
  classificarNivel (Num m) (Num m) =
    {| nivel := "Alto"; emoji := "🟢"; percentual := Num 100;
       descricao := Some (describe (Num 100) (Num m)) |} /\
  classificarNivel (Num 0) (Num m) =
    {| nivel := "Abaixo do comum"; emoji := "🔴"; percentual := Num 0;
       descricao := Some (describe (Num 0) (Num m)) |}.
Proof.
  intros Hm.
  assert (H100 : percent_of (Num m) (Num m) = Num 100).
  { unfold percent_of. rewrite (double_div_same m Hm). reflexivity. }
  assert (H0 : percent_of (Num 0) (Num m) = Num 0) by reflexivity.
  unfold classificarNivel. rewrite H100, H0.
  destruct m as [|p|p]; [congruence| |]; split; reflexivity.
Qed.

Lemma classificarNivel_at_mean_witness :
  nivel (classificarNivel (Num 37) (Num 37)) = "Alto" /\
  percentual (classificarNivel (Num 0) (Num 37)) = Num 0.
Proof.
  destruct (classificarNivel_at_mean 37) as [Ha Hz]; [lia|].
  rewrite Ha, Hz. split; reflexivity.
Defined.

(** *** Today against the history *)

Lemma kpis_of_aggregate_text now data :
  nullish data = false ->
  is_text (or_else (get "timeMediumWaitingAttendance" data) (JStr "00:00:00")) = true ->
  exists k, kpis_of_aggregate now data = Ok k /\
    answered k = counter_of "totalCallAttendedReceptive" data /\
    abandoned k = counter_of "totalCallAbandonedQueue" data /\
    retainedURA k = counter_of "totalCallAbandonedURA" data.
Proof.
  intros Hn Hw. unfold kpis_of_aggregate. rewrite !(prop_get _ data Hn).
  cbn [mbind result_bind].
  destruct (or_else (get "timeMediumWaitingAttendance" data) (JStr "00:00:00")) as [| | | |s| |];
    try discriminate.
  unfold parse_wait.
  destruct (split_on ":" s) as [|a [|b [|c [|e l]]]]; cbn [mbind result_bind];
    eexists; (split; [reflexivity|]); repeat split.
Qed.



(** *** The peak hour against the total *)

Lemma calls_at_le getHours h calls :
  calls_at getHours h calls <= Z.of_nat (length calls).
Proof. unfold calls_at. apply Nat2Z.inj_le, List.filter_length_le. Qed.

(** X14. In every snapshot [calculateDayKPIs] returns, a peak hour that is
    reported has a label, counts at least one call and never more calls than
    totalCalls. *)
Theorem peak_count_within_total getHours now cfg reply :
  exists k, calculateDayKPIs getHours now cfg reply = Ok k /\
    forall p, peakHour k = Some p ->
      hour p <> "" /\ exists n, totalCalls k = Num n /\ 1 <= count p <= n.
Proof.
  unfold calculateDayKPIs, try_catch.
  destruct (calculateDayKPIs_try getHours now cfg reply) as [k|m] eqn:E;
    [|eexists; split; [reflexivity|discriminate]].
  exists k. split; [reflexivity|].
  unfold calculateDayKPIs_try in E.
  destruct (fetchTodayCalls cfg reply) as [[d|]|m]; cbn [mbind result_bind] in E;
    [| injection E as <-; discriminate | discriminate].
  assert (Hagg : kpis_of_aggregate now d = Ok k -> forall p, peakHour k = Some p ->
            hour p <> "" /\ exists n, totalCalls k = Num n /\ 1 <= count p <= n).
  { intros H p Hp. apply kpis_of_aggregate_inv in H as (_ & Hnone & _). congruence. }
  destruct d as [| | | | |[|c calls]|]; try (apply Hagg; exact E).
  { injection E as <-. discriminate. }
  apply kpis_of_calls_inv in E as (t & Ht & Htot & _ & _ & _ & _ & _ & _ & Hpeak).
  apply forEachM_tally_inv in Ht as (_ & _ & Hh). simpl t_hourCounts in Hh.
  fold (hour_table getHours (c :: calls)) in Hh. rewrite Hh in Hpeak. clear Hh t.
  destruct (hour_table_inv getHours (c :: calls)) as (Hcount & _ & Hnd & _ & _).
  set (hc := hour_table getHours (c :: calls)) in *.
  destruct (find_peak_scan hc None 0) as [_ Hcase].
  fold (find_peak hc) in Hcase.
  intros p Hp. rewrite Hpeak in Hp.
  destruct Hcase as [Hr|(l1 & h & l2 & Hl & Hf & Hlt & _)]; [rewrite Hr in Hp; discriminate|].
  rewrite Hf in Hp. destruct (String.eqb h "") eqn:Eh; [discriminate|].
  injection Hp as <-. cbn [hour count]. apply String.eqb_neq in Eh. split; [exact Eh|].
  exists (Z.of_nat (length (c :: calls))). split; [exact Htot|].
  assert (Hin : In (h, snd (find_peak hc)) hc) by (rewrite Hl at 2; apply in_elt).
  rewrite <- (count_for_entry h _ hc Hnd Hin) at 2. rewrite Hcount.
  split; [lia|apply calls_at_le].
Qed.

End Api55Extra.

(** ** Further properties of the notification dispatcher *)
Module WhatsAppExtra.
Import JS WhatsApp.

(** X15. Over all inputs of [sendRelatorio]: the result is a success
    exactly when the service is configured, the post of the report is
    accepted and the comparison, if it has a classification set, also has its
    history (the outcome of the second post plays no part); something is sent
    exactly when the service is configured, and the report is sent first;
    there are never more than two posts, and every post goes to the
    configured destination. *)
Theorem sendRelatorio_outcomes cfg hora today kpis analise report followup :
  let r := fst (sendRelatorio cfg hora today kpis analise report followup) in
  let effects := snd (sendRelatorio cfg hora today kpis analise report followup) in
  let request := Post endpoint_enviarRelatorio (relatorio_body cfg hora today kpis) in
  success r = isConfigured cfg && accepted report && negb (lacks_history analise) /\
  (effects = [] <-> isConfigured cfg = false) /\
  (isConfigured cfg = true -> hd_error effects = Some request) /\
  (length (List.filter is_post effects) <= 2)%nat /\
  Forall (fun e => is_post e = true -> target e = Some (destination cfg)) effects /\
  (success r = true -> exists d, report = Accepted d /\ r_data r = Some d) /\
  (success r = false -> exists m, r_error r = Some m).
Proof.
  unfold sendRelatorio, sendAnaliseHistorica, sendMessage, lacks_history.
  destruct (isConfigured cfg) eqn:Hcfg; cbn [negb andb fst snd];
    [destruct report as [d|m]; cbn [accepted andb fst snd];
     [destruct analise as [a|];
      [destruct (Api55.analise a) as [niveis|];
       [destruct (Api55.a_historico a) as [h|]; [destruct followup|]|]|]|]|];
    cbn [negb fst snd success sent failed r_data r_error];
    (split; [reflexivity|]);
    (split; [split; (discriminate || reflexivity)|]);
    (split; [intros; (discriminate || reflexivity)|]);
    (split; [simpl; lia|]);
    (split; [repeat (apply List.Forall_cons; [intros; (discriminate || reflexivity)|]);
             apply List.Forall_nil|]);
    (split; intros; (discriminate || eauto)).
Qed.

(** X16. A comparison produced by [analisarDiaAtual] is never the one
    that makes a delivered report count as failed: sent with it, the report
    succeeds exactly when the service is configured and the post of the
    report is accepted, whatever the snapshot and whatever the second post
    meets. *)
Theorem sendRelatorio_after_analysis getHours now cfg55 today replies a
    cfg hora date kpis report followup :
  Api55.analisarDiaAtual getHours now cfg55 today replies = Ok a ->
  lacks_history (Some a) = false /\
  success (fst (sendRelatorio cfg hora date kpis (Some a) report followup))
  = isConfigured cfg && accepted report.
Proof.
  intros Ha.
  destruct (Api55Props.analisarDiaAtual_shape getHours now cfg55 today replies)
    as (a' & Ha' & Hshape).
  rewrite Ha in Ha'. injection Ha' as <-.
  assert (Hl : lacks_history (Some a) = false).
  { unfold lacks_history.
    destruct Hshape as [[Hn Hh]|(niveis & h & Hn & Hh)]; rewrite Hn, ?Hh; reflexivity. }
  split; [exact Hl|].
  unfold sendRelatorio, sendAnaliseHistorica, sendMessage.
  destruct (isConfigured cfg); [|reflexivity].
  destruct report as [d|m]; [|reflexivity].
  destruct Hshape as [[Hn Hh]|(niveis & h & Hn & Hh)]; rewrite Hn, ?Hh; [reflexivity|].
  destruct followup; reflexivity.
Qed.

Lemma sendRelatorio_after_analysis_witness :
  let cfg55 := {| Api55.apiUrl := "https://pbx"; Api55.token := "k" |} in
  let cfg := {| apiUrl := "https://api"; destination := "5511999990000" |} in
  let day n := Api55.Response 200 (JObj [("totalCallAttendedReceptive", JNum n)]) in
  exists a, Api55.analisarDiaAtual (fun _ => NaN) 0 cfg55 (day 12) (fun _ => day 10) = Ok a /\
    success (fst (sendRelatorio cfg 9 "01/02/2025" (Api55.hoje a) (Some a)
                    (Accepted JNull) (Rejected "timeout"))) = true.
Proof.
  intros cfg55 cfg day.
  destruct (Api55.analisarDiaAtual (fun _ => NaN) 0 cfg55 (day 12) (fun _ => day 10))
    as [a|m] eqn:E; [|vm_compute in E; discriminate E].
  exists a. split; [reflexivity|].
  apply (sendRelatorio_after_analysis (fun _ => NaN) 0 cfg55 (day 12) (fun _ => day 10) a
           cfg 9 "01/02/2025" (Api55.hoje a) (Accepted JNull) (Rejected "timeout") E).
Defined.

Lemma sendRelatorio_success cfg hora today kpis analise report followup :
  success (fst (sendRelatorio cfg hora today kpis analise report followup))
  = isConfigured cfg && accepted report && negb (lacks_history analise).
Proof.
  unfold sendRelatorio, sendAnaliseHistorica, sendMessage, lacks_history.
  destruct (isConfigured cfg); [|reflexivity].
  destruct report as [d|m]; [|reflexivity].
  destruct analise as [a|]; [|reflexivity].
  destruct (Api55.analise a) as [niveis|]; [|reflexivity].
  destruct (Api55.a_historico a) as [h|]; [|reflexivity].
  destruct followup; reflexivity.
Qed.

Lemma sendRelatorio_failure_message cfg hora today kpis analise report followup :
  success (fst (sendRelatorio cfg hora today kpis analise report followup)) = false ->
  exists m, r_error (fst (sendRelatorio cfg hora today kpis analise report followup)) = Some m.
Proof.
  unfold sendRelatorio, sendAnaliseHistorica, sendMessage.
  destruct (isConfigured cfg); [|simpl; eauto].
  destruct report as [d|m]; [|simpl; eauto].
  destruct analise as [a|]; [|discriminate].
  destruct (Api55.analise a) as [niveis|]; [|discriminate].
  destruct (Api55.a_historico a) as [h|]; [|simpl; eauto].
  destruct followup; discriminate.
Qed.

End WhatsAppExtra.

(** ** Further properties of the scheduler *)
Module SchedulerExtra.
Import JS Scheduler.

(** *** What a run hands to the broadcaster *)


(** X18. With the services of this repository a run never takes the
    failure path of an exception: the record always carries the snapshot the
    first step computed, and it is a success exactly when the dispatcher is
    configured and the post of the report is accepted; a failed record
    carries a message. *)
Theorem production_run_record getHours now cfg55 today1 today2 replies cfg hora date
    report followup startTime finish st :
  let svc := production_services getHours now cfg55 today1 today2 replies cfg hora date
               report followup in
  exists e k,
    fst (@executeReport svc startTime finish st) = Ok e /\
    Api55.calculateDayKPIs getHours now cfg55 today1 = Ok k /\
    e_kpis e = Some k /\
    e_success e = WhatsApp.isConfigured cfg && WhatsApp.accepted report /\
    (e_success e = false -> exists m, e_error e = Some m) /\
    duration e = finish - startTime /\
    hd_error (getHistory (snd (@executeReport svc startTime finish st))) = Some e.
Proof.
  intros svc.
  destruct (Api55Props.calculateDayKPIs_returns getHours now cfg55 today1) as (k & Hk).
  destruct (Api55Props.analisarDiaAtual_shape getHours now cfg55 today2 replies)
    as (a & Ha & Hshape).
  assert (Hl : WhatsApp.lacks_history (Some a) = false).
  { unfold WhatsApp.lacks_history.
    destruct Hshape as [[Hn Hh]|(niveis & h & Hn & Hh)]; rewrite Hn, ?Hh; reflexivity. }
  pose proof (WhatsAppExtra.sendRelatorio_success cfg hora date k (Some a) report followup)
    as Hs.
  rewrite Hl, andb_true_r in Hs.
  pose proof (WhatsAppExtra.sendRelatorio_failure_message cfg hora date k (Some a)
                report followup) as Hm.
  set (r := fst (WhatsApp.sendRelatorio cfg hora date k (Some a) report followup)) in *.
  assert (Hrun : @executeReport_try svc startTime finish st =
            @executeReport_try {| svc_calculateDayKPIs := Ok k;
                                  svc_analisarDiaAtual := Ok a;
                                  svc_sendRelatorio := fun _ _ => Ok r |} startTime finish st).
  { unfold executeReport_try, svc, production_services. cbn [svc_calculateDayKPIs
      svc_analisarDiaAtual svc_sendRelatorio]. rewrite Hk, Ha. reflexivity. }
  unfold executeReport. rewrite Hrun. unfold executeReport_try.
  cbn [svc_calculateDayKPIs svc_analisarDiaAtual svc_sendRelatorio].
  eexists. exists k. split; [reflexivity|]. split; [exact Hk|].
  cbn [e_kpis e_success e_error duration snd]. repeat split; try assumption.
  unfold getHistory.
  destruct (WhatsApp.success r); cbn [executionHistory broadcast broadcastLog record_execution];
    apply SchedulerProps.addToHistory_front.
Qed.

(** *** The next run *)

(** X19. [getNextRun] raises exactly when no time is configured; an
    entry that is not a time of day is skipped by the loop or gives an
    invalid date, never an exception. *)
Theorem getNextRun_raises_iff now st :
  Api55.throws (fst (getNextRun now st)) = true <-> scheduledTimes st = [].
Proof.
  assert (Hsort : forall l, sort l = [] <-> l = []).
  { intros l. split; [|now intros ->]. destruct l as [|x l]; [reflexivity|].
    intros H. assert (Hx : In x (sort (x :: l))) by (apply SchedulerProps.sort_In; now left).
    rewrite H in Hx. destruct Hx. }
  unfold getNextRun.
  destruct (first_after (start_of_day now) now (sort (scheduledTimes st))) as [d|] eqn:E.
  - cbn [fst Api55.throws]. split; [discriminate|]. intros H. rewrite H in E. discriminate.
  - destruct (sort (scheduledTimes st)) as [|first rest] eqn:Es.
    + cbn [fst Api55.throws]. split; [intros _; now apply Hsort|reflexivity].
    + destruct (hour_minute first) as [hour minute]. cbn [fst Api55.throws].
      split; [discriminate|]. intros H. apply Hsort in H. congruence.
Qed.

Lemma start_of_day_bounds now :
  start_of_day now <= now < start_of_day now + ms_per_day.
Proof.
  unfold start_of_day, ms_per_day.
  pose proof (Z.mod_pos_bound now 86400000 ltac:(lia)). lia.
Qed.

Lemma time_of_day_bounds s :
  valid_time s = true -> 0 <= time_of_day s < ms_per_day.
Proof.
  intros Hv. destruct (SchedulerProps.valid_time_shape s Hv) as (h & m & Hh & Hm & _ & -> & _).
  unfold ms_per_hour, ms_per_minute, ms_per_day. lia.
Qed.

(** The two ways [getNextRun] answers on a schedule of valid times. *)
Lemma getNextRun_cases now st :
  scheduledTimes st <> [] ->
  Forall (fun s => valid_time s = true) (scheduledTimes st) ->
  (exists s, In s (scheduledTimes st) /\
     fst (getNextRun now st) = Ok (Some (start_of_day now + time_of_day s)) /\
     now < start_of_day now + time_of_day s /\
     forall s', In s' (scheduledTimes st) -> now < start_of_day now + time_of_day s' ->
                time_of_day s <= time_of_day s')
  \/
  (exists s, In s (scheduledTimes st) /\
     fst (getNextRun now st) = Ok (Some (start_of_day now + ms_per_day + time_of_day s)) /\
     (forall s', In s' (scheduledTimes st) -> start_of_day now + time_of_day s' <= now) /\
     forall s', In s' (scheduledTimes st) -> time_of_day s <= time_of_day s').
Proof.
  intros Hne Hall. rewrite List.Forall_forall in Hall.
  assert (Hvs : forall x, In x (sort (scheduledTimes st)) -> valid_time x = true).
  { intros x Hx. apply Hall. now rewrite SchedulerProps.sort_In in Hx. }
  pose proof (SchedulerProps.sort_ascending _ Hall) as Hasc.
  pose proof (SchedulerProps.first_after_ascending (start_of_day now) now _ Hvs Hasc) as Hfirst.
  unfold getNextRun.
  destruct (first_after (start_of_day now) now (sort (scheduledTimes st))) as [d|].
  - left. destruct Hfirst as (s & Hs & -> & Hnow & Hmin).
    exists s. rewrite SchedulerProps.sort_In in Hs. repeat split; auto.
    intros s' Hs' Hlt. rewrite <- SchedulerProps.sort_In in Hs'. auto.
  - right. destruct (sort (scheduledTimes st)) as [|first rest] eqn:Es.
    + exfalso. destruct (scheduledTimes st) as [|x l]; [congruence|].
      assert (Hx : In x (sort (x :: l))) by (rewrite SchedulerProps.sort_In; now left).
      rewrite Es in Hx. destruct Hx.
    + pose proof (SchedulerProps.setHours_valid (start_of_day now + ms_per_day) first
                    (Hvs first (or_introl eq_refl))) as Hset.
      destruct (hour_minute first) as [hour minute]. cbn [fst]. rewrite Hset.
      exists first. split; [rewrite <- SchedulerProps.sort_In, Es; now left|].
      split; [reflexivity|]. split.
      * intros s Hs. apply Hfirst.
        now rewrite <- (SchedulerProps.sort_In s (scheduledTimes st)), Es in Hs.
      * intros s' Hs'. rewrite <- SchedulerProps.sort_In, Es in Hs'.
        destruct Hasc as [Hmin _]. destruct Hs' as [<-|Hs']; [lia|auto].
Qed.

(** X20. On a schedule of valid times the next run is strictly after the
    present instant and at most 24 hours away. *)
Theorem getNextRun_within_a_day now st :
  scheduledTimes st <> [] ->
  Forall (fun s => valid_time s = true) (scheduledTimes st) ->
  exists r, fst (getNextRun now st) = Ok (Some r) /\ now < r <= now + ms_per_day.
Proof.
  intros Hne Hall. pose proof (start_of_day_bounds now) as Hd.
  destruct (getNextRun_cases now st Hne Hall)
    as [(s & Hs & Hr & Hnow & _)|(s & Hs & Hr & Hpast & _)];
    rewrite List.Forall_forall in Hall;
    pose proof (time_of_day_bounds s (Hall s Hs)) as Hb;
    eexists; (split; [exact Hr|]).
  - lia.
  - specialize (Hpast s Hs). lia.
Qed.

Lemma getNextRun_within_a_day_witness :
  exists r, fst (getNextRun (20000 * ms_per_day + 19 * ms_per_hour)
                   (scheduled ["18:00"; "09:00"])) = Ok (Some r) /\
            20000 * ms_per_day + 19 * ms_per_hour < r
            <= 20000 * ms_per_day + 19 * ms_per_hour + ms_per_day.
Proof.
  apply (getNextRun_within_a_day _ (scheduled ["18:00"; "09:00"])).
  - discriminate.
  - repeat constructor.
Defined.

(** X21. The next run depends on which times are configured, not on
    their order or on repetitions: two schedules of valid times with the same
    members give the same answer at every instant. *)
Theorem getNextRun_order_irrelevant now st1 st2 :
  scheduledTimes st1 <> [] ->
  Forall (fun s => valid_time s = true) (scheduledTimes st1) ->
  (forall s, In s (scheduledTimes st1) <-> In s (scheduledTimes st2)) ->
  fst (getNextRun now st1) = fst (getNextRun now st2).
Proof.
  intros Hne Hall Hsame.
  assert (Hne2 : scheduledTimes st2 <> []).
  { destruct (scheduledTimes st1) as [|x l] eqn:E1; [congruence|].
    intros E2. rewrite E2 in Hsame. apply (Hsame x). now left. }
  assert (Hall2 : Forall (fun s => valid_time s = true) (scheduledTimes st2)).
  { rewrite List.Forall_forall in *. intros x Hx. apply Hall. now apply Hsame. }
  destruct (getNextRun_cases now st1 Hne Hall)
    as [(s1 & Hs1 & -> & Hn1 & Hm1)|(s1 & Hs1 & -> & Hp1 & Hm1)];
    destruct (getNextRun_cases now st2 Hne2 Hall2)
      as [(s2 & Hs2 & -> & Hn2 & Hm2)|(s2 & Hs2 & -> & Hp2 & Hm2)].
  - apply Hsame in Hs1 as Hs1'. apply Hsame in Hs2 as Hs2'.
    specialize (Hm1 s2 Hs2' Hn2). specialize (Hm2 s1 Hs1' Hn1).
    do 2 f_equal. lia.
  - apply Hsame in Hs1. specialize (Hp2 s1 Hs1). lia.
  - apply Hsame in Hs2. specialize (Hp1 s2 Hs2). lia.
  - apply Hsame in Hs1 as Hs1'. apply Hsame in Hs2 as Hs2'.
    specialize (Hm1 s2 Hs2'). specialize (Hm2 s1 Hs1').
    do 2 f_equal. lia.
Qed.

Lemma getNextRun_order_irrelevant_witness :
  fst (getNextRun (20000 * ms_per_day + 10 * ms_per_hour) (scheduled ["09:00"; "18:00"]))
  = fst (getNextRun (20000 * ms_per_day + 10 * ms_per_hour)
           (scheduled ["18:00"; "09:00"; "18:00"])).
Proof.
  apply getNextRun_order_irrelevant.
  - discriminate.
  - repeat constructor.
  - intros s. simpl. intuition.
Defined.

End SchedulerExtra.

(** ** Further properties of the day cache *)
Module DbReportsExtra.
Import JS DbReports.

Lemma append_cancel_l a : forall x y, a +:+ x = a +:+ y -> x = y.
Proof.
  induction a as [|c a IH]; intros x y H; [exact H|].
  injection H as H. now apply IH.
Qed.

Lemma list_of_append a b :
  String.list_ascii_of_string (a +:+ b)
  = (String.list_ascii_of_string a ++ String.list_ascii_of_string b)%list.
Proof. induction a as [|c a IH]; simpl; [reflexivity|]. now rewrite IH. Qed.

Lemma append_cancel_r x y s : x +:+ s = y +:+ s -> x = y.
Proof.
  intros H. apply (f_equal String.list_ascii_of_string) in H.
  rewrite !list_of_append in H. apply app_inv_tail in H.
  rewrite <- (String.string_of_list_ascii_of_string x), H.
  apply String.string_of_list_ascii_of_string.
Qed.

Lemma assoc_set_field k v fields : assoc k (set_field k v fields) = v.
Proof.
  induction fields as [|[k' v'] fields IH]; simpl.
  - now rewrite String.eqb_refl.
  - destruct (String.eqb k k') eqn:E; simpl; [now rewrite String.eqb_refl|].
    now rewrite E.
Qed.

Section CacheExtra.

Variable format_day : Z -> string.
Variable toISOString : Z -> string.

Local Abbreviation callsPath := (getCallsFilePath format_day).
Local Abbreviation metadataPath := (getMetadataFilePath format_day).
Local Abbreviation addCall := (DbReports.addCall format_day toISOString).
Local Abbreviation hasCache := (DbReports.hasCache format_day).
Local Abbreviation getTodayCalls := (DbReports.getTodayCalls format_day).
Local Abbreviation countTodayCalls := (DbReports.countTodayCalls format_day).
Local Abbreviation getCacheTTL := (DbReports.getCacheTTL format_day).
Local Abbreviation clearCache := (DbReports.clearCache format_day).

Lemma calls_path_inj d d' : callsPath d = callsPath d' -> format_day d = format_day d'.
Proof.
  unfold getCallsFilePath. intros H.
  apply append_cancel_l, append_cancel_l, append_cancel_r in H. exact H.
Qed.

Lemma metadata_path_inj d d' :
  metadataPath d = metadataPath d' -> format_day d = format_day d'.
Proof.
  unfold getMetadataFilePath. intros H.
  apply append_cancel_l, append_cancel_l, append_cancel_r in H. exact H.
Qed.

Lemma calls_not_metadata d d' : callsPath d <> metadataPath d'.
Proof.
  unfold getCallsFilePath, getMetadataFilePath, DB_PATH. cbn. intros H. discriminate H.
Qed.

(** What [addCall] does to the directory, in one equation. *)
Lemma addCall_unfold now callData dir :
  addCall now callData dir =
  if not_a_list (dir !! callsPath now) then (false, dir)
  else (true,
        <[metadataPath now :=
            MetadataFile {| createdAt := now; expiresAt := now + DEFAULT_TTL * 1000;
                            ttl := DEFAULT_TTL |}]>
          (<[callsPath now :=
               CallsFile (match dir !! callsPath now with
                          | Some (CallsFile calls) => calls
                          | _ => []
                          end ++ [stored_entry toISOString now callData])]> dir)).
Proof.
  unfold DbReports.addCall, updateMetadata, stored_entry.
  destruct (dir !! callsPath now) as [[calls|m| |]|]; reflexivity.
Qed.

(** X22. A call that [addCall] accepts is read back: for call data that
    JSON can carry, [getTodayCalls] on that day gives what it gave before
    followed by the new entry, the count goes up by one, and the entry
    carries the time of the write as its timestamp, whatever timestamp the
    call data had. *)
Theorem addCall_then_read now callData dir dir' date :
  json_value callData = true ->
  addCall now callData dir = (true, dir') ->
  format_day date = format_day now ->
  getTodayCalls date dir' = getTodayCalls date dir ++ [stored_entry toISOString now callData] /\
  countTodayCalls date dir' = countTodayCalls date dir + 1 /\
  Api55.get "timestamp" (stored_entry toISOString now callData) = JStr (toISOString now).
Proof.
  intros _ Hadd Hday. rewrite addCall_unfold in Hadd.
  destruct (not_a_list (dir !! callsPath now)) eqn:Hn; [discriminate|].
  injection Hadd as <-.
  assert (Hpath : callsPath date = callsPath now).
  { unfold getCallsFilePath. now rewrite Hday. }
  assert (Hread : getTodayCalls date
            (<[metadataPath now :=
                 MetadataFile {| createdAt := now; expiresAt := now + DEFAULT_TTL * 1000;
                                 ttl := DEFAULT_TTL |}]>
               (<[callsPath now :=
                    CallsFile (match dir !! callsPath now with
                               | Some (CallsFile calls) => calls
                               | _ => []
                               end ++ [stored_entry toISOString now callData])]> dir))
          = getTodayCalls date dir ++ [stored_entry toISOString now callData]).
  { unfold DbReports.getTodayCalls. rewrite Hpath.
    rewrite lookup_insert_ne by (apply not_eq_sym, calls_not_metadata).
    rewrite lookup_insert_eq, List.filter_app.
    destruct (dir !! callsPath now) as [[calls|m| |]|]; reflexivity. }
  split; [exact Hread|]. split.
  - unfold DbReports.countTodayCalls. fold getTodayCalls. rewrite Hread, length_app. simpl length. lia.
  - unfold stored_entry. cbn [Api55.get]. apply assoc_set_field.
Qed.


(** The files of another day are out of reach of a write. *)
Lemma addCall_other_paths now callData dir date :
  format_day date <> format_day now ->
  snd (addCall now callData dir) !! callsPath date = dir !! callsPath date /\
  snd (addCall now callData dir) !! metadataPath date = dir !! metadataPath date.
Proof.
  intros Hday. rewrite addCall_unfold.
  destruct (not_a_list (dir !! callsPath now)); cbn [snd]; [split; reflexivity|].
  split.
  - rewrite lookup_insert_ne by (apply not_eq_sym, calls_not_metadata).
    apply lookup_insert_ne. intros H. apply calls_path_inj in H. congruence.
  - rewrite lookup_insert_ne by (intros H; apply metadata_path_inj in H; congruence).
    apply lookup_insert_ne, calls_not_metadata.
Qed.

(** X24. A write on one day leaves every other day as it was: the calls
    read back, their count, the time to live and the answer of [hasCache]
    on a day with another date are the same before and after. *)
Theorem addCall_other_days_untouched now callData dir date t :
  format_day date <> format_day now ->
  let dir' := snd (addCall now callData dir) in
  getTodayCalls date dir' = getTodayCalls date dir /\
  countTodayCalls date dir' = countTodayCalls date dir /\
  getCacheTTL date t dir' = getCacheTTL date t dir /\
  fst (hasCache date t dir') = fst (hasCache date t dir).
Proof.
  intros Hday dir'.
  destruct (addCall_other_paths now callData dir date Hday) as [Hc Hm]. fold dir' in Hc, Hm.
  unfold DbReports.countTodayCalls, DbReports.getTodayCalls, DbReports.getCacheTTL,
    DbReports.hasCache.
  rewrite Hc, Hm. repeat split.
  destruct (dir !! callsPath date); [|reflexivity].
  destruct (dir !! metadataPath date) as [[calls|m| |]|]; try reflexivity.
  destruct (expiresAt m <? t); reflexivity.
Qed.

(** X25. The time to live is never 0: it is -1 or at least one full
    second.  When it is positive the metadata of the day expires between
    that many and one more seconds from now, and [hasCache] on a day whose
    calls file exists answers true and removes nothing. *)
Theorem getCacheTTL_positive date now dir s :
  getCacheTTL date now dir = s ->
  s = -1 \/
  (1 <= s /\
   (exists m, dir !! metadataPath date = Some (MetadataFile m) /\
      now + 1000 * s <= expiresAt m < now + 1000 * (s + 1)) /\
   (is_Some (dir !! callsPath date) -> hasCache date now dir = (true, dir))).
Proof.
  unfold DbReports.getCacheTTL, DbReports.hasCache.
  destruct (dir !! metadataPath date) as [[calls|m| |]|]; try (intros <-; now left).
  destruct (0 <? (expiresAt m - now) / 1000) eqn:E; [|intros <-; now left].
  apply Z.ltb_lt in E. intros <-. right.
  pose proof (Z.div_mod (expiresAt m - now) 1000 ltac:(lia)) as Hd.
  pose proof (Z.mod_pos_bound (expiresAt m - now) 1000 ltac:(lia)) as Hb.
  split; [lia|]. split.
  - exists m. split; [reflexivity|]. lia.
  - intros [f ->]. replace (expiresAt m <? now) with false; [reflexivity|].
    symmetry. apply Z.ltb_ge. lia.
Qed.



End CacheExtra.

Lemma addCall_then_read_witness :
  let fmt t := string_of_Z (t / 86400000) in
  let dir : directory := {[ getCallsFilePath fmt 1000 := CallsFile [JNum 3; JObj []] ]} in
  let call := JObj [("call_id", JNum 7); ("timestamp", JStr "yesterday")] in
  getTodayCalls fmt 2000 (snd (addCall fmt string_of_Z 1000 call dir))
  = [JObj []; JObj [("call_id", JNum 7); ("timestamp", JStr "1000")]].
Proof.
  intros fmt dir call.
  destruct (addCall_then_read fmt string_of_Z 1000 call dir
              (snd (addCall fmt string_of_Z 1000 call dir)) 2000) as (Hr & _).
  - reflexivity.
  - reflexivity.
  - reflexivity.
  - rewrite Hr. reflexivity.
Defined.

Lemma addCall_other_days_untouched_witness :
  let fmt t := string_of_Z (t / 86400000) in
  let dir : directory := {[ getCallsFilePath fmt 1000 := CallsFile [JObj []] ]} in
  getTodayCalls fmt 1000 (snd (addCall fmt string_of_Z 86400000 JNull dir)) = [JObj []].
Proof.
  intros fmt dir.
  destruct (addCall_other_days_untouched fmt string_of_Z 86400000 JNull dir 1000 0)
    as (Hr & _).
  - cbn. intros H. discriminate H.
  - rewrite Hr. reflexivity.
Defined.

Lemma getCacheTTL_positive_witness :
  let fmt t := string_of_Z (t / 86400000) in
  let dir := snd (addCall fmt string_of_Z 1000 JNull ∅) in
  hasCache fmt 1000 5000 dir = (true, dir).
Proof.
  intros fmt dir.
  destruct (getCacheTTL_positive fmt 1000 5000 dir 89996) as [H|(_ & _ & H)].
  - reflexivity.
  - discriminate H.
  - apply H. eexists. reflexivity.
Defined.


End DbReportsExtra.

(** ** Properties of the connections of the panel *)
Module WebSocketExtra.
Import JS WebSocket.

Lemma member_In ws set : member ws set = true <-> In ws set.
Proof.
  unfold member. rewrite existsb_exists. split.
  - intros (x & Hx & E). apply Nat.eqb_eq in E. now subst.
  - intros H. exists ws. split; [exact H|apply Nat.eqb_refl].
Qed.

Lemma NoDup_snoc (x : nat) : forall l,
  ~ In x l -> List.NoDup l -> List.NoDup (l ++ [x]).
Proof.
  induction l as [|y l IH]; intros Hx Hnd; simpl.
  - constructor; [intros []|constructor].
  - inversion Hnd as [|? ? Hy Hnd']; subst. constructor.
    + intros Hin. apply in_app_or in Hin as [Hin|[->|[]]]; [contradiction|].
      apply Hx. now left.
    + apply IH; [|exact Hnd']. intros Hin. apply Hx. now right.
Qed.

Lemma set_add_NoDup ws set : List.NoDup set -> List.NoDup (set_add ws set).
Proof.
  intros Hnd. unfold set_add. destruct (member ws set) eqn:E; [exact Hnd|].
  apply NoDup_snoc; [|exact Hnd].
  intros Hin. apply member_In in Hin. congruence.
Qed.

Lemma set_delete_NoDup ws set : List.NoDup set -> List.NoDup (set_delete ws set).
Proof. apply List.NoDup_filter. Qed.

(** The loop of [broadcast] over a list of clients. *)
Lemma broadcast_loop data ws : forall set socks,
  List.NoDup set ->
  let socks' := fold_left (fun socks client =>
                             if is_open (socks client) then send client data socks else socks)
                          set socks in
  readyState (socks' ws) = readyState (socks ws) /\
  sent (socks' ws) = sent (socks ws) ++
                     (if member ws set && is_open (socks ws) then [data] else []).
Proof.
  induction set as [|c set IH]; intros socks Hnd.
  - simpl. now rewrite app_nil_r.
  - inversion Hnd as [|? ? Hc Hnd']; subst. cbn [fold_left].
    set (socks1 := if is_open (socks c) then send c data socks else socks).
    destruct (IH socks1 Hnd') as [Hr Hs]. cbv zeta. rewrite Hr, Hs. clear IH Hr Hs.
    assert (Hopen : is_open (socks1 ws) = is_open (socks ws)).
    { subst socks1. unfold is_open, send. destruct (readyState (socks c)); try reflexivity.
      destruct (Nat.eqb ws c); reflexivity. }
    rewrite Hopen. unfold member. cbn [existsb]. fold (member ws set).
    destruct (Nat.eqb ws c) eqn:E.
    + apply Nat.eqb_eq in E. subst c.
      assert (Hm : member ws set = false).
      { destruct (member ws set) eqn:Em; [|reflexivity]. apply member_In in Em. contradiction. }
      rewrite Hm. cbn [orb andb]. rewrite app_nil_r. clear Hopen. subst socks1.
      destruct (is_open (socks ws)) eqn:Eo.
      * unfold send. rewrite Nat.eqb_refl. cbn [readyState sent]. split; reflexivity.
      * rewrite app_nil_r. split; reflexivity.
    + cbn [orb]. subst socks1. destruct (is_open (socks c)); [|split; reflexivity].
      unfold send. rewrite E. split; reflexivity.
Qed.

Lemma run_snoc evs ev sv : run (evs ++ [ev]) sv = step (run evs sv) ev.
Proof. unfold run. now rewrite fold_left_app. Qed.

Lemma broadcast_clients data sv : clients (broadcast data sv) = clients sv.
Proof. reflexivity. Qed.

(** A message from a client leaves the server as it is or asks for one
    broadcast. *)
Lemma on_message_cases ws parsed sv :
  on_message ws parsed sv = sv \/
  on_message ws parsed sv = broadcast (log_message "Reconexão WhatsApp solicitada..." "info") sv.
Proof.
  unfold on_message. destruct parsed as [message|]; [|now left].
  unfold handleMessage. destruct (prop "type" message) as [t|m]; cbn [mbind result_bind];
    [|now left].
  destruct t as [| | | |t| |]; try (now left).
  destruct (String.eqb t "get_status"); [now left|].
  destruct (String.eqb t "reconnect_whatsapp"); [now right|now left].
Qed.

Lemma step_NoDup sv ev : List.NoDup (clients sv) -> List.NoDup (clients (step sv ev)).
Proof.
  intros Hnd. destruct ev as [ws|ws parsed|ws|ws|ws s|data]; cbn [step].
  - unfold on_connection, sendToClient. cbn [sockets clients].
    destruct (is_open _); cbn [clients]; now apply set_add_NoDup.
  - destruct (on_message_cases ws parsed sv) as [-> | ->]; exact Hnd.
  - now apply set_delete_NoDup.
  - now apply set_delete_NoDup.
  - exact Hnd.
  - exact Hnd.
Qed.

(** The clients are a set: no connection is listed twice, whatever
    happened. *)
Lemma run_NoDup evs : List.NoDup (clients (run evs initial)).
Proof.
  induction evs as [|ev evs IH] using rev_ind; [constructor|].
  rewrite run_snoc. now apply step_NoDup.
Qed.

(** X28. In every state the server can reach, a broadcast appends the
    frame once to each connection that is a client and OPEN, and to no other
    connection; it changes no connection state and leaves the set of clients
    as it was. *)
Theorem broadcast_delivers evs data ws :
  let sv := run evs initial in
  clients (broadcast data sv) = clients sv /\
  readyState (sockets (broadcast data sv) ws) = readyState (sockets sv ws) /\
  sent (sockets (broadcast data sv) ws)
  = sent (sockets sv ws) ++
    (if member ws (clients sv) && is_open (sockets sv ws) then [data] else []).
Proof.
  intros sv. split; [reflexivity|].
  apply (broadcast_loop data ws (clients sv) (sockets sv)), run_NoDup.
Qed.

(** *** After a connection is gone *)

Lemma broadcast_loop_outside data ws : forall set socks,
  ~ In ws set ->
  fold_left (fun socks client =>
               if is_open (socks client) then send client data socks else socks)
            set socks ws = socks ws.
Proof.
  induction set as [|c set IH]; intros socks Hout; [reflexivity|].
  cbn [fold_left]. rewrite IH by (intros H; apply Hout; now right).
  destruct (is_open (socks c)); [|reflexivity].
  unfold send. destruct (Nat.eqb ws c) eqn:E; [|reflexivity].
  apply Nat.eqb_eq in E. subst c. exfalso. apply Hout. now left.
Qed.

Lemma set_delete_In x ws set : In x (set_delete ws set) <-> In x set /\ x <> ws.
Proof.
  unfold set_delete. rewrite filter_In, negb_true_iff, Nat.eqb_neq. reflexivity.
Qed.

Lemma set_add_In x ws set : In x (set_add ws set) <-> In x set \/ x = ws.
Proof.
  unfold set_add. destruct (member ws set) eqn:E.
  - apply member_In in E. split; [now left|]. intros [H| ->]; assumption.
  - rewrite in_app_iff. simpl. intuition.
Qed.

(** A connection that is not a client stays out and is sent nothing, by
    every event other than its own connection. *)
Lemma step_outside ws sv ev :
  concerns ws ev = false ->
  ~ In ws (clients sv) ->
  ~ In ws (clients (step sv ev)) /\ sent (sockets (step sv ev) ws) = sent (sockets sv ws).
Proof.
  intros Hev Hout.
  assert (Hb : forall data, ~ In ws (clients (broadcast data sv)) /\
                 sent (sockets (broadcast data sv) ws) = sent (sockets sv ws)).
  { intros data. split; [exact Hout|]. unfold broadcast. cbn [sockets].
    now rewrite broadcast_loop_outside. }
  destruct ev as [ws'|ws' parsed|ws'|ws'|ws' s|data]; cbn [step].
  - cbn [concerns] in Hev. apply Nat.eqb_neq in Hev.
    unfold on_connection, sendToClient. cbn [sockets clients].
    assert (Hadd : ~ In ws (set_add ws' (clients sv))).
    { rewrite set_add_In. intros [H|H]; [contradiction|congruence]. }
    destruct (is_open (sockets sv ws')); cbn [sockets clients]; (split; [exact Hadd|]);
      [|reflexivity].
    unfold send. replace (Nat.eqb ws ws') with false; [reflexivity|].
    symmetry. apply Nat.eqb_neq. congruence.
  - destruct (on_message_cases ws' parsed sv) as [-> | ->]; [now split|apply Hb].
  - unfold on_close. cbn [sockets clients]. split; [|reflexivity].
    rewrite set_delete_In. tauto.
  - unfold on_error. cbn [sockets clients]. split; [|reflexivity].
    rewrite set_delete_In. tauto.
  - unfold move. cbn [sockets clients]. split; [exact Hout|].
    destruct (Nat.eqb ws ws'); reflexivity.
  - apply Hb.
Qed.

Lemma run_outside ws evs : forall sv,
  forallb (fun ev => negb (concerns ws ev)) evs = true ->
  ~ In ws (clients sv) ->
  ~ In ws (clients (run evs sv)) /\ sent (sockets (run evs sv) ws) = sent (sockets sv ws).
Proof.
  induction evs as [|ev evs IH]; intros sv Hevs Hout; [now split|].
  cbn [forallb] in Hevs. apply andb_prop in Hevs as [Hev Hevs].
  apply negb_true_iff in Hev.
  destruct (step_outside ws sv ev Hev Hout) as [Hout' Hsent].
  unfold run. cbn [fold_left]. fold (run evs (step sv ev)).
  destruct (IH (step sv ev) Hevs Hout') as [Hout'' Hsent'].
  split; [exact Hout''|]. now rewrite Hsent'.
Qed.

(** X29. Once the close or the error of a connection has been handled,
    nothing is sent on it any more and it is not counted as a client,
    whatever its state and whatever happens afterwards to the other
    connections: later broadcasts, messages, connections and closes leave
    its frames as they were. *)
Theorem closed_client_gets_nothing ws sv evs :
  forallb (fun ev => negb (concerns ws ev)) evs = true ->
  (member ws (clients (run evs (on_close ws sv))) = false /\
   sent (sockets (run evs (on_close ws sv)) ws) = sent (sockets sv ws)) /\
  (member ws (clients (run evs (on_error ws sv))) = false /\
   sent (sockets (run evs (on_error ws sv)) ws) = sent (sockets sv ws)).
Proof.
  intros Hevs.
  assert (Hout : ~ In ws (set_delete ws (clients sv))).
  { rewrite set_delete_In. tauto. }
  assert (Hmem : forall sv', ~ In ws (clients sv') -> member ws (clients sv') = false).
  { intros sv' H. destruct (member ws (clients sv')) eqn:E; [|reflexivity].
    apply member_In in E. contradiction. }
  split.
  - destruct (run_outside ws evs (on_close ws sv) Hevs Hout) as [H1 H2].
    split; [now apply Hmem|exact H2].
  - destruct (run_outside ws evs (on_error ws sv) Hevs Hout) as [H1 H2].
    split; [now apply Hmem|exact H2].
Qed.

Lemma closed_client_gets_nothing_witness :
  let sv := run [Moved 1 OPEN; Connection 1; Broadcast (JStr "a")] initial in
  let later := [Broadcast (JStr "b"); Moved 2 OPEN; Connection 2;
                Received 2 (Some (JObj [("type", JStr "reconnect_whatsapp")]))] in
  sent (sockets (run later (on_close 1 sv)) 1) = [welcome; JStr "a"].
Proof.
  intros sv later.
  destruct (closed_client_gets_nothing 1 sv later) as [[_ H] _].
  - reflexivity.
  - rewrite H. reflexivity.
Defined.

End WebSocketExtra.

(** ** Properties of the cron jobs *)
Module SchedulerJobsExtra.
Import JS Scheduler SchedulerJobs.

Lemma set_job_here key id js : In (key, id) (set_job key id js).
Proof.
  induction js as [|[k v] js IH]; simpl; [now left|].
  destruct (String.eqb key k); [now left|now right].
Qed.

Lemma set_job_other key id js k v :
  k <> key -> In (k, v) js -> In (k, v) (set_job key id js).
Proof.
  intros Hk. induction js as [|[k' v'] js IH]; simpl; [intros []|].
  destruct (String.eqb key k') eqn:E.
  - apply String.eqb_eq in E. subst k'. intros [H|H]; [congruence|now right].
  - intros [H|H]; [now left|right; now apply IH].
Qed.

Lemma stop_lookup id ts i :
  stop id ts !! i = (if Nat.eqb i id then stopped else fun t => t) <$> (ts !! i).
Proof.
  unfold stop. destruct (Nat.eqb i id) eqn:E.
  - apply Nat.eqb_eq in E. subst i. apply list_lookup_alter_eq.
  - apply Nat.eqb_neq in E. rewrite list_lookup_alter_ne by congruence.
    now destruct (ts !! i).
Qed.

(** After the loop of stops, a task reached through [jobs] is not
    running and every other task is as it was. *)
Lemma stop_loop_lookup i : forall js ts t',
  fold_left (fun ts (kv : string * nat) => stop (snd kv) ts) js ts !! i = Some t' ->
  exists t, ts !! i = Some t /\
    ((exists key, In (key, i) js) /\ running t' = false \/ t' = t).
Proof.
  induction js as [|[k v] js IH]; intros ts t' H; cbn [fold_left snd] in H.
  - exists t'. split; [exact H|now right].
  - destruct (IH _ _ H) as (t1 & Ht1 & Hcase). rewrite stop_lookup in Ht1.
    destruct (ts !! i) as [t|] eqn:Et; [|discriminate]. exists t. split; [reflexivity|].
    cbn in Ht1. injection Ht1 as <-.
    destruct Hcase as [[[key Hin] Hr]| ->].
    + left. split; [exists key; now right|exact Hr].
    + destruct (Nat.eqb i v) eqn:E; [|now right].
      apply Nat.eqb_eq in E. subst v. left. split; [exists k; now left|reflexivity].
Qed.

Lemma stop_jobs_tracked r :
  tracked r -> Forall (fun t => running t = false) (tasks (stop_jobs r)).
Proof.
  intros Htr. apply Forall_lookup. intros i t' H.
  unfold stop_jobs in H. cbn [tasks] in H.
  destruct (stop_loop_lookup i _ _ _ H) as (t & Ht & [[_ Hr]| -> ]); [exact Hr|].
  destruct (running t) eqn:Er; [|reflexivity].
  destruct (Htr i t Ht Er) as [key Hin]. exfalso.
  (* the task is reached through [jobs], so the loop stopped it *)
  clear Htr. revert H. generalize (tasks r). intros ts H.
  assert (Hstopped : forall js ts, In (key, i) js ->
            forall t', fold_left (fun ts (kv : string * nat) => stop (snd kv) ts) js ts !! i = Some t' ->
                       running t' = false).
  { clear. induction js as [|[k v] js IH]; intros ts Hin t' H; [destruct Hin|].
    destruct Hin as [Hin|Hin]; cbn [fold_left snd] in H.
    - injection Hin as -> ->.
      destruct (stop_loop_lookup i _ _ _ H) as (t1 & Ht1 & [[_ Hr]| -> ]); [exact Hr|].
      rewrite stop_lookup, Nat.eqb_refl in Ht1.
      destruct (ts !! i); [|discriminate]. cbn in Ht1. now injection Ht1 as <-.
    - now apply (IH _ Hin _ H). }
  specialize (Hstopped _ _ Hin _ H). congruence.
Qed.

Lemma filter_none (ts : list task) :
  Forall (fun t => running t = false) ts -> List.filter running ts = [].
Proof.
  induction ts as [|t ts IH]; intros H; [reflexivity|].
  inversion H as [|? ? Ht Hts]; subst. simpl. rewrite Ht. now apply IH.
Qed.

Lemma running_reports times :
  List.map action (List.filter running (List.map report_task times)) = List.map RunReport times.
Proof. induction times as [|t times IH]; [reflexivity|]. simpl. now rewrite IH. Qed.

Lemma report_key_not_d0 t : "report_" +:+ t <> "d0_update".
Proof. cbn. intros H. discriminate H. Qed.

Section CronProps.

Variable valid_expression : string -> bool.

(** What the loop of [initScheduler] leaves when the library accepts
    every expression. *)
Lemma schedule_reports_ok times : forall r,
  Forall (fun t => valid_expression (cron_expression t) = true) times ->
  exists r', schedule_reports valid_expression times r = (Ok tt, r') /\
    tasks r' = tasks r ++ List.map report_task times /\
    (forall k v, In (k, v) (jobs r) -> (forall t, In t times -> k <> "report_" +:+ t) ->
                 In (k, v) (jobs r')) /\
    (List.NoDup times -> forall i t, times !! i = Some t ->
                         In ("report_" +:+ t, (length (tasks r) + i)%nat) (jobs r')).
Proof.
  induction times as [|t0 times IH]; intros r Hall.
  - exists r. cbn. rewrite app_nil_r. repeat split; auto. intros _ i t H. discriminate H.
  - inversion Hall as [|? ? Hv Hrest]; subst.
    cbn [schedule_reports]. unfold schedule. rewrite Hv.
    set (r1 := {| tasks := tasks r ++ [started (cron_expression t0) (RunReport t0)];
                  jobs := set_job ("report_" +:+ t0) (length (tasks r)) (jobs r) |}).
    destruct (IH r1 Hrest) as (r' & Hrun & Htasks & Hkeep & Hnew).
    exists r'. split; [exact Hrun|]. split; [|split].
    + rewrite Htasks. subst r1. cbn [tasks List.map]. now rewrite <- app_assoc.
    + intros k v Hin Hk. apply Hkeep.
      * subst r1. cbn [jobs]. apply set_job_other; [|exact Hin]. apply Hk. now left.
      * intros t Ht. apply Hk. now right.
    + intros Hnd i t Hi. inversion Hnd as [|? ? Hout Hnd']; subst.
      destruct i as [|i]; cbn in Hi.
      * injection Hi as <-. rewrite Nat.add_0_r. apply Hkeep.
        -- subst r1. cbn [jobs]. apply set_job_here.
        -- intros t Ht E. apply DbReportsExtra.append_cancel_l in E. congruence.
      * specialize (Hnew Hnd' i t Hi). subst r1. cbn [tasks] in Hnew.
        rewrite length_app in Hnew. cbn [length] in Hnew.
        replace (length (tasks r) + S i)%nat with (length (tasks r) + 1 + i)%nat by lia.
        exact Hnew.
Qed.

(** X30. Changing the schedule replaces the jobs: if every running task
    is held in [jobs] and the cron library accepts the expressions, then
    after [setScheduledTimes] the running tasks are one report job per
    configured time, in order, and the hourly D0 update, every earlier job
    being stopped.  When no time is configured twice, every running task is
    again held in [jobs], and [stopAll] leaves nothing running. *)
Theorem setScheduledTimes_replaces_jobs times st r :
  tracked r ->
  Forall (fun t => valid_expression (cron_expression t) = true) times ->
  valid_expression d0_expression = true ->
  exists r',
    setScheduledTimes valid_expression times st r
    = ((Ok tt, r'),
       {| executionHistory := executionHistory st; scheduledTimes := times;
          broadcasts := broadcasts st |}) /\
    running_actions r' = List.map RunReport times ++ [UpdateD0] /\
    (List.NoDup times -> tracked r' /\ running_actions (stopAll r') = []).
Proof.
  intros Htr Hall Hd0.
  pose proof (stop_jobs_tracked r Htr) as Hstopped.
  destruct (schedule_reports_ok times (stop_jobs r) Hall) as (r1 & Hrun & Htasks & Hkeep & Hnew).
  set (r' := {| tasks := tasks r1 ++ [started d0_expression UpdateD0];
                jobs := set_job "d0_update" (length (tasks r1)) (jobs r1) |}).
  exists r'. split.
  { unfold setScheduledTimes, initScheduler. cbn [scheduledTimes]. rewrite Hrun.
    unfold schedule. rewrite Hd0. reflexivity. }
  assert (Hact : running_actions r' = List.map RunReport times ++ [UpdateD0]).
  { unfold running_actions. subst r'. cbn [tasks]. rewrite Htasks.
    rewrite !List.filter_app, (filter_none _ Hstopped), !List.map_app, running_reports.
    reflexivity. }
  split; [exact Hact|]. intros Hnd.
  assert (Htr' : tracked r').
  { intros id t Hid Hr. subst r'. cbn [tasks jobs] in *. rewrite Htasks in Hid.
    destruct (Nat.lt_ge_cases id (length (tasks (stop_jobs r)))) as [Hlt|Hge].
    - rewrite <- app_assoc, lookup_app_l in Hid by exact Hlt.
      rewrite Forall_lookup in Hstopped. specialize (Hstopped id t Hid). congruence.
    - rewrite <- app_assoc, lookup_app_r in Hid by exact Hge.
      destruct (Nat.lt_ge_cases (id - length (tasks (stop_jobs r))) (length times))
        as [Hlt|Hge'].
      + destruct (lookup_lt_is_Some_2 times _ Hlt) as [t0 Ht0].
        exists ("report_" +:+ t0). apply set_job_other; [apply report_key_not_d0|].
        specialize (Hnew Hnd _ _ Ht0).
        replace (length (tasks (stop_jobs r)) + (id - length (tasks (stop_jobs r))))%nat
          with id in Hnew by lia.
        exact Hnew.
      + exists "d0_update".
        assert (Hlen : length (List.map report_task times) = length times)
          by apply length_map.
        rewrite lookup_app_r in Hid by lia.
        assert (Hid' : id = length (tasks r1)).
        { rewrite Htasks, length_app, Hlen.
          destruct (id - length (tasks (stop_jobs r)) - length (List.map report_task times))%nat
            as [|n] eqn:En; [lia|].
          cbn in Hid. destruct n; discriminate Hid. }
        rewrite Hid'. apply set_job_here. }
  split; [exact Htr'|].
  unfold running_actions, stopAll. now rewrite (filter_none _ (stop_jobs_tracked r' Htr')).
Qed.

End CronProps.

Lemma setScheduledTimes_replaces_jobs_witness :
  let accept (_ : string) := true in
  let r0 := snd (initScheduler accept (scheduled ["18:00"]) {| tasks := []; jobs := [] |}) in
  exists r', fst (setScheduledTimes accept ["09:00"; "12:30"] (scheduled ["18:00"]) r0)
             = (Ok tt, r') /\
             running_actions r' = [RunReport "09:00"; RunReport "12:30"; UpdateD0].
Proof.
  intros accept r0.
  destruct (setScheduledTimes_replaces_jobs accept ["09:00"; "12:30"] (scheduled ["18:00"]) r0)
    as (r' & Hrun & Hact & _).
  - intros id t Hid Hr. subst r0. cbn in Hid.
    destruct id as [|[|id]]; cbn in Hid; [| |discriminate Hid].
    + exists "report_18:00". now left.
    + exists "d0_update". right. now left.
  - repeat constructor.
  - reflexivity.
  - exists r'. rewrite Hrun. split; [reflexivity|exact Hact].
Defined.

(** A time configured twice gets two running tasks, of which [jobs] holds
    only the second: [stopAll] leaves the first one running. *)
Example duplicate_time_escapes_stopAll :
  let accept (_ : string) := true in
  let r := snd (initScheduler accept (scheduled ["18:00"; "18:00"]) {| tasks := []; jobs := [] |}) in
  running_actions r = [RunReport "18:00"; RunReport "18:00"; UpdateD0] /\
  running_actions (stopAll r) = [RunReport "18:00"].
Proof. split; reflexivity. Qed.

End SchedulerJobsExtra.
